(** * The Coinbene exchange wrapper and the order book synchronizer

    A shallow embedding of [exchanges/coinbene/coinbene_wrapper.go] and of the
    order book synchronization engine its specification describes.

    Conventions of the embedding.
    - A Go function returning [(T, error)] returns a pair [T * option error];
      [None] is the nil error.  A pointer result that may be nil is an
      [option].
    - [float64] is the kernel's binary64 float, compared with [PrimFloat.ltb]
      and friends; [int64], [int] and [time.Duration] are [Z]; a [time.Time]
      is the instant it denotes, in nanoseconds, as a [Z].
    - Go packages are modules: [asset.Item], [orderbook.Base], [order.Submit].
    - Methods read the exchange object [c] and act on a [World]: the calls
      that left the wrapper so far (REST requests, websocket set-up) and the
      process-wide order book and ticker stores.  They are written in the
      state monad [M] over [World].
    - Functions that the wrapper calls and that live outside
      coinbene_wrapper.go (the REST endpoints of coinbene.go, the exchange
      base, validators, parsers of the Go library) are the fields of [Env]:
      what is proved of the wrapper holds whatever they do.  A REST
      endpoint's answer may depend on every call made before it.  Where the
      specification says what such a function does (publishing and
      verifying an order book, the ticker cache, the order of trades and
      candles), it is a definition written from the specification's words
      and marked as such.
    - [context.Context] and logging carry no data the wrapper inspects and
      are left out. *)

From Stdlib Require Import ZArith List String Bool Lia.
From Stdlib Require Import Sorting.Sorted Sorting.Permutation.
From Stdlib Require Import Floats.PrimFloat.
From stdpp Require Import base option list gmap strings pretty.
Import ListNotations.

(** ** Go's built-in types *)

Definition float64 : Type := PrimFloat.float.
Definition error : Type := string.

Module time.
Definition Time : Type := Z.
Definition Duration : Type := Z.
Definition Before (t u : Time) : bool := (t <? u)%Z.
Definition After (t u : Time) : bool := (u <? t)%Z.

(** The zero [Time], January 1 of year 1. *)
Definition Time_zero : Time := (-62135596800000000000)%Z.
End time.

(** ** package sort

    [sort.Sort] and [sort.Slice] reorder a slice so that no element is [less]
    than one standing before it.  Go does not promise which of the orders
    that qualify comes out.  The model inserts every element before the
    first one that is not less than it, so elements that compare equal keep
    their order: this is the insertion sort Go itself runs on short
    slices, and the stable sort the synchronizer asks for. *)
Module sort.
Section Insertion.
Context {A : Type} (less : A -> A -> bool).

Fixpoint insert (x : A) (l : list A) : list A :=
  match l with
  | [] => [x]
  | y :: l' => if less y x then y :: insert x l' else x :: y :: l'
  end.

Fixpoint Sort (l : list A) : list A :=
  match l with
  | [] => []
  | x :: l' => insert x (Sort l')
  end.
End Insertion.
End sort.

(** ** package asset

    [Item] is a string type; [%s] prints an item as the string it is.  The
    wrapper names two of the package's constants. *)
Module asset.
Definition Item : Type := string.
Definition Spot : Item := "spot".
Definition PerpetualSwap : Item := "perpetualswap".
End asset.

(** ** package currency *)
Module currency.
Record Pair : Type := {
  Delimiter : string;
  Base : string;
  Quote : string
}.

#[global] Instance Pair_eq_dec : EqDecision Pair.
Proof. solve_decision. Defined.

#[global] Instance Pair_countable : Countable Pair :=
  inj_countable'
    (fun p => (Delimiter p, Base p, Quote p))
    (fun t => {| Delimiter := t.1.1; Base := t.1.2; Quote := t.2 |})
    (fun p => match p with Build_Pair _ _ _ => eq_refl end).

Definition Pair_zero : Pair := {| Delimiter := ""; Base := ""; Quote := "" |}.

Definition ForwardSlashDelimiter : string := "/".
Definition DashDelimiter : string := "-".

Record PairFormat : Type := {
  Uppercase : bool;
  FormatDelimiter : string
}.

Record PairStore : Type := {
  RequestFormat : option PairFormat;
  ConfigFormat : option PairFormat
}.
End currency.

(** ** package order

    [Side] and [Type] are string types, and their [String] methods return
    the string itself. *)
Module order.
Definition Side : Type := string.
Definition Buy : Side := "BUY".
Definition Sell : Side := "SELL".
Definition Type_ : Type := string.

(** [Submit]'s fields [Side] and [Type] are [SubmitSide] and [SubmitType]
    here: the record shares its module with the types of those names. *)
Record Submit : Type := {
  Pair : currency.Pair;
  AssetType : asset.Item;
  SubmitSide : Side;
  SubmitType : Type_;
  Price : float64;
  Amount : float64;
  ClientID : string
}.

Record SubmitResponse : Type := {
  IsOrderPlaced : bool;
  FullyMatched : bool;
  OrderID : string
}.

Definition SubmitResponse_zero : SubmitResponse :=
  {| IsOrderPlaced := false; FullyMatched := false; OrderID := "" |}.

Record Cancel : Type := {
  CancelID : string;
  CancelPair : currency.Pair;
  CancelAssetType : asset.Item
}.

Record CancelAllResponse : Type := {
  Status : gmap string string;
  Count : Z
}.

Definition CancelAllResponse_zero : CancelAllResponse :=
  {| Status := ∅; Count := 0%Z |}.
End order.

(** ** package orderbook *)
Module orderbook.
Record Item : Type := {
  Amount : float64;
  Price : float64;
  OrderCount : Z
}.

Record Base : Type := {
  Bids : list Item;
  Asks : list Item;
  Exchange : string;
  Pair : currency.Pair;
  Asset : asset.Item;
  VerifyOrderbook : bool
}.

(** The price a side's best level stands at: the highest bid, the lowest
    ask.  [better x y] says that price [x] beats price [y]. *)
Definition best (better : float64 -> float64 -> bool) (side : list Item)
  : option float64 :=
  fold_left
    (fun acc x =>
       match acc with
       | None => Some (Price x)
       | Some p => if better (Price x) p then Some (Price x) else Some p
       end)
    side None.

Definition best_bid (bids : list Item) : option float64 :=
  best (fun x p => PrimFloat.ltb p x) bids.

Definition best_ask (asks : list Item) : option float64 :=
  best (fun x p => PrimFloat.ltb x p) asks.

(** Best bid < best ask, where both sides have a best level. *)
Definition uncrossed (bids asks : list Item) : bool :=
  match best_bid bids, best_ask asks with
  | Some b, Some a => PrimFloat.ltb b a
  | _, _ => true
  end.

Definition amounts_nonnegative (side : list Item) : bool :=
  forallb (fun x => PrimFloat.leb 0 (Amount x)) side.

(** Modelled from the spec: [Base.Verify] of package exchanges/orderbook,
    whose source is outside the wrapper.  "Verification, when enabled, asserts
    non-negative amounts and non-crossed best bid/ask after every apply"
    (spec 4.4); a crossed book is one "where best bid >= best ask"
    (glossary). *)
Definition Verify (bids asks : list Item) : option error :=
  if negb (amounts_nonnegative bids && amounts_nonnegative asks)
  then Some "orderbook verification: negative amount"
  else if negb (uncrossed bids asks)
  then Some "orderbook verification: crossed book"
  else None.

Definition Key : Type := string * currency.Pair * asset.Item.
End orderbook.

(** ** package ticker *)
Module ticker.
Record Price : Type := {
  Last : float64;
  High : float64;
  Low : float64;
  Bid : float64;
  Ask : float64;
  Volume : float64;
  Pair : currency.Pair;
  ExchangeName : string;
  AssetType : asset.Item;
  LastUpdated : time.Time
}.
End ticker.

(** ** package trade *)
Module trade.
Record Data : Type := {
  Exchange : string;
  CurrencyPair : currency.Pair;
  AssetType : asset.Item;
  Side : order.Side;
  Price : float64;
  Amount : float64;
  Timestamp : time.Time
}.

(** Modelled from the spec: the [Less] method of [trade.ByDate], declared in
    package exchanges/trade outside the wrapper.  Trades are returned
    "sorted ascending by timestamp" (spec 4.5), so one trade is less than
    another when its time stamp is before the other's. *)
Definition ByDate (a b : Data) : bool :=
  time.Before (Timestamp a) (Timestamp b).
End trade.

(** ** package kline *)
Module kline.
(** The intervals the wrapper names; any other is kept by its duration. *)
Inductive Interval : Type :=
  | OneMin | ThreeMin | FiveMin | FifteenMin | ThirtyMin
  | OneHour | TwoHour | FourHour | SixHour | TwelveHour
  | OneDay | ThreeDay | OneWeek | OneMonth
  | OtherInterval (d : time.Duration).

(** [in.Duration().Minutes()], which the wrapper asks of the intervals
    shorter than a day only; the value given to the others is not used. *)
Definition Minutes (i : Interval) : Z :=
  match i with
  | OneMin => 1%Z | ThreeMin => 3%Z | FiveMin => 5%Z | FifteenMin => 15%Z
  | ThirtyMin => 30%Z | OneHour => 60%Z | TwoHour => 120%Z | FourHour => 240%Z
  | SixHour => 360%Z | TwelveHour => 720%Z
  | _ => 0%Z
  end.

Record Candle : Type := {
  Time : time.Time;
  Open : float64;
  High : float64;
  Low : float64;
  Close : float64;
  Volume : float64
}.

Definition Candle_zero : Candle :=
  {| Time := time.Time_zero; Open := 0%float; High := 0%float;
     Low := 0%float; Close := 0%float; Volume := 0%float |}.

(** [Item]'s field [Interval] is [Interval_] here: the record shares its
    module with the type of that name. *)
Record Item : Type := {
  Exchange : string;
  Pair : currency.Pair;
  Asset : asset.Item;
  Interval_ : Interval;
  Candles : list Candle
}.

(** [kline.Item{}], the value returned beside an error. *)
Definition Item_zero : Item :=
  {| Exchange := ""; Pair := currency.Pair_zero; Asset := "";
     Interval_ := OtherInterval 0%Z; Candles := [] |}.

(** Modelled from the spec: [Item.SortCandlesByTimestamp] of package
    exchanges/kline, whose source is outside the wrapper.  As its name and
    its argument say, it sorts the candles by their time, descending when
    [desc] is set and ascending otherwise. *)
Definition SortCandlesByTimestamp (k : Item) (desc : bool) : Item :=
  {| Exchange := Exchange k; Pair := Pair k; Asset := Asset k;
     Interval_ := Interval_ k;
     Candles :=
       if desc
       then sort.Sort (fun a b => time.After (Time a) (Time b)) (Candles k)
       else sort.Sort (fun a b => time.Before (Time a) (Time b)) (Candles k) |}.
End kline.

(** ** packages protocol, config, request, stream, exchange *)
Module protocol.
Record Features : Type := {
  TickerFetching : bool;
  TradeFetching : bool;
  KlineFetching : bool;
  OrderbookFetching : bool;
  AccountBalance : bool;
  AccountInfo : bool;
  AutoPairUpdates : bool;
  GetOrder : bool;
  GetOrders : bool;
  CancelOrder : bool;
  CancelOrders : bool;
  SubmitOrder : bool;
  TradeFee : bool;
  CryptoDeposit : bool;
  CryptoWithdrawal : bool;
  MultiChainDeposits : bool;
  MultiChainWithdrawals : bool;
  Subscribe : bool;
  Unsubscribe : bool;
  AuthenticatedEndpoints : bool
}.

Definition Features_zero : Features :=
  Build_Features false false false false false false false false false false
                 false false false false false false false false false false.
End protocol.

Module config.
Record Exchange : Type := {
  Name : string;
  Enabled : bool;
  HTTPTimeout : time.Duration;
  WebsocketResponseCheckTimeout : time.Duration;
  WebsocketResponseMaxLimit : time.Duration
}.
End config.

Module request.
(** What [request.New] is given: a name, the HTTP client's timeout and
    whether a rate limiter is attached. *)
Record Requester : Type := {
  Name : string;
  Timeout : time.Duration;
  WithLimiter : bool
}.
End request.

Module stream.
(** The methods of coinbene_websocket.go handed to the websocket. *)
Inductive Handler : Type :=
  WsConnect | Subscribe | Unsubscribe | GenerateDefaultSubscriptions.

Record WebsocketSetup : Type := {
  ExchangeConfig : config.Exchange;
  DefaultURL : string;
  RunningURL : string;
  Connector : Handler;
  Subscriber : Handler;
  Unsubscriber : Handler;
  GenerateSubscriptions : Handler;
  Features : protocol.Features;
  SortBuffer : bool
}.

Record ConnectionSetup : Type := {
  ResponseCheckTimeout : time.Duration;
  ResponseMaxLimit : time.Duration
}.

(** A websocket remembers what it was set up with. *)
Record Websocket : Type := {
  Setup_ : option WebsocketSetup;
  Connections : list ConnectionSetup
}.

Definition New : Websocket := {| Setup_ := None; Connections := [] |}.
End stream.

Module exchange.
Inductive URL : Type := RestSpot | RestSwap | WebsocketSpot.

Record FeaturesSupported : Type := {
  REST : bool;
  Websocket : bool;
  RESTCapabilities : protocol.Features;
  WebsocketCapabilities : protocol.Features;
  NoFiatWithdrawals : bool;
  WithdrawCryptoWithAPIPermission : bool;
  KlineDateRanges : bool;
  KlineIntervals : bool
}.

Record FeaturesEnabled : Type := {
  AutoPairUpdates : bool;
  KlineEnabledIntervals : list kline.Interval
}.

Record Features : Type := {
  Supports : FeaturesSupported;
  Enabled : FeaturesEnabled
}.

Definition Features_zero : Features :=
  {| Supports :=
       {| REST := false; Websocket := false;
          RESTCapabilities := protocol.Features_zero;
          WebsocketCapabilities := protocol.Features_zero;
          NoFiatWithdrawals := false;
          WithdrawCryptoWithAPIPermission := false;
          KlineDateRanges := false; KlineIntervals := false |};
     Enabled := {| AutoPairUpdates := false; KlineEnabledIntervals := [] |} |}.
End exchange.

(** ** package coinbene: the types of coinbene_types.go the wrapper reads *)

(** A decoded JSON value, Go's [interface{}] after [json.Unmarshal]. *)
#[local] Set Warnings "-register-all".
Inductive JSON : Type :=
  | JNull
  | JBool (b : bool)
  | JNumber (f : float64)
  | JString (s : string)
  | JArray (l : list JSON)
  | JObject (l : list (string * JSON)).

(** The type assertion [v.(string)]. *)
Definition as_string (v : JSON) : option string :=
  match v with
  | JString s => Some s
  | _ => None
  end.

Record PairData : Type := { PairData_Symbol : string }.

Record Instrument : Type := { InstrumentID : currency.Pair }.

Record TickerData : Type := {
  Symbol : string;
  LatestPrice : float64;
  BestBid : float64;
  BestAsk : float64;
  DailyHigh : float64;
  DailyLow : float64;
  DailyVolume : float64
}.

Record SwapTicker : Type := {
  LastPrice : float64;
  High24Hour : float64;
  Low24Hour : float64;
  BestBidPrice : float64;
  BestAskPrice : float64;
  Volume24Hour : float64;
  SwapTicker_Timestamp : time.Time
}.

Record OrderbookItem : Type := {
  Price : float64;
  Amount : float64;
  Count : Z
}.

Record Orderbook : Type := {
  Bids : list OrderbookItem;
  Asks : list OrderbookItem
}.

(** The zero [Orderbook], what [var tempResp Orderbook] declares. *)
Definition Orderbook_zero : Orderbook := {| Bids := []; Asks := [] |}.

Record TradeItem : Type := {
  Direction : string;
  TradeTime : time.Time;
  TradePrice : float64;
  TradeVolume : float64
}.

Record OrderPlacementResponse : Type := { OrderID : string }.

Record OrderInfo : Type := { OrderInfo_OrderID : string }.

Record CandleResponse : Type := { Data : list (list JSON) }.

(** The exchange object: the fields of [Coinbene] and of the [exchange.Base]
    it embeds that the wrapper reads or writes. *)
Record Coinbene : Type := {
  Name : string;
  Enabled : bool;
  Verbose : bool;
  RequiresKey : bool;
  RequiresSecret : bool;
  CurrencyPairs : list (asset.Item * currency.PairStore);
  Features : exchange.Features;
  Requester : option request.Requester;
  Endpoints : list (exchange.URL * string);
  Websocket : stream.Websocket;
  WebsocketResponseMaxLimit : time.Duration;
  WebsocketResponseCheckTimeout : time.Duration;
  WebsocketOrderbookBufferLimit : Z;
  CanVerifyOrderbook : bool
}.

(** ** What leaves the wrapper *)

(** A request to the exchange: one constructor per REST method of
    coinbene.go the wrapper calls, with the arguments it passes. *)
Inductive Request : Type :=
  | ReqGetAllPairs
  | ReqGetSwapInstruments
  | ReqGetTickers
  | ReqGetSwapTickers
  | ReqGetOrderbook (symbol : string) (size : Z)
  | ReqGetSwapOrderbook (symbol : string) (size : Z)
  | ReqGetTrades (symbol : string) (limit : Z)
  | ReqPlaceSpotOrder (price quantity : float64)
      (symbol direction orderType clientID : string) (notional : Z)
  | ReqFetchOpenSpotOrders (symbol : string)
  | ReqCancelSpotOrder (orderID : string)
  | ReqGetKlines (pair : string) (start end_ : time.Time) (period : string)
  | ReqGetSwapKlines (pair : string) (start end_ : time.Time) (period : string).

Inductive Call : Type :=
  | REST (r : Request)
  | WebsocketSetup (s : stream.WebsocketSetup)
  | WebsocketSetupNewConnection (s : stream.ConnectionSetup).

(** The REST requests among some calls, oldest first. *)
Definition requests (cs : list Call) : list Request :=
  omap (fun c => match c with REST r => Some r | _ => None end) cs.

Record World : Type := {
  calls : list Call;
  books : gmap orderbook.Key orderbook.Base;
  tickers : gmap orderbook.Key ticker.Price
}.

(** ** What the wrapper is linked against

    The functions and constants of the repository, and of the Go library,
    that the wrapper uses and whose text is not in coinbene_wrapper.go.  The
    REST methods of coinbene.go are given the calls made before them, so an
    answer may change from one request to the next. *)
Record Env : Type := {
  (* package exchange: constants *)
  DefaultHTTPTimeout : time.Duration;
  DefaultWebsocketResponseCheckTimeout : time.Duration;
  DefaultWebsocketResponseMaxLimit : time.Duration;
  DefaultWebsocketOrderbookBufferLimit : Z;
  (* package coinbene: constants *)
  coinbeneAPIURL : string;
  coinbeneSwapAPIURL : string;
  wsContractURL : string;
  (* package exchange: methods of Base and of its endpoints *)
  StoreAssetPairFormat :
    list (asset.Item * currency.PairStore) -> asset.Item ->
    currency.PairStore ->
    list (asset.Item * currency.PairStore) * option error;
  SetDefaultEndpoints :
    list (exchange.URL * string) ->
    list (exchange.URL * string) * option error;
  GetURL : Coinbene -> exchange.URL -> string * option error;
  SetupDefaults : Coinbene -> config.Exchange -> Coinbene * option error;
  SupportsAsset : Coinbene -> asset.Item -> bool;
  GetEnabledPairs :
    Coinbene -> asset.Item -> list currency.Pair * option error;
  GetPairFormat :
    Coinbene -> asset.Item -> bool -> currency.PairFormat * option error;
  FormatExchangeCurrency :
    Coinbene -> currency.Pair -> asset.Item -> currency.Pair * option error;
  ValidateKline :
    Coinbene -> currency.Pair -> asset.Item -> kline.Interval -> option error;
  AddTradesToBuffer :
    Coinbene -> list trade.Data -> list trade.Data * option error;
  (* package currency *)
  Pair_String : currency.Pair -> string;
  Pair_Format : currency.Pair -> string -> bool -> currency.Pair;
  NewPairFromString : string -> currency.Pair * option error;
  Pairs_Contains : list currency.Pair -> currency.Pair -> bool -> bool;
  (* packages order and ticker: validation *)
  Submit_Validate : order.Submit -> option error;
  Cancel_Validate : order.Cancel -> option error;
  Price_Validate : ticker.Price -> option error;
  (* package stream *)
  Websocket_Setup :
    stream.Websocket -> stream.WebsocketSetup ->
    stream.Websocket * option error;
  Websocket_SetupNewConnection :
    stream.Websocket -> stream.ConnectionSetup ->
    stream.Websocket * option error;
  (* the Go library: time.Parse(time.RFC3339, _), strconv.ParseFloat(_, 64) *)
  time_Parse_RFC3339 : string -> time.Time * option error;
  strconv_ParseFloat : string -> float64 * option error;
  (* package coinbene: the REST methods of coinbene.go *)
  GetAllPairs : list Call -> list PairData * option error;
  GetSwapInstruments : list Call -> list Instrument * option error;
  GetTickers : list Call -> list TickerData * option error;
  GetSwapTickers : list Call -> gmap string SwapTicker * option error;
  GetOrderbook : list Call -> string -> Z -> Orderbook * option error;
  GetSwapOrderbook : list Call -> string -> Z -> Orderbook * option error;
  GetTrades : list Call -> string -> Z -> list TradeItem * option error;
  PlaceSpotOrder :
    list Call -> float64 -> float64 -> string -> string -> string -> string ->
    Z -> OrderPlacementResponse * option error;
  FetchOpenSpotOrders : list Call -> string -> list OrderInfo * option error;
  CancelSpotOrder : list Call -> string -> string * option error;
  GetKlines :
    list Call -> string -> time.Time -> time.Time -> string ->
    CandleResponse * option error;
  GetSwapKlines :
    list Call -> string -> time.Time -> time.Time -> string ->
    CandleResponse * option error
}.

(** ** The state monad over [World] *)

Definition M (A : Type) : Type := World -> A * World.

Definition ret {A : Type} (a : A) : M A := fun w => (a, w).

Definition bind {A B : Type} (m : M A) (k : A -> M B) : M B :=
  fun w => let (a, w') := m w in k a w'.

Notation "x <- m ;; k" := (bind m (fun x => k))
  (at level 100, m at next level, right associativity).

(** Issue a call: its answer is read off the calls made so far, and the call
    joins them. *)
Definition call {A : Type} (c : Call) (answer : list Call -> A) : M A :=
  fun w =>
    (answer (calls w),
     {| calls := calls w ++ [c]; books := books w; tickers := tickers w |}).

Definition rest {A : Type} (r : Request) (answer : list Call -> A) : M A :=
  call (REST r) answer.

(** The calls a computation makes from [w] on. *)
Definition calls_made {A : Type} (m : M A) (w : World) : list Call :=
  drop (length (calls w)) (calls (snd (m w))).

(** ** The order book and ticker stores *)

(** Modelled from the spec: [Base.Process] of package exchanges/orderbook,
    whose source is outside the wrapper.  A book is published under its key
    (exchange, pair, asset) "only after an apply completes" (spec 4.4);
    when its verification flag is set, a book that fails [Verify] is
    refused and the store keeps what it held. *)
Definition orderbook_Process (b : orderbook.Base) : M (option error) :=
  fun w =>
    match
      (if orderbook.VerifyOrderbook b
       then orderbook.Verify (orderbook.Bids b) (orderbook.Asks b)
       else None)
    with
    | Some e => (Some e, w)
    | None =>
        (None,
         {| calls := calls w;
            books :=
              <[(orderbook.Exchange b, orderbook.Pair b, orderbook.Asset b)
                := b]> (books w);
            tickers := tickers w |})
    end.

(** Modelled from the spec: [orderbook.Get] of package exchanges/orderbook,
    whose source is outside the wrapper.  "GetBook(key) returns an immutable,
    fully-applied snapshot", or "an explicit not-yet-synced indicator"
    (spec 4.4) when the store holds no book under the key. *)
Definition orderbook_Get (exch : string) (p : currency.Pair) (a : asset.Item)
  : M (option orderbook.Base * option error) :=
  fun w =>
    match books w !! (exch, p, a) with
    | Some b => ((Some b, None), w)
    | None => ((None, Some "orderbook: not yet synced"), w)
    end.

Section Wrapper.
Context (E : Env).

(** Modelled from the spec: [ticker.ProcessTicker] of package
    exchanges/ticker, whose source is outside the wrapper.  The ticker cache
    is keyed by (exchange, pair, asset) and "Process() always overwrites"
    (spec 4.7); what it rejects a price for is [Price_Validate]. *)
Definition ticker_ProcessTicker (p : ticker.Price) : M (option error) :=
  fun w =>
    match Price_Validate E p with
    | Some e => (Some e, w)
    | None =>
        (None,
         {| calls := calls w;
            books := books w;
            tickers :=
              <[(ticker.ExchangeName p, ticker.Pair p, ticker.AssetType p)
                := p]> (tickers w) |})
    end.

(** [fmt.Errorf("%s does not support asset type %s", c.Name, a)] *)
Definition errUnsupportedAsset (c : Coinbene) (a : asset.Item) : error :=
  Name c +:+ " does not support asset type " +:+ a.

(** [SetDefaults] sets the basic defaults for Coinbene.  An error of
    [StoreAssetPairFormat] or [SetDefaultEndpoints] is logged and the
    function goes on. *)
Definition SetDefaults (c : Coinbene) : Coinbene :=
  let pairs1 :=
    fst (StoreAssetPairFormat E (CurrencyPairs c) asset.Spot
           {| currency.RequestFormat :=
                Some {| currency.Uppercase := true;
                        currency.FormatDelimiter :=
                          currency.ForwardSlashDelimiter |};
              currency.ConfigFormat :=
                Some {| currency.Uppercase := true;
                        currency.FormatDelimiter :=
                          currency.ForwardSlashDelimiter |} |}) in
  let pairs2 :=
    fst (StoreAssetPairFormat E pairs1 asset.PerpetualSwap
           {| currency.RequestFormat :=
                Some {| currency.Uppercase := true;
                        currency.FormatDelimiter := currency.DashDelimiter |};
              currency.ConfigFormat :=
                Some {| currency.Uppercase := true;
                        currency.FormatDelimiter :=
                          currency.ForwardSlashDelimiter |} |}) in
  {| Name := "Coinbene";
     Enabled := true;
     Verbose := true;
     RequiresKey := true;
     RequiresSecret := true;
     CurrencyPairs := pairs2;
     Features :=
       {| exchange.Supports :=
            {| exchange.REST := true;
               exchange.Websocket := true;
               exchange.RESTCapabilities :=
                 {| protocol.TickerFetching := true;
                    protocol.TradeFetching := true;
                    protocol.KlineFetching := false;
                    protocol.OrderbookFetching := true;
                    protocol.AccountBalance := true;
                    protocol.AccountInfo := false;
                    protocol.AutoPairUpdates := true;
                    protocol.GetOrder := true;
                    protocol.GetOrders := true;
                    protocol.CancelOrder := true;
                    protocol.CancelOrders := true;
                    protocol.SubmitOrder := true;
                    protocol.TradeFee := true;
                    protocol.CryptoDeposit := true;
                    protocol.CryptoWithdrawal := true;
                    protocol.MultiChainDeposits := true;
                    protocol.MultiChainWithdrawals := true;
                    protocol.Subscribe := false;
                    protocol.Unsubscribe := false;
                    protocol.AuthenticatedEndpoints := false |};
               exchange.WebsocketCapabilities :=
                 {| protocol.TickerFetching := true;
                    protocol.TradeFetching := true;
                    protocol.KlineFetching := true;
                    protocol.OrderbookFetching := true;
                    protocol.AccountBalance := true;
                    protocol.AccountInfo := true;
                    protocol.AutoPairUpdates := false;
                    protocol.GetOrder := true;
                    protocol.GetOrders := true;
                    protocol.CancelOrder := false;
                    protocol.CancelOrders := false;
                    protocol.SubmitOrder := false;
                    protocol.TradeFee := false;
                    protocol.CryptoDeposit := false;
                    protocol.CryptoWithdrawal := false;
                    protocol.MultiChainDeposits := false;
                    protocol.MultiChainWithdrawals := false;
                    protocol.Subscribe := true;
                    protocol.Unsubscribe := true;
                    protocol.AuthenticatedEndpoints := true |};
               exchange.NoFiatWithdrawals := true;
               exchange.WithdrawCryptoWithAPIPermission := true;
               exchange.KlineDateRanges := true;
               exchange.KlineIntervals := true |};
          exchange.Enabled :=
            {| exchange.AutoPairUpdates := true;
               exchange.KlineEnabledIntervals :=
                 [kline.OneMin; kline.ThreeMin; kline.FiveMin;
                  kline.FifteenMin; kline.ThirtyMin; kline.OneHour;
                  kline.TwoHour; kline.FourHour; kline.SixHour;
                  kline.TwelveHour; kline.OneDay; kline.ThreeDay;
                  kline.OneWeek] |} |};
     Requester :=
       Some {| request.Name := "Coinbene";
               request.Timeout := DefaultHTTPTimeout E;
               request.WithLimiter := true |};
     Endpoints :=
       fst (SetDefaultEndpoints E
              [(exchange.RestSpot, coinbeneAPIURL E);
               (exchange.RestSwap, coinbeneSwapAPIURL E);
               (exchange.WebsocketSpot, wsContractURL E)]);
     Websocket := stream.New;
     WebsocketResponseMaxLimit := DefaultWebsocketResponseMaxLimit E;
     WebsocketResponseCheckTimeout := DefaultWebsocketResponseCheckTimeout E;
     WebsocketOrderbookBufferLimit := DefaultWebsocketOrderbookBufferLimit E;
     CanVerifyOrderbook := CanVerifyOrderbook c |}.

(** [c.SetEnabled(false)] and the assignment of [c.Websocket]. *)
Definition SetEnabled (c : Coinbene) (b : bool) : Coinbene :=
  {| Name := Name c; Enabled := b; Verbose := Verbose c;
     RequiresKey := RequiresKey c; RequiresSecret := RequiresSecret c;
     CurrencyPairs := CurrencyPairs c; Features := Features c;
     Requester := Requester c; Endpoints := Endpoints c;
     Websocket := Websocket c;
     WebsocketResponseMaxLimit := WebsocketResponseMaxLimit c;
     WebsocketResponseCheckTimeout := WebsocketResponseCheckTimeout c;
     WebsocketOrderbookBufferLimit := WebsocketOrderbookBufferLimit c;
     CanVerifyOrderbook := CanVerifyOrderbook c |}.

Definition with_Websocket (c : Coinbene) (ws : stream.Websocket) : Coinbene :=
  {| Name := Name c; Enabled := Enabled c; Verbose := Verbose c;
     RequiresKey := RequiresKey c; RequiresSecret := RequiresSecret c;
     CurrencyPairs := CurrencyPairs c; Features := Features c;
     Requester := Requester c; Endpoints := Endpoints c;
     Websocket := ws;
     WebsocketResponseMaxLimit := WebsocketResponseMaxLimit c;
     WebsocketResponseCheckTimeout := WebsocketResponseCheckTimeout c;
     WebsocketOrderbookBufferLimit := WebsocketOrderbookBufferLimit c;
     CanVerifyOrderbook := CanVerifyOrderbook c |}.

(** [Setup] takes in the supplied exchange configuration details and sets
    params.  The websocket is reached through a pointer: what its set-up
    leaves of it is the exchange object's websocket afterwards. *)
Definition Setup (c : Coinbene) (exch : config.Exchange)
  : M (Coinbene * option error) :=
  if negb (config.Enabled exch) then ret (SetEnabled c false, None)
  else
    match SetupDefaults E c exch with
    | (c, Some err) => ret (c, Some err)
    | (c, None) =>
        match GetURL E c exchange.WebsocketSpot with
        | (_, Some err) => ret (c, Some err)
        | (wsRunningURL, None) =>
            let s :=
              {| stream.ExchangeConfig := exch;
                 stream.DefaultURL := wsContractURL E;
                 stream.RunningURL := wsRunningURL;
                 stream.Connector := stream.WsConnect;
                 stream.Subscriber := stream.Subscribe;
                 stream.Unsubscriber := stream.Unsubscribe;
                 stream.GenerateSubscriptions :=
                   stream.GenerateDefaultSubscriptions;
                 stream.Features :=
                   exchange.WebsocketCapabilities
                     (exchange.Supports (Features c));
                 stream.SortBuffer := true |} in
            r <- call (WebsocketSetup s)
                   (fun _ => Websocket_Setup E (Websocket c) s) ;;
            match r with
            | (ws, Some err) => ret (with_Websocket c ws, Some err)
            | (ws, None) =>
                let n :=
                  {| stream.ResponseCheckTimeout :=
                       config.WebsocketResponseCheckTimeout exch;
                     stream.ResponseMaxLimit :=
                       config.WebsocketResponseMaxLimit exch |} in
                r <- call (WebsocketSetupNewConnection n)
                       (fun _ => Websocket_SetupNewConnection E ws n) ;;
                ret (with_Websocket c (fst r), snd r)
            end
        end
    end.
(** [FetchTradablePairs] returns a list of exchange tradable pairs. *)
Definition FetchTradablePairs (c : Coinbene) (a : asset.Item)
  : M (list string * option error) :=
  if negb (SupportsAsset E c a)
  then ret ([], Some (errUnsupportedAsset c a))
  else if decide (a = asset.Spot) then
    r <- rest ReqGetAllPairs (GetAllPairs E) ;;
    match r with
    | (_, Some err) => ret ([], Some err)
    | (pairs, None) => ret (map PairData_Symbol pairs, None)
    end
  else if decide (a = asset.PerpetualSwap) then
    r <- rest ReqGetSwapInstruments (GetSwapInstruments E) ;;
    match r with
    | (_, Some err) => ret ([], Some err)
    | (instruments, None) =>
        match GetPairFormat E c asset.PerpetualSwap false with
        | (_, Some err) => ret ([], Some err)
        | (pFmt, None) =>
            ret (map
                   (fun i =>
                      Pair_String E
                        (Pair_Format E (InstrumentID i)
                           (currency.FormatDelimiter pFmt)
                           (currency.Uppercase pFmt)))
                   instruments,
                 None)
        end
    end
  else ret ([], None).

(** The loop of [UpdateTickers] over the spot tickers. *)
Fixpoint UpdateTickers_spot (c : Coinbene) (a : asset.Item)
    (allPairs : list currency.Pair) (tickers : list TickerData)
  : M (option error) :=
  match tickers with
  | [] => ret None
  | t :: tickers' =>
      match NewPairFromString E (Symbol t) with
      | (_, Some err) => ret (Some err)
      | (newP, None) =>
          if negb (Pairs_Contains E allPairs newP true)
          then UpdateTickers_spot c a allPairs tickers'
          else
            err <- ticker_ProcessTicker
                     {| ticker.Pair := newP;
                        ticker.Last := LatestPrice t;
                        ticker.High := DailyHigh t;
                        ticker.Low := DailyLow t;
                        ticker.Bid := BestBid t;
                        ticker.Ask := BestAsk t;
                        ticker.Volume := DailyVolume t;
                        ticker.LastUpdated := time.Time_zero;
                        ticker.ExchangeName := Name c;
                        ticker.AssetType := a |} ;;
            match err with
            | Some err => ret (Some err)
            | None => UpdateTickers_spot c a allPairs tickers'
            end
      end
  end.

(** The loop of [UpdateTickers] over the enabled pairs of the swap asset. *)
Fixpoint UpdateTickers_swap (c : Coinbene) (a : asset.Item)
    (tickers : gmap string SwapTicker) (allPairs : list currency.Pair)
  : M (option error) :=
  match allPairs with
  | [] => ret None
  | p :: allPairs' =>
      match FormatExchangeCurrency E c p a with
      | (_, Some err) => ret (Some err)
      | (fpair, None) =>
          match tickers !! Pair_String E fpair with
          | None => UpdateTickers_swap c a tickers allPairs'
          | Some tick =>
              err <- ticker_ProcessTicker
                       {| ticker.Pair := p;
                          ticker.Last := LastPrice tick;
                          ticker.High := High24Hour tick;
                          ticker.Low := Low24Hour tick;
                          ticker.Bid := BestBidPrice tick;
                          ticker.Ask := BestAskPrice tick;
                          ticker.Volume := Volume24Hour tick;
                          ticker.LastUpdated := SwapTicker_Timestamp tick;
                          ticker.ExchangeName := Name c;
                          ticker.AssetType := a |} ;;
              match err with
              | Some err => ret (Some err)
              | None => UpdateTickers_swap c a tickers allPairs'
              end
          end
      end
  end.

(** [UpdateTickers] updates the ticker for all currency pairs of a given
    asset type. *)
Definition UpdateTickers (c : Coinbene) (a : asset.Item) : M (option error) :=
  if negb (SupportsAsset E c a)
  then ret (Some (errUnsupportedAsset c a))
  else
    match GetEnabledPairs E c a with
    | (_, Some err) => ret (Some err)
    | (allPairs, None) =>
        if decide (a = asset.Spot) then
          r <- rest ReqGetTickers (GetTickers E) ;;
          match r with
          | (_, Some err) => ret (Some err)
          | (tickers, None) => UpdateTickers_spot c a allPairs tickers
          end
        else if decide (a = asset.PerpetualSwap) then
          r <- rest ReqGetSwapTickers (GetSwapTickers E) ;;
          match r with
          | (_, Some err) => ret (Some err)
          | (tickers, None) => UpdateTickers_swap c a tickers allPairs
          end
        else ret None
    end.

(** One level of a REST order book as an [orderbook.Item]; the order count is
    carried over for the swap asset only. *)
Definition book_item (assetType : asset.Item) (x : OrderbookItem)
  : orderbook.Item :=
  {| orderbook.Price := Price x;
     orderbook.Amount := Amount x;
     orderbook.OrderCount :=
       if decide (assetType = asset.PerpetualSwap) then Count x else 0%Z |}.

(** [UpdateOrderbook] updates and returns the orderbook for a currency
    pair. *)
Definition UpdateOrderbook (c : Coinbene) (p : currency.Pair)
    (assetType : asset.Item) : M (option orderbook.Base * option error) :=
  let book :=
    {| orderbook.Exchange := Name c;
       orderbook.Pair := p;
       orderbook.Asset := assetType;
       orderbook.VerifyOrderbook := CanVerifyOrderbook c;
       orderbook.Bids := [];
       orderbook.Asks := [] |} in
  if negb (SupportsAsset E c assetType)
  then ret (Some book, Some (errUnsupportedAsset c assetType))
  else
    match FormatExchangeCurrency E c p assetType with
    | (_, Some err) => ret (Some book, Some err)
    | (fpair, None) =>
        r <- (if decide (assetType = asset.Spot) then
                rest (ReqGetOrderbook (Pair_String E fpair) 100)
                  (fun h => GetOrderbook E h (Pair_String E fpair) 100)
              else if decide (assetType = asset.PerpetualSwap) then
                rest (ReqGetSwapOrderbook (Pair_String E fpair) 100)
                  (fun h => GetSwapOrderbook E h (Pair_String E fpair) 100)
              else ret (Orderbook_zero, None)) ;;
        match r with
        | (_, Some err) => ret (Some book, Some err)
        | (tempResp, None) =>
            let book :=
              {| orderbook.Exchange := Name c;
                 orderbook.Pair := p;
                 orderbook.Asset := assetType;
                 orderbook.VerifyOrderbook := CanVerifyOrderbook c;
                 orderbook.Bids := map (book_item assetType) (Bids tempResp);
                 orderbook.Asks := map (book_item assetType) (Asks tempResp)
              |} in
            err <- orderbook_Process book ;;
            match err with
            | Some err => ret (Some book, Some err)
            | None => orderbook_Get (Name c) p assetType
            end
        end
    end.

(** [FetchOrderbook] returns orderbook base on the currency pair. *)
Definition FetchOrderbook (c : Coinbene) (p : currency.Pair)
    (assetType : asset.Item) : M (option orderbook.Base * option error) :=
  if negb (SupportsAsset E c assetType)
  then ret (None, Some (errUnsupportedAsset c assetType))
  else
    r <- orderbook_Get (Name c) p assetType ;;
    match r with
    | (_, Some _) => UpdateOrderbook c p assetType
    | (ob, None) => ret (ob, None)
    end.

(** [GetRecentTrades] returns the most recent trades for a currency and
    asset.  [AddTradesToBuffer] is handed the slice itself, so what it
    leaves in the slice is what gets sorted. *)
Definition GetRecentTrades (c : Coinbene) (p : currency.Pair)
    (assetType : asset.Item) : M (list trade.Data * option error) :=
  match FormatExchangeCurrency E c p assetType with
  | (_, Some err) => ret ([], Some err)
  | (p, None) =>
      r <- rest (ReqGetTrades (Pair_String E p) 100)
             (fun h => GetTrades E h (Pair_String E p) 100) ;;
      match r with
      | (_, Some err) => ret ([], Some err)
      | (tradeData, None) =>
          let resp :=
            map
              (fun t =>
                 {| trade.Exchange := Name c;
                    trade.CurrencyPair := p;
                    trade.AssetType := assetType;
                    trade.Side :=
                      if decide (Direction t = "sell")
                      then order.Sell else order.Buy;
                    trade.Price := TradePrice t;
                    trade.Amount := TradeVolume t;
                    trade.Timestamp := TradeTime t |})
              tradeData in
          match AddTradesToBuffer E c resp with
          | (_, Some err) => ret ([], Some err)
          | (resp, None) => ret (sort.Sort trade.ByDate resp, None)
          end
      end
  end.

(** [SubmitOrder] submits a new order. *)
Definition SubmitOrder (c : Coinbene) (s : order.Submit)
  : M (order.SubmitResponse * option error) :=
  let resp := order.SubmitResponse_zero in
  match Submit_Validate E s with
  | Some err => ret (resp, Some err)
  | None =>
      if bool_decide (order.SubmitSide s <> order.Buy)
         && bool_decide (order.SubmitSide s <> order.Sell)
      then
        ret (resp,
             Some (order.SubmitSide s
                   +:+ " orderside is not supported by this exchange"))
      else
        match FormatExchangeCurrency E c (order.Pair s) asset.Spot with
        | (_, Some err) => ret (resp, Some err)
        | (fpair, None) =>
            r <- rest
                   (ReqPlaceSpotOrder (order.Price s) (order.Amount s)
                      (Pair_String E fpair) (order.SubmitSide s)
                      (order.SubmitType s) (order.ClientID s) 0)
                   (fun h =>
                      PlaceSpotOrder E h (order.Price s) (order.Amount s)
                        (Pair_String E fpair) (order.SubmitSide s)
                        (order.SubmitType s) (order.ClientID s) 0) ;;
            match r with
            | (_, Some err) => ret (resp, Some err)
            | (tempResp, None) =>
                ret ({| order.IsOrderPlaced := true;
                        order.FullyMatched := order.FullyMatched resp;
                        order.OrderID := OrderID tempResp |},
                     None)
            end
        end
  end.

(** The loop of [CancelAllOrders]: one cancel request per open order, its
    outcome written into the map under the order's ID. *)
Fixpoint CancelAllOrders_loop (orders : list OrderInfo)
    (tempMap : gmap string string) : M (gmap string string) :=
  match orders with
  | [] => ret tempMap
  | o :: orders' =>
      r <- rest (ReqCancelSpotOrder (OrderInfo_OrderID o))
             (fun h => CancelSpotOrder E h (OrderInfo_OrderID o)) ;;
      CancelAllOrders_loop orders'
        (<[OrderInfo_OrderID o :=
             match snd r with
             | Some _ => "Failed"
             | None => "Success"
             end]> tempMap)
  end.

(** [CancelAllOrders] cancels all orders associated with a currency pair. *)
Definition CancelAllOrders (c : Coinbene) (orderCancellation : order.Cancel)
  : M (order.CancelAllResponse * option error) :=
  match Cancel_Validate E orderCancellation with
  | Some err => ret (order.CancelAllResponse_zero, Some err)
  | None =>
      let resp := order.CancelAllResponse_zero in
      match
        FormatExchangeCurrency E c (order.CancelPair orderCancellation)
          (order.CancelAssetType orderCancellation)
      with
      | (_, Some err) => ret (resp, Some err)
      | (fpair, None) =>
          r <- rest (ReqFetchOpenSpotOrders (Pair_String E fpair))
                 (fun h => FetchOpenSpotOrders E h (Pair_String E fpair)) ;;
          match r with
          | (_, Some err) => ret (resp, Some err)
          | (orders, None) =>
              tempMap <- CancelAllOrders_loop orders ∅ ;;
              ret ({| order.Status := tempMap;
                      order.Count := order.Count resp |},
                   None)
          end
      end
  end.
(** [strconv.FormatFloat(m, 'f', 0, 64)] of a whole number of minutes: its
    decimal digits. *)
Definition FormatMinutes (m : Z) : string := pretty m.

(** [FormatExchangeKlineInterval] returns Interval to string. *)
Definition FormatExchangeKlineInterval (i : kline.Interval) : string :=
  match i with
  | kline.OneMin | kline.ThreeMin | kline.FiveMin | kline.FifteenMin
  | kline.ThirtyMin | kline.OneHour | kline.TwoHour | kline.FourHour
  | kline.SixHour | kline.TwelveHour => FormatMinutes (kline.Minutes i)
  | kline.OneDay => "D"
  | kline.OneWeek => "W"
  | kline.OneMonth => "M"
  | _ => ""
  end.

(** [candles.Data[x][i]], read after the row's length was checked. *)
Definition field (row : list JSON) (i : nat) : JSON :=
  default JNull (row !! i).

(** A price or volume field of a candle row: the type assertion, then
    [strconv.ParseFloat]. *)
Definition float_field (row : list JSON) (i : nat) (what : string)
  : float64 * option error :=
  match as_string (field row i) with
  | None => (0%float, Some (what +:+ " conversion failed"))
  | Some s => strconv_ParseFloat E s
  end.

(** The body of the loop of [GetHistoricCandles]: one row of the exchange's
    answer as a candle. *)
Definition candle_of_row (row : list JSON) : kline.Candle * option error :=
  if (length row <? 6)%nat
  then (kline.Candle_zero, Some "unexpected candle data length")
  else
    match as_string (field row 0) with
    | None => (kline.Candle_zero, Some "timestamp conversion failed")
    | Some tempTime =>
        match time_Parse_RFC3339 E tempTime with
        | (_, Some err) => (kline.Candle_zero, Some err)
        | (timestamp, None) =>
    match float_field row 1 "open" with
    | (_, Some err) => (kline.Candle_zero, Some err)
    | (open, None) =>
    match float_field row 2 "high" with
    | (_, Some err) => (kline.Candle_zero, Some err)
    | (high, None) =>
    match float_field row 3 "low" with
    | (_, Some err) => (kline.Candle_zero, Some err)
    | (low, None) =>
    match float_field row 4 "close" with
    | (_, Some err) => (kline.Candle_zero, Some err)
    | (closeTemp, None) =>
    match float_field row 5 "vol" with
    | (_, Some err) => (kline.Candle_zero, Some err)
    | (vol, None) =>
        ({| kline.Time := timestamp; kline.Open := open; kline.High := high;
            kline.Low := low; kline.Close := closeTemp;
            kline.Volume := vol |},
         None)
    end end end end end
        end
    end.

(** The loop of [GetHistoricCandles]: candles are appended row by row until
    a row fails. *)
Fixpoint candles_of_rows (rows : list (list JSON)) (acc : list kline.Candle)
  : list kline.Candle * option error :=
  match rows with
  | [] => (acc, None)
  | row :: rows' =>
      match candle_of_row row with
      | (_, Some err) => (acc, Some err)
      | (tempCandle, None) => candles_of_rows rows' (acc ++ [tempCandle])
      end
  end.

(** [GetHistoricCandles] returns candles between a time period for a set
    time interval. *)
Definition GetHistoricCandles (c : Coinbene) (pair : currency.Pair)
    (a : asset.Item) (start end_ : time.Time) (interval : kline.Interval)
  : M (kline.Item * option error) :=
  match ValidateKline E c pair a interval with
  | Some err => ret (kline.Item_zero, Some err)
  | None =>
      match FormatExchangeCurrency E c pair asset.PerpetualSwap with
      | (_, Some err) => ret (kline.Item_zero, Some err)
      | (formattedPair, None) =>
          let sym := Pair_String E formattedPair in
          let period := FormatExchangeKlineInterval interval in
          r <- (if decide (a = asset.PerpetualSwap)
                then rest (ReqGetSwapKlines sym start end_ period)
                       (fun h => GetSwapKlines E h sym start end_ period)
                else rest (ReqGetKlines sym start end_ period)
                       (fun h => GetKlines E h sym start end_ period)) ;;
          match r with
          | (_, Some err) => ret (kline.Item_zero, Some err)
          | (candles, None) =>
              match candles_of_rows (Data candles) [] with
              | (_, Some err) => ret (kline.Item_zero, Some err)
              | (cs, None) =>
                  ret (kline.SortCandlesByTimestamp
                         {| kline.Exchange := Name c;
                            kline.Pair := pair;
                            kline.Interval_ := interval;
                            kline.Asset := a;
                            kline.Candles := cs |}
                         false,
                       None)
              end
          end
      end
  end.
End Wrapper.

(** * The Orderbook Synchronizer

    Modelled from the spec: the synchronizer (the websocket order book
    buffer) lives outside the wrapper, and its state machine is written
    here from spec 3, 4.4 and 8.  One machine runs per BookKey.  Where
    the spec leaves a case open the machine keeps its state: an event a
    state has no transition for changes nothing, and a book's time stamp
    is the snapshot's. *)
Module Synchronizer.

Inductive Side : Type := Bid | Ask.

(** PendingUpdate = (sequence, side, PriceLevel). *)
Record PendingUpdate : Type := {
  sequence : Z;
  side : Side;
  level : orderbook.Item
}.

(** OrderBook: bids (descending by price), asks (ascending), the sequence
    number, the last-updated time stamp and the verification flag. *)
Record OrderBook : Type := {
  bids : list orderbook.Item;
  asks : list orderbook.Item;
  seq : Z;
  lastUpdated : time.Time;
  verification : bool
}.

Inductive State : Type :=
  | Uninitialized
  | AwaitingSnapshot (buffer : list PendingUpdate)
  | Synced (book : OrderBook) (buffer : list PendingUpdate)
  | Resyncing.

Inductive Event : Type :=
  | Subscribe                      (* first subscription *)
  | Snapshot (b : OrderBook)       (* the REST snapshot arrives *)
  | Update (u : PendingUpdate)     (* one update of the diff feed *)
  | Invalidate                     (* the feed's explicit invalidate *)
  | GapTimeout                     (* the gap outlived its attempts or time *)
  | RequestSnapshot.               (* the fresh snapshot is requested *)

(** "Upsert the level, or delete it if amount becomes 0."  [before p q] says
    that price [p] stands before price [q] on the side. *)
Fixpoint upsert (before : float64 -> float64 -> bool) (l : orderbook.Item)
    (lv : list orderbook.Item) : list orderbook.Item :=
  match lv with
  | [] => if PrimFloat.eqb (orderbook.Amount l) 0 then [] else [l]
  | x :: lv' =>
      if PrimFloat.eqb (orderbook.Price x) (orderbook.Price l) then
        if PrimFloat.eqb (orderbook.Amount l) 0 then lv' else l :: lv'
      else if before (orderbook.Price l) (orderbook.Price x) then
        if PrimFloat.eqb (orderbook.Amount l) 0 then lv else l :: lv
      else x :: upsert before l lv'
  end.

(** Applying an update: its level goes to its side, and the book's sequence
    becomes the update's. *)
Definition apply (b : OrderBook) (u : PendingUpdate) : OrderBook :=
  match side u with
  | Bid =>
      {| bids := upsert (fun p q => PrimFloat.ltb q p) (level u) (bids b);
         asks := asks b; seq := sequence u;
         lastUpdated := lastUpdated b; verification := verification b |}
  | Ask =>
      {| bids := bids b;
         asks := upsert (fun p q => PrimFloat.ltb p q) (level u) (asks b);
         seq := sequence u;
         lastUpdated := lastUpdated b; verification := verification b |}
  end.

(** "Verification, when enabled, asserts non-negative amounts and non-crossed
    best bid/ask after every apply." *)
Definition violates (b : OrderBook) : bool :=
  verification b && bool_decide (orderbook.Verify (bids b) (asks b) <> None).

(** One update met by a synced book: applied when it is the next one,
    buffered (within the limit) when it is ahead, discarded when stale. *)
Definition accept (limit : nat) (b : OrderBook) (buf : list PendingUpdate)
    (u : PendingUpdate) : State :=
  if bool_decide (sequence u <= seq b)%Z then Synced b buf
  else if bool_decide (sequence u = seq b + 1)%Z then
    if violates (apply b u) then Resyncing else Synced (apply b u) buf
  else if bool_decide (limit <= length buf)%nat then Resyncing
  else Synced b (buf ++ [u]).

Definition by_sequence (u v : PendingUpdate) : bool :=
  (sequence u <? sequence v)%Z.

(** One update met by any state: only a synced book takes it. *)
Definition meet (limit : nat) (st : State) (u : PendingUpdate) : State :=
  match st with
  | Synced b buf => accept limit b buf u
  | _ => st
  end.

(** Replaying buffered updates: "sorted ascending by sequence", stale entries
    discarded, the remainder met one by one. *)
Definition replay (limit : nat) (b : OrderBook) (pending : list PendingUpdate)
  : State :=
  fold_left (meet limit) (sort.Sort by_sequence pending) (Synced b []).

(** The transitions of spec 4.4.
    - Uninitialized -> AwaitingSnapshot on first subscription.
    - AwaitingSnapshot: updates are buffered; the snapshot replaces the book
      and the buffered updates are replayed.
    - Synced: the next update applies and the buffered ones are replayed
      after it; an update ahead is buffered, one too many overflows the
      buffer; a stale one is discarded.
    - Synced -> Resyncing on overflow, on a gap that outlived its attempts,
      on the feed's invalidate, and on an apply that verification rejects.
    - Resyncing -> AwaitingSnapshot: book and buffer are discarded and a
      fresh snapshot is requested. *)
Definition step (limit : nat) (st : State) (ev : Event) : State :=
  match st, ev with
  | Uninitialized, Subscribe => AwaitingSnapshot []
  | AwaitingSnapshot buf, Update u => AwaitingSnapshot (buf ++ [u])
  | AwaitingSnapshot buf, Snapshot b =>
      if violates b then Resyncing else replay limit b buf
  | Synced b buf, Update u =>
      if bool_decide (sequence u = seq b + 1)%Z then
        if violates (apply b u) then Resyncing
        else replay limit (apply b u) buf
      else accept limit b buf u
  | Synced _ _, Invalidate => Resyncing
  | Synced _ _, GapTimeout => Resyncing
  | Resyncing, RequestSnapshot => AwaitingSnapshot []
  | _, _ => st
  end.

Definition run (limit : nat) (st : State) (evs : list Event) : State :=
  fold_left (step limit) evs st.

(** The updates of a feed, delivered in the order of the list. *)
Definition deliver (limit : nat) (st : State) (us : list PendingUpdate)
  : State :=
  run limit st (map Update us).

(** [GetBook]: the published book, or [None] for "not yet synced". *)
Definition GetBook (st : State) : option OrderBook :=
  match st with
  | Synced b _ => Some b
  | _ => None
  end.

(** Best bid < best ask, where both sides have a best level. *)
Definition uncrossed (b : OrderBook) : Prop :=
  forall bid ask,
    orderbook.best_bid (bids b) = Some bid ->
    orderbook.best_ask (asks b) = Some ask ->
    PrimFloat.ltb bid ask = true.

(** What is left of [pool] when its updates are applied one after the other
    for as long as the next sequence number is there: [Some] book, or [None]
    when verification rejected an apply. *)
Inductive Reach (pool : list PendingUpdate)
  : OrderBook -> option OrderBook -> Prop :=
  | reach_here b : Reach pool b (Some b)
  | reach_reject b u :
      u ∈ pool -> sequence u = (seq b + 1)%Z ->
      violates (apply b u) = true ->
      Reach pool b None
  | reach_apply b u r :
      u ∈ pool -> sequence u = (seq b + 1)%Z ->
      violates (apply b u) = false ->
      Reach pool (apply b u) r ->
      Reach pool b r.

(** Nothing of [pool] is left to apply. *)
Definition settled (pool : list PendingUpdate) (r : option OrderBook) : Prop :=
  match r with
  | None => True
  | Some b => forall u, u ∈ pool -> sequence u <> (seq b + 1)%Z
  end.

(** Applying updates in the order of the list, with verification after
    every apply: [None] when it rejects one. *)
Fixpoint apply_all (b : OrderBook) (l : list PendingUpdate)
  : option OrderBook :=
  match l with
  | [] => Some b
  | u :: l' =>
      if violates (apply b u) then None else apply_all (apply b u) l'
  end.

(** The sequence numbers of [l] are [n + 1], [n + 2], ...: no gap. *)
Fixpoint contiguous (n : Z) (l : list PendingUpdate) : Prop :=
  match l with
  | [] => True
  | u :: l' => sequence u = (n + 1)%Z /\ contiguous (n + 1) l'
  end.

(** The updates of a feed that may have to wait in the buffer of a book:
    those past the book's next sequence number. *)
Definition waiting (b : OrderBook) (us : list PendingUpdate)
  : list PendingUpdate :=
  filter (fun u => (seq b + 1 < sequence u)%Z) us.

(** What holds of the machine after the updates [delivered] of a feed
    [pool] have come in, starting from a synced book [b0] with nothing
    buffered: the book is what [pool] leads to from [b0], and the buffer
    holds the delivered updates that are ahead of it. *)
Definition delivered_inv (pool delivered : list PendingUpdate)
    (b0 : OrderBook) (st : State) : Prop :=
  match st with
  | Synced b buf =>
      Reach pool b0 (Some b) /\
      NoDup buf /\
      (forall v, v ∈ buf <-> v ∈ delivered /\ (seq b + 1 < sequence v)%Z) /\
      (forall v, v ∈ delivered -> sequence v <> (seq b + 1)%Z)
  | Resyncing => Reach pool b0 None
  | _ => False
  end.

(** Example books and updates. *)
Definition lv (price amount : float64) : orderbook.Item :=
  {| orderbook.Price := price; orderbook.Amount := amount;
     orderbook.OrderCount := 0%Z |}.

Definition upd (n : Z) (s : Side) (price amount : float64) : PendingUpdate :=
  {| sequence := n; side := s; level := lv price amount |}.

Definition snapshot100 : OrderBook :=
  {| bids := [lv 10000%float 1%float]; asks := []; seq := 100%Z;
     lastUpdated := 0%Z; verification := true |}.

Definition book101 : OrderBook :=
  {| bids := [lv 10000%float 1%float]; asks := [lv 10005%float 2%float];
     seq := 101%Z; lastUpdated := 0%Z; verification := true |}.

Definition book103 : OrderBook :=
  {| bids := [lv 10000%float 1%float]; asks := [lv 10005%float 2%float];
     seq := 103%Z; lastUpdated := 0%Z; verification := true |}.

Definition update102 : PendingUpdate := upd 102 Ask 10004%float 1%float.
Definition update103 : PendingUpdate := upd 103 Bid 10001%float 3%float.
End Synchronizer.

(** * An exchange to run the wrapper against

    A small world for the examples below: the exchange base keeps the pair
    formats it is given, formats no pair, and the REST side answers from
    fixed data while it is up and with one error while it is down.  A
    cancel request succeeds for an order that no earlier request
    cancelled. *)
Module Example.

Definition unavailable : error := "coinbene: 503 service unavailable".

Definition btc_usdt : currency.Pair :=
  {| currency.Delimiter := "/"; currency.Base := "BTC";
     currency.Quote := "USDT" |}.

Definition answer {A : Type} (up : bool) (zero a : A) : A * option error :=
  if up then (a, None) else (zero, Some unavailable).

Definition bid1 : OrderbookItem :=
  {| Price := 10000%float; Amount := 1%float; Count := 2%Z |}.
Definition ask1 : OrderbookItem :=
  {| Price := 10001%float; Amount := 3%float; Count := 1%Z |}.
Definition depth1 : Orderbook := {| Bids := [bid1]; Asks := [ask1] |}.

(** A book no exchange should send: the bid stands above the ask. *)
Definition crossed1 : Orderbook := {| Bids := [ask1]; Asks := [bid1] |}.

Definition trade_at (t : time.Time) (dir : string) : TradeItem :=
  {| Direction := dir; TradeTime := t; TradePrice := 10000%float;
     TradeVolume := 1%float |}.

Definition trades1 : list TradeItem :=
  [trade_at 30%Z "buy"; trade_at 10%Z "sell"; trade_at 20%Z "buy"].

Definition open_orders : list OrderInfo :=
  [ {| OrderInfo_OrderID := "A" |};
    {| OrderInfo_OrderID := "B" |};
    {| OrderInfo_OrderID := "A" |} ].

Definition parse_time (s : string) : time.Time * option error :=
  if decide (s = "2021-01-01T00:00:00Z") then (1609459200000000000%Z, None)
  else if decide (s = "2021-01-02T00:00:00Z")
  then (1609545600000000000%Z, None)
  else (time.Time_zero, Some "parsing time: cannot parse").

Definition parse_float (s : string) : float64 * option error :=
  if decide (s = "1.5") then (1.5%float, None)
  else if decide (s = "2") then (2%float, None)
  else (0%float, Some "strconv.ParseFloat: invalid syntax").

Definition row (t : string) : list JSON :=
  [JString t; JString "1.5"; JString "2"; JString "1.5"; JString "2";
   JString "2"].

Definition klines1 : CandleResponse :=
  {| Data := [row "2021-01-02T00:00:00Z"; row "2021-01-01T00:00:00Z"] |}.

(** A row whose volume is a number, not a string. *)
Definition klines_bad : CandleResponse :=
  {| Data :=
       [row "2021-01-02T00:00:00Z";
        [JString "2021-01-01T00:00:00Z"; JString "1.5"; JString "2";
         JString "1.5"; JString "2"; JNumber 2%float]] |}.

Definition cancelled_before (h : list Call) (id : string) : bool :=
  existsb
    (fun c =>
       match c with
       | REST (ReqCancelSpotOrder id') => bool_decide (id' = id)
       | _ => false
       end)
    h.

Definition env (up : bool) (book : Orderbook) (klines : CandleResponse) : Env :=
  {| DefaultHTTPTimeout := 15000000000%Z;
     DefaultWebsocketResponseCheckTimeout := 30000000%Z;
     DefaultWebsocketResponseMaxLimit := 7000000000%Z;
     DefaultWebsocketOrderbookBufferLimit := 5%Z;
     coinbeneAPIURL := "https://openapi-exchange.coinbene.com";
     coinbeneSwapAPIURL := "https://openapi-contract.coinbene.com";
     wsContractURL := "wss://ws.coinbene.com/stream/ws";
     StoreAssetPairFormat := fun pairs a ps => ((a, ps) :: pairs, None);
     SetDefaultEndpoints := fun urls => (urls, None);
     GetURL := fun c _ => ("wss://ws.coinbene.com/stream/ws", None);
     SetupDefaults := fun c _ => (c, None);
     SupportsAsset :=
       fun c a => bool_decide (a ∈ map fst (CurrencyPairs c));
     GetEnabledPairs := fun _ _ => ([btc_usdt], None);
     GetPairFormat :=
       fun _ _ _ =>
         ({| currency.Uppercase := true;
             currency.FormatDelimiter := currency.DashDelimiter |}, None);
     FormatExchangeCurrency := fun _ p _ => (p, None);
     ValidateKline := fun _ _ _ _ => None;
     AddTradesToBuffer := fun _ ts => (ts, None);
     Pair_String :=
       fun p => currency.Base p +:+ currency.Delimiter p +:+ currency.Quote p;
     Pair_Format :=
       fun p d _ =>
         {| currency.Delimiter := d; currency.Base := currency.Base p;
            currency.Quote := currency.Quote p |};
     NewPairFromString := fun _ => (btc_usdt, None);
     Pairs_Contains := fun ps p _ => bool_decide (p ∈ ps);
     Submit_Validate :=
       fun s =>
         if PrimFloat.leb (order.Amount s) 0
         then Some "submit: amount must be positive" else None;
     Cancel_Validate := fun _ => None;
     Price_Validate := fun _ => None;
     Websocket_Setup :=
       fun ws s =>
         ({| stream.Setup_ := Some s;
             stream.Connections := stream.Connections ws |}, None);
     Websocket_SetupNewConnection :=
       fun ws n =>
         ({| stream.Setup_ := stream.Setup_ ws;
             stream.Connections := stream.Connections ws ++ [n] |}, None);
     time_Parse_RFC3339 := parse_time;
     strconv_ParseFloat := parse_float;
     GetAllPairs := fun _ => answer up [] [{| PairData_Symbol := "BTC/USDT" |}];
     GetSwapInstruments :=
       fun _ => answer up [] [{| InstrumentID := btc_usdt |}];
     GetTickers := fun _ => answer up [] [];
     GetSwapTickers := fun _ => answer up ∅ ∅;
     GetOrderbook := fun _ _ _ => answer up Orderbook_zero book;
     GetSwapOrderbook := fun _ _ _ => answer up Orderbook_zero book;
     GetTrades := fun _ _ _ => answer up [] trades1;
     PlaceSpotOrder :=
       fun _ _ _ _ _ _ _ _ =>
         answer up {| OrderID := "" |} {| OrderID := "1912131027355Bob" |};
     FetchOpenSpotOrders := fun _ _ => answer up [] open_orders;
     CancelSpotOrder :=
       fun h id =>
         if cancelled_before h id
         then ("", Some "coinbene: order is already cancelled")
         else (id, None);
     GetKlines := fun _ _ _ _ _ => answer up {| Data := [] |} klines;
     GetSwapKlines := fun _ _ _ _ _ => answer up {| Data := [] |} klines |}.

(** The exchange is up and sends an honest book. *)
Definition up : Env := env true depth1 klines1.
(** The exchange answers every request with an error. *)
Definition down : Env := env false depth1 klines1.
(** The exchange is up and sends a crossed book. *)
Definition sends_crossed : Env := env true crossed1 klines1.
(** The exchange is up and sends a malformed candle row. *)
Definition sends_bad_rows : Env := env true depth1 klines_bad.

Definition blank : Coinbene :=
  {| Name := ""; Enabled := false; Verbose := false;
     RequiresKey := false; RequiresSecret := false;
     CurrencyPairs := []; Features := exchange.Features_zero;
     Requester := None; Endpoints := []; Websocket := stream.New;
     WebsocketResponseMaxLimit := 0%Z;
     WebsocketResponseCheckTimeout := 0%Z;
     WebsocketOrderbookBufferLimit := 0%Z;
     CanVerifyOrderbook := true |}.

(** The exchange object after [SetDefaults], with verification on. *)
Definition coinbene : Coinbene := SetDefaults up blank.

Definition config1 : config.Exchange :=
  {| config.Name := "Coinbene"; config.Enabled := true;
     config.HTTPTimeout := 15000000000%Z;
     config.WebsocketResponseCheckTimeout := 30000000%Z;
     config.WebsocketResponseMaxLimit := 7000000000%Z |}.

(** Nothing was called and nothing is stored. *)
Definition start : World := {| calls := []; books := ∅; tickers := ∅ |}.

Definition buy1 : order.Submit :=
  {| order.Pair := btc_usdt; order.AssetType := asset.Spot;
     order.SubmitSide := order.Buy; order.SubmitType := "LIMIT";
     order.Price := 10000%float; order.Amount := 1%float;
     order.ClientID := "client-7" |}.

Definition cancel1 : order.Cancel :=
  {| order.CancelID := ""; order.CancelPair := btc_usdt;
     order.CancelAssetType := asset.Spot |}.
End Example.

(** * The vocabulary of the statements *)

(** ** Sorting by a key *)
Section SortVocabulary.
Context {A : Type} (key : A -> Z).

(** The order [sort.Sort] is asked for when a slice is sorted by a key. *)
Definition key_less (a b : A) : bool := (key a <? key b)%Z.

(** In ascending order of the keys. *)
Definition ascending (l : list A) : Prop :=
  StronglySorted (fun a b => (key a <= key b)%Z) l.

(** No two elements of the list share a key. *)
Definition distinct_keys (l : list A) : Prop :=
  forall x y, x ∈ l -> y ∈ l -> key x = key y -> x = y.
End SortVocabulary.

(** ** The wrapper *)

(** The world after one more request. *)
Definition requested (w : World) (r : Request) : World :=
  {| calls := calls w ++ [REST r]; books := books w; tickers := tickers w |}.

Ltac run_monad :=
  unfold bind, ret, rest, call, requested; simpl.

(** The snapshot request of [UpdateOrderbook] for the two assets that have
    one, and what the exchange answers to it after the calls [h]. *)
Definition orderbook_request (a : asset.Item) (symbol : string) : Request :=
  if decide (a = asset.Spot) then ReqGetOrderbook symbol 100
  else ReqGetSwapOrderbook symbol 100.

Definition orderbook_failure (E : Env) (a : asset.Item) (h : list Call)
    (symbol : string) : option error :=
  if decide (a = asset.Spot) then snd (GetOrderbook E h symbol 100)
  else snd (GetSwapOrderbook E h symbol 100).

(** The same for the ticker request of [UpdateTickers]. *)
Definition tickers_request (a : asset.Item) : Request :=
  if decide (a = asset.Spot) then ReqGetTickers else ReqGetSwapTickers.

Definition tickers_failure (E : Env) (a : asset.Item) (h : list Call)
  : option error :=
  if decide (a = asset.Spot) then snd (GetTickers E h)
  else snd (GetSwapTickers E h).

(** The depths of the order book snapshots asked for in some calls. *)
Definition requested_depths (cs : list Call) : list Z :=
  omap
    (fun c =>
       match c with
       | REST (ReqGetOrderbook _ size) => Some size
       | REST (ReqGetSwapOrderbook _ size) => Some size
       | _ => None
       end)
    cs.

(** C5 as the spec words it: the depth of the snapshot is the caller's or
    the configuration's to choose, so every depth can be had from some
    environment, exchange object, pair, asset and world. *)
Definition depth_is_chosen (depth : Z) : Prop :=
  exists E c p a w,
    depth ∈ requested_depths (calls_made (UpdateOrderbook E c p a) w).

(** Best bid < best ask, where both sides of the book have a best level. *)
Definition uncrossed_book (b : orderbook.Base) : Prop :=
  forall bid ask,
    orderbook.best_bid (orderbook.Bids b) = Some bid ->
    orderbook.best_ask (orderbook.Asks b) = Some ask ->
    PrimFloat.ltb bid ask = true.

(** C1 as the spec words it for the wrapper: with verification enabled, on
    the exchange object and so on the book, a book [UpdateOrderbook] returns
    is never crossed, whatever error it is returned beside. *)
Definition returned_books_are_uncrossed : Prop :=
  forall (E : Env) (c : Coinbene) (p : currency.Pair) (a : asset.Item)
      (w : World) (b : orderbook.Base),
    CanVerifyOrderbook c = true ->
    fst (fst (UpdateOrderbook E c p a w)) = Some b ->
    orderbook.VerifyOrderbook b = true ->
    uncrossed_book b.

(** Every websocket set-up among some calls asks for a sorted buffer. *)
Definition sorts_buffer (cs : list Call) : Prop :=
  Forall
    (fun c =>
       match c with
       | WebsocketSetup s => stream.SortBuffer s = true
       | _ => True
       end)
    cs.

Definition is_string (v : JSON) : bool :=
  match as_string v with
  | Some _ => true
  | None => false
  end.

(** Field [i] of a candle row fails parsing: it is a string that
    [time.Parse] (the first field) or [strconv.ParseFloat] (the others)
    returns an error for. *)
Definition fails_parsing (E : Env) (i : nat) (v : JSON) : bool :=
  match as_string v with
  | Some s =>
      match
        (if (i =? 0)%nat then snd (time_Parse_RFC3339 E s)
         else snd (strconv_ParseFloat E s))
      with
      | Some _ => true
      | None => false
      end
  | None => false
  end.

(** A candle row as C9 sorts them: malformed when it has fewer than 6
    fields, or one of its first six fields is not a string, or one of them
    fails parsing. *)
Definition malformed (E : Env) (row : list JSON) : bool :=
  (length row <? 6)%nat
  || existsb (fun i => negb (is_string (field row i))) (seq 0 6)
  || existsb (fun i => fails_parsing E i (field row i)) (seq 0 6).

(** What the exchange answers to the candle request of
    [GetHistoricCandles] after the calls [h]. *)
Definition klines_answer (E : Env) (c : Coinbene) (pair : currency.Pair)
    (a : asset.Item) (start end_ : time.Time) (interval : kline.Interval)
    (h : list Call) : CandleResponse * option error :=
  let sym :=
    Pair_String E (fst (FormatExchangeCurrency E c pair asset.PerpetualSwap)) in
  if decide (a = asset.PerpetualSwap)
  then GetSwapKlines E h sym start end_ (FormatExchangeKlineInterval interval)
  else GetKlines E h sym start end_ (FormatExchangeKlineInterval interval).

#[local] Arguments field : simpl never.

Ltac bad_row := simpl; rewrite ?orb_true_r; simpl; split; congruence.

Definition cancel_calls (orders : list OrderInfo) : list Call :=
  map (fun o => REST (ReqCancelSpotOrder (OrderInfo_OrderID o))) orders.

(** What the loop writes for an answer of [CancelSpotOrder]. *)
Definition cancel_status (r : string * option error) : string :=
  match snd r with
  | Some _ => "Failed"
  | None => "Success"
  end.

(** Entry [i] of [orders] is the last one with its ID. *)
Definition last_with_its_id (orders : list OrderInfo) (i : nat) : Prop :=
  forall j o o',
    orders !! i = Some o -> (i < j)%nat -> orders !! j = Some o' ->
    OrderInfo_OrderID o' <> OrderInfo_OrderID o.

(** C10 as the spec words it, for the open orders the exchange lists after
    the calls [fetched]: every order's ID is mapped to the outcome of that
    order's cancel request. *)
Definition reports_each_outcome (E : Env) (fetched : list Call)
    (orders : list OrderInfo) (status : gmap string string) : Prop :=
  forall i o,
    orders !! i = Some o ->
    status !! OrderInfo_OrderID o
    = Some (cancel_status
              (CancelSpotOrder E (fetched ++ cancel_calls (take i orders))
                 (OrderInfo_OrderID o))).

(** * The rest of the wrapper

    The functions of coinbene_wrapper.go beside the ones above: the
    upkeep of the tradable pairs, the single ticker, and the account side
    (balances, order listings, deposit addresses). *)

(** ** Pairs and tickers *)

(** Modelled from the spec: [ticker.GetTicker] of package exchanges/ticker,
    whose source is outside the wrapper.  The ticker cache is "keyed by
    (exchange, pair, asset)" (spec 4.7) and read through [GetTicker(key)]
    (spec 6); a key the cache holds nothing under is an error. *)
Definition ticker_GetTicker (exch : string) (p : currency.Pair)
    (a : asset.Item) : M (option ticker.Price * option error) :=
  fun w =>
    match tickers w !! (exch, p, a) with
    | Some t => ((Some t, None), w)
    | None => ((None, Some "ticker: no ticker for the pair"), w)
    end.

(** What these functions call besides the fields of [Env]: methods of the
    exchange base and of package currency, whose text is not in
    coinbene_wrapper.go. *)
Record BaseEnv : Type := {
  GetAssetTypes : Coinbene -> bool -> list asset.Item;
  GetEnabledFeatures : Coinbene -> exchange.FeaturesEnabled;
  UpdatePairs :
    Coinbene -> list currency.Pair -> asset.Item -> bool -> bool ->
    Coinbene * option error;
  NewPairsFromStrings : list string -> list currency.Pair * option error
}.

Section WrapperUpkeep.
Context (E : Env) (B : BaseEnv).

(** The loop of [UpdateTradablePairs] over the asset types.  [UpdatePairs]
    writes to the exchange object, and the next asset's pairs are fetched
    with the object it left. *)
Fixpoint UpdateTradablePairs_loop (c : Coinbene) (forceUpdate : bool)
    (assets : list asset.Item) : M (Coinbene * option error) :=
  match assets with
  | [] => ret (c, None)
  | a :: assets' =>
      r <- FetchTradablePairs E c a ;;
      match r with
      | (_, Some err) => ret (c, Some err)
      | (pairs, None) =>
          match NewPairsFromStrings B pairs with
          | (_, Some err) => ret (c, Some err)
          | (p, None) =>
              match UpdatePairs B c p a false forceUpdate with
              | (c, Some err) => ret (c, Some err)
              | (c, None) => UpdateTradablePairs_loop c forceUpdate assets'
              end
          end
      end
  end.

(** [UpdateTradablePairs] updates the exchanges available pairs and stores
    them. *)
Definition UpdateTradablePairs (c : Coinbene) (forceUpdate : bool)
  : M (Coinbene * option error) :=
  UpdateTradablePairs_loop c forceUpdate (GetAssetTypes B c false).

(** [Run] implements the Coinbene wrapper.  It returns nothing: an error of
    [UpdateTradablePairs] is logged, and what is left of the exchange object
    is the result. *)
Definition Run (c : Coinbene) : M Coinbene :=
  if negb (exchange.AutoPairUpdates (GetEnabledFeatures B c)) then ret c
  else
    r <- UpdateTradablePairs c false ;;
    ret (fst r).

(** [UpdateTicker] updates and returns the ticker for a currency pair. *)
Definition UpdateTicker (c : Coinbene) (p : currency.Pair) (a : asset.Item)
  : M (option ticker.Price * option error) :=
  err <- UpdateTickers E c a ;;
  match err with
  | Some err => ret (None, Some err)
  | None => ticker_GetTicker (Name c) p a
  end.

(** [FetchTicker] returns the ticker for a currency pair. *)
Definition FetchTicker (c : Coinbene) (p : currency.Pair)
    (assetType : asset.Item) : M (option ticker.Price * option error) :=
  if negb (SupportsAsset E c assetType)
  then ret (None, Some (errUnsupportedAsset c assetType))
  else
    r <- ticker_GetTicker (Name c) p assetType ;;
    match r with
    | (_, Some _) => UpdateTicker c p assetType
    | (tickerNew, None) => ret (tickerNew, None)
    end.

(** [GetHistoricCandlesExtended] returns candles between a time period for a
    set time interval. *)
Definition GetHistoricCandlesExtended (c : Coinbene) (pair : currency.Pair)
    (a : asset.Item) (start end_ : time.Time) (interval : kline.Interval)
  : M (kline.Item * option error) :=
  GetHistoricCandles E c pair a start end_ interval.
End WrapperUpkeep.

(** ** The vocabulary of the statements, continued *)

(** The request [FetchTradablePairs] makes for an asset type: the two
    assets the wrapper knows have one each. *)
Definition pairs_request (a : asset.Item) : option Request :=
  if decide (a = asset.Spot) then Some ReqGetAllPairs
  else if decide (a = asset.PerpetualSwap) then Some ReqGetSwapInstruments
  else None.

(** What the exchange answers to the snapshot request of [UpdateOrderbook]
    after the calls [h]. *)
Definition orderbook_answer (E : Env) (a : asset.Item) (h : list Call)
    (symbol : string) : Orderbook * option error :=
  if decide (a = asset.Spot) then GetOrderbook E h symbol 100
  else GetSwapOrderbook E h symbol 100.

(** The candle request of [GetHistoricCandles]: the pair goes out in the
    format of the swap asset whatever the asset asked for, and every asset
    but the swap asset is sent to the spot endpoint. *)
Definition klines_request (E : Env) (c : Coinbene) (pair : currency.Pair)
    (a : asset.Item) (start end_ : time.Time) (interval : kline.Interval)
  : Request :=
  let sym :=
    Pair_String E (fst (FormatExchangeCurrency E c pair asset.PerpetualSwap)) in
  if decide (a = asset.PerpetualSwap)
  then ReqGetSwapKlines sym start end_ (FormatExchangeKlineInterval interval)
  else ReqGetKlines sym start end_ (FormatExchangeKlineInterval interval).

(** The ticker [pr], stored under the key [k], is the spot ticker [t] of the
    exchange's answer: [t]'s symbol parses to a pair among [allPairs], and
    [pr] carries that pair and [t]'s prices. *)
Definition spot_ticker_of (E : Env) (c : Coinbene) (a : asset.Item)
    (allPairs : list currency.Pair) (t : TickerData) (k : orderbook.Key)
    (pr : ticker.Price) : Prop :=
  k = (Name c, ticker.Pair pr, a)
  /\ NewPairFromString E (Symbol t) = (ticker.Pair pr, None)
  /\ Pairs_Contains E allPairs (ticker.Pair pr) true = true
  /\ ticker.ExchangeName pr = Name c
  /\ ticker.AssetType pr = a
  /\ ticker.Last pr = LatestPrice t
  /\ ticker.High pr = DailyHigh t
  /\ ticker.Low pr = DailyLow t
  /\ ticker.Bid pr = BestBid t
  /\ ticker.Ask pr = BestAsk t
  /\ ticker.Volume pr = DailyVolume t.

(** The ticker [pr] is the swap ticker [tick] of the exchange's answer, for
    the pair [p] of asset [a]. *)
Definition swap_ticker_of (c : Coinbene) (a : asset.Item) (p : currency.Pair)
    (tick : SwapTicker) (pr : ticker.Price) : Prop :=
  ticker.Pair pr = p
  /\ ticker.ExchangeName pr = Name c
  /\ ticker.AssetType pr = a
  /\ ticker.Last pr = LastPrice tick
  /\ ticker.High pr = High24Hour tick
  /\ ticker.Low pr = Low24Hour tick
  /\ ticker.Bid pr = BestBidPrice tick
  /\ ticker.Ask pr = BestAskPrice tick
  /\ ticker.Volume pr = Volume24Hour tick
  /\ ticker.LastUpdated pr = SwapTicker_Timestamp tick.

(** ** A market for the examples

    The world of [Example.up] with three pairs on the exchange, two of them
    enabled, and a ticker whose symbol does not parse. *)
Module Market.

Definition eth_usdt : currency.Pair :=
  {| currency.Delimiter := "/"; currency.Base := "ETH";
     currency.Quote := "USDT" |}.

Definition ltc_usdt : currency.Pair :=
  {| currency.Delimiter := "/"; currency.Base := "LTC";
     currency.Quote := "USDT" |}.

(** A pair in the format of its asset: the swap asset separates with a
    dash. *)
Definition format_pair (p : currency.Pair) (a : asset.Item) : currency.Pair :=
  {| currency.Delimiter :=
       if decide (a = asset.PerpetualSwap) then currency.DashDelimiter
       else currency.ForwardSlashDelimiter;
     currency.Base := currency.Base p;
     currency.Quote := currency.Quote p |}.

Definition parse_pair (s : string) : currency.Pair * option error :=
  if decide (s = "BTC/USDT") then (Example.btc_usdt, None)
  else if decide (s = "ETH/USDT") then (eth_usdt, None)
  else if decide (s = "LTC/USDT") then (ltc_usdt, None)
  else if decide (s = "BTC-USDT")
  then (format_pair Example.btc_usdt asset.PerpetualSwap, None)
  else (currency.Pair_zero, Some "currency: no delimiter in the pair string").

Definition quote (symbol : string) (last : float64) : TickerData :=
  {| Symbol := symbol; LatestPrice := last; BestBid := last; BestAsk := last;
     DailyHigh := last; DailyLow := last; DailyVolume := 1%float |}.

Definition swap_quote (last : float64) : SwapTicker :=
  {| LastPrice := last; High24Hour := last; Low24Hour := last;
     BestBidPrice := last; BestAskPrice := last; Volume24Hour := 1%float;
     SwapTicker_Timestamp := 1609459200000000000%Z |}.

(** The exchange's spot tickers: an enabled pair, a pair that is not
    enabled, a symbol that does not parse, and another enabled pair. *)
Definition spot_tickers : list TickerData :=
  [quote "BTC/USDT" 10000%float; quote "LTC/USDT" 50%float;
   quote "ETHUSDT" 300%float; quote "ETH/USDT" 300%float].

(** The spot tickers of an exchange that sends well-formed symbols only. *)
Definition clean_tickers : list TickerData :=
  [quote "BTC/USDT" 10000%float; quote "LTC/USDT" 50%float;
   quote "ETH/USDT" 300%float].

(** The exchange's swap tickers: it has none for ETH-USDT. *)
Definition swap_tickers : gmap string SwapTicker :=
  {[ "BTC-USDT" := swap_quote 10002%float;
     "LTC-USDT" := swap_quote 51%float ]}.

Definition env (tickers : list TickerData) : Env :=
  {| DefaultHTTPTimeout := DefaultHTTPTimeout Example.up;
     DefaultWebsocketResponseCheckTimeout :=
       DefaultWebsocketResponseCheckTimeout Example.up;
     DefaultWebsocketResponseMaxLimit :=
       DefaultWebsocketResponseMaxLimit Example.up;
     DefaultWebsocketOrderbookBufferLimit :=
       DefaultWebsocketOrderbookBufferLimit Example.up;
     coinbeneAPIURL := coinbeneAPIURL Example.up;
     coinbeneSwapAPIURL := coinbeneSwapAPIURL Example.up;
     wsContractURL := wsContractURL Example.up;
     StoreAssetPairFormat := StoreAssetPairFormat Example.up;
     SetDefaultEndpoints := SetDefaultEndpoints Example.up;
     GetURL := GetURL Example.up;
     SetupDefaults := SetupDefaults Example.up;
     SupportsAsset := SupportsAsset Example.up;
     GetEnabledPairs := fun _ _ => ([Example.btc_usdt; eth_usdt], None);
     GetPairFormat := GetPairFormat Example.up;
     FormatExchangeCurrency := fun _ p a => (format_pair p a, None);
     ValidateKline := ValidateKline Example.up;
     AddTradesToBuffer := AddTradesToBuffer Example.up;
     Pair_String := Pair_String Example.up;
     Pair_Format := Pair_Format Example.up;
     NewPairFromString := parse_pair;
     Pairs_Contains := Pairs_Contains Example.up;
     Submit_Validate := Submit_Validate Example.up;
     Cancel_Validate := Cancel_Validate Example.up;
     Price_Validate := Price_Validate Example.up;
     Websocket_Setup := Websocket_Setup Example.up;
     Websocket_SetupNewConnection := Websocket_SetupNewConnection Example.up;
     time_Parse_RFC3339 := time_Parse_RFC3339 Example.up;
     strconv_ParseFloat := strconv_ParseFloat Example.up;
     GetAllPairs :=
       fun _ =>
         ([ {| PairData_Symbol := "BTC/USDT" |};
            {| PairData_Symbol := "ETH/USDT" |};
            {| PairData_Symbol := "LTC/USDT" |} ], None);
     GetSwapInstruments := GetSwapInstruments Example.up;
     GetTickers := fun _ => (tickers, None);
     GetSwapTickers := fun _ => (swap_tickers, None);
     GetOrderbook := GetOrderbook Example.up;
     GetSwapOrderbook := GetSwapOrderbook Example.up;
     GetTrades := GetTrades Example.up;
     PlaceSpotOrder := PlaceSpotOrder Example.up;
     FetchOpenSpotOrders := FetchOpenSpotOrders Example.up;
     CancelSpotOrder := CancelSpotOrder Example.up;
     GetKlines := GetKlines Example.up;
     GetSwapKlines := GetSwapKlines Example.up |}.

(** The exchange sends a ticker whose symbol does not parse. *)
Definition garbled : Env := env spot_tickers.
(** The exchange sends well-formed tickers. *)
Definition clean : Env := env clean_tickers.

(** The exchange base of the examples: spot and swap are the asset types,
    and pairs are parsed one by one and kept nowhere. *)
Definition base : BaseEnv :=
  {| GetAssetTypes := fun _ _ => [asset.Spot; asset.PerpetualSwap];
     GetEnabledFeatures := fun c => exchange.Enabled (Features c);
     UpdatePairs := fun c _ _ _ _ => (c, None);
     NewPairsFromStrings :=
       fun l =>
         if forallb (fun s => bool_decide (snd (parse_pair s) = None)) l
         then (map (fun s => fst (parse_pair s)) l, None)
         else ([], Some "currency: no delimiter in the pair string") |}.
End Market.

(** ** The account side: balances, order listings, deposit addresses

    These functions talk to endpoints of their own and to the account
    store of package exchanges/account.  Their types carry the fields the
    wrapper sets or reads. *)

(** package currency, continued: a currency code is handed on as it is. *)
Module currency'.
Definition Code : Type := string.
End currency'.

(** package account *)
Module account.
Record Balance : Type := {
  CurrencyName : currency'.Code;
  TotalValue : float64;
  Hold : float64
}.

Record SubAccount : Type := { Currencies : list Balance }.

Record Holdings : Type := {
  Exchange : string;
  Accounts : list SubAccount
}.

(** [account.Holdings{}] *)
Definition Holdings_zero : Holdings := {| Exchange := ""; Accounts := [] |}.
End account.

(** package deposit; [Address]'s field [Address] is [Address_] here. *)
Module deposit.
Record Address : Type := {
  Address_ : string;
  Tag : string
}.
End deposit.

(** package order, continued *)
Module order'.
Definition Status : Type := string.

Record GetOrdersRequest : Type := { Pairs : list currency.Pair }.

(** [Detail]'s fields [Side] and [Status] are [OrderSide] and [OrderStatus]
    here. *)
Record Detail : Type := {
  Exchange : string;
  Pair : currency.Pair;
  OrderSide : order.Side;
  OrderStatus : Status;
  Date : time.Time;
  Price : float64;
  AverageExecutedPrice : float64;
  Amount : float64;
  ExecutedAmount : float64;
  RemainingAmount : float64;
  Cost : float64;
  CostAsset : currency'.Code;
  Fee : float64
}.
End order'.

Module UserAccount.

(** The types of coinbene_types.go these functions read: a balance, an
    order of a listing (with the fields the listings read, where
    [CancelAllOrders] above reads the ID alone), a deposit address. *)
Record UserBalanceData : Type := {
  Asset : string;
  Available : float64;
  Reserved : float64
}.

Record OrderInfo : Type := {
  OrderType : string;
  OrderStatus : string;
  OrderTime : time.Time;
  OrderPrice : float64;
  AvgPrice : float64;
  Amount : float64;
  FilledAmount : float64;
  Quantity : float64;
  TotalFee : float64
}.

Record DepositAddress : Type := {
  Chain : string;
  Address : string;
  AddressTag : string
}.

(** A request to the exchange: one constructor per REST method of
    coinbene.go these functions call. *)
Inductive Request : Type :=
  | ReqGetAllPairs
  | ReqGetAccountBalances
  | ReqListDepositAddress (curr : currency'.Code)
  | ReqFetchOpenSpotOrders (symbol : string)
  | ReqFetchClosedOrders (symbol latestID : string).

(** What leaves the wrapper on this side: a request, or holdings handed to
    [account.Process]. *)
Inductive Event : Type :=
  | REST (r : Request)
  | Process (info : account.Holdings).

(** What these functions are linked against.  The exchange and the account
    store answer from what happened before: their answers are read off the
    events so far. *)
Record AccountEnv : Type := {
  (* the Go library and packages currency, order, account *)
  strings_EqualFold : string -> string -> bool;
  NewCode : string -> currency'.Code;
  GetOrdersRequest_Validate : order'.GetOrdersRequest -> option error;
  StringToOrderStatus : string -> order'.Status * option error;
  InferCostsAndTimes : order'.Detail -> order'.Detail;
  account_Process :
    list Event -> account.Holdings -> account.Holdings * option error;
  account_GetHoldings :
    list Event -> string -> asset.Item -> account.Holdings * option error;
  (* package coinbene: the REST methods of coinbene.go *)
  GetAllPairs : list Event -> list PairData * option error;
  GetAccountBalances : list Event -> list UserBalanceData * option error;
  ListDepositAddress :
    list Event -> currency'.Code -> list DepositAddress * option error;
  FetchOpenSpotOrders : list Event -> string -> list OrderInfo * option error;
  FetchClosedOrders :
    list Event -> string -> string -> list OrderInfo * option error
}.

(** The state monad over the events so far. *)
Definition S (A : Type) : Type := list Event -> A * list Event.

Definition ret {A : Type} (a : A) : S A := fun h => (a, h).

Definition bind {A B : Type} (m : S A) (k : A -> S B) : S B :=
  fun h => let (a, h') := m h in k a h'.

Notation "x <~ m ;; k" := (bind m (fun x => k))
  (at level 100, m at next level, right associativity).

(** An event happens: its answer is read off the events so far, and the
    event joins them. *)
Definition perform {A : Type} (e : Event) (answer : list Event -> A) : S A :=
  fun h => (answer h, h ++ [e]).

Definition rest {A : Type} (r : Request) (answer : list Event -> A) : S A :=
  perform (REST r) answer.

(** Reading the account store is no event. *)
Definition read {A : Type} (answer : list Event -> A) : S A :=
  fun h => (answer h, h).

Section Wrapper.
Context (E : Env) (A : AccountEnv).

(** [UpdateAccountInfo] retrieves balances for all enabled currencies for
    the Coinbene exchange.  The balances of [GetAccountBalances] are taken
    to be a slice, which the loop goes through by index.  [account.Process]
    is handed a pointer to the holdings: what it leaves of them is what is
    returned. *)
Definition UpdateAccountInfo (c : Coinbene) (assetType : asset.Item)
  : S (account.Holdings * option error) :=
  let info := account.Holdings_zero in
  r <~ rest ReqGetAccountBalances (GetAccountBalances A) ;;
  match r with
  | (_, Some err) => ret (info, Some err)
  | (balance, None) =>
      let acc :=
        {| account.Currencies :=
             map
               (fun b =>
                  let hold := Reserved b in
                  let available := Available b in
                  {| account.CurrencyName := NewCode A (Asset b);
                     account.TotalValue := PrimFloat.add hold available;
                     account.Hold := hold |})
               balance |} in
      let info :=
        {| account.Accounts := account.Accounts info ++ [acc];
           account.Exchange := Name c |} in
      r <~ perform (Process info) (fun h => account_Process A h info) ;;
      match r with
      | (_, Some err) => ret (account.Holdings_zero, Some err)
      | (info, None) => ret (info, None)
      end
  end.

(** [FetchAccountInfo] retrieves balances for all enabled currencies. *)
Definition FetchAccountInfo (c : Coinbene) (assetType : asset.Item)
  : S (account.Holdings * option error) :=
  r <~ read (fun h => account_GetHoldings A h (Name c) assetType) ;;
  match r with
  | (_, Some _) => UpdateAccountInfo c assetType
  | (acc, None) => ret (acc, None)
  end.

(** The loop of [GetDepositAddress] over the addresses: the first one whose
    chain is [chain], letter case apart. *)
Fixpoint GetDepositAddress_loop (d : list DepositAddress) (chain : string)
  : option DepositAddress :=
  match d with
  | [] => None
  | x :: d' =>
      if strings_EqualFold A (Chain x) chain then Some x
      else GetDepositAddress_loop d' chain
  end.

(** [GetDepositAddress] returns a deposit address for a specified currency;
    its third argument is not read. *)
Definition GetDepositAddress (c : Coinbene) (curr : currency'.Code)
    (accountID chain : string) : S (option deposit.Address * option error) :=
  r <~ rest (ReqListDepositAddress curr)
         (fun h => ListDepositAddress A h curr) ;;
  match r with
  | (_, Some err) => ret (None, Some err)
  | (d, None) =>
      match d with
      | [] =>
          ret (None,
               Some "no address(es) returned, please create one via the Coinbene website")
      | d0 :: _ =>
          if bool_decide (chain <> "") then
            match GetDepositAddress_loop d chain with
            | Some x =>
                ret (Some {| deposit.Address_ := Address x;
                             deposit.Tag := AddressTag x |},
                     None)
            | None => ret (None, Some ("no chain " +:+ chain +:+ " found"))
            end
          else
            ret (Some {| deposit.Address_ := Address d0;
                         deposit.Tag := AddressTag d0 |},
                 None)
      end
  end.

(** [GetAvailableTransferChains] returns the available transfer blockchains
    for the specific cryptocurrency. *)
Definition GetAvailableTransferChains (c : Coinbene)
    (cryptocurrency : currency'.Code) : S (list string * option error) :=
  r <~ rest (ReqListDepositAddress cryptocurrency)
         (fun h => ListDepositAddress A h cryptocurrency) ;;
  match r with
  | (_, Some err) => ret ([], Some err)
  | (r, None) =>
      ret (map Chain (filter (fun x => Chain x <> "") r), None)
  end.

(** The first loop of [GetActiveOrders] and of [GetOrderHistory]: the
    exchange's pairs are appended to the request's one by one, until a
    symbol does not parse. *)
Fixpoint append_pairs (allPairs : list PairData) (pairs : list currency.Pair)
  : list currency.Pair * option error :=
  match allPairs with
  | [] => (pairs, None)
  | x :: allPairs' =>
      match NewPairFromString E (PairData_Symbol x) with
      | (_, Some err) => (pairs, Some err)
      | (p, None) => append_pairs allPairs' (pairs ++ [p])
      end
  end.

(** How the two listings begin: a request that names no pair is given the
    pairs of the exchange.  The request is reached through a pointer, so
    the caller sees the pairs it was given. *)
Definition all_pairs_if_none (getOrdersRequest : order'.GetOrdersRequest)
  : S (order'.GetOrdersRequest * option error) :=
  if (length (order'.Pairs getOrdersRequest) =? 0)%nat then
    r <~ rest ReqGetAllPairs (GetAllPairs A) ;;
    match r with
    | (_, Some err) => ret (getOrdersRequest, Some err)
    | (allPairs, None) =>
        let (pairs, err) :=
          append_pairs allPairs (order'.Pairs getOrdersRequest) in
        ret ({| order'.Pairs := pairs |}, err)
    end
  else ret (getOrdersRequest, None).

(** [strings.EqualFold(tempData[y].OrderType, order.Sell.String())] decides
    the side. *)
Definition side_of (o : OrderInfo) : order.Side :=
  if strings_EqualFold A (OrderType o) order.Sell then order.Sell
  else order.Buy.

(** The body of the inner loop of [GetActiveOrders]: an open order of the
    listing for [pair] as an [order.Detail].  A status that does not parse
    is logged, and the status [StringToOrderStatus] returns beside the
    error is kept. *)
Definition active_order (c : Coinbene) (pair : currency.Pair) (o : OrderInfo)
  : order'.Detail :=
  {| order'.Exchange := Name c;
     order'.Pair := pair;
     order'.OrderSide := side_of o;
     order'.Date := OrderTime o;
     order'.OrderStatus := fst (StringToOrderStatus A (OrderStatus o));
     order'.Price := OrderPrice o;
     order'.AverageExecutedPrice := 0%float;
     order'.Amount := Amount o;
     order'.ExecutedAmount := FilledAmount o;
     order'.RemainingAmount := PrimFloat.sub (Amount o) (FilledAmount o);
     order'.Cost := 0%float;
     order'.CostAsset := "";
     order'.Fee := TotalFee o |}.

(** The outer loop of [GetActiveOrders]: one listing per pair. *)
Fixpoint GetActiveOrders_loop (c : Coinbene) (pairs : list currency.Pair)
    (resp : list order'.Detail) : S (list order'.Detail * option error) :=
  match pairs with
  | [] => ret (resp, None)
  | p :: pairs' =>
      match FormatExchangeCurrency E c p asset.Spot with
      | (_, Some err) => ret ([], Some err)
      | (fpair, None) =>
          r <~ rest (ReqFetchOpenSpotOrders (Pair_String E fpair))
                 (fun h => FetchOpenSpotOrders A h (Pair_String E fpair)) ;;
          match r with
          | (_, Some err) => ret ([], Some err)
          | (tempData, None) =>
              GetActiveOrders_loop c pairs'
                (resp ++ map (active_order c p) tempData)
          end
      end
  end.

(** [GetActiveOrders] retrieves any orders that are active/open.  Beside its
    results it gives the request as the call left it. *)
Definition GetActiveOrders (c : Coinbene)
    (getOrdersRequest : order'.GetOrdersRequest)
  : S (list order'.Detail * option error * order'.GetOrdersRequest) :=
  match GetOrdersRequest_Validate A getOrdersRequest with
  | Some err => ret ([], Some err, getOrdersRequest)
  | None =>
      r <~ all_pairs_if_none getOrdersRequest ;;
      match r with
      | (getOrdersRequest, Some err) => ret ([], Some err, getOrdersRequest)
      | (getOrdersRequest, None) =>
          r <~ GetActiveOrders_loop c (order'.Pairs getOrdersRequest) [] ;;
          ret (r, getOrdersRequest)
      end
  end.

(** The body of the inner loop of [GetOrderHistory]: a closed order of the
    listing for [pair], before and after [InferCostsAndTimes]. *)
Definition closed_order (c : Coinbene) (pair : currency.Pair) (o : OrderInfo)
  : order'.Detail :=
  {| order'.Exchange := Name c;
     order'.Pair := pair;
     order'.OrderSide := side_of o;
     order'.Date := OrderTime o;
     order'.OrderStatus := fst (StringToOrderStatus A (OrderStatus o));
     order'.Price := OrderPrice o;
     order'.AverageExecutedPrice := AvgPrice o;
     order'.Amount := Amount o;
     order'.ExecutedAmount := FilledAmount o;
     order'.RemainingAmount := PrimFloat.sub (Amount o) (FilledAmount o);
     order'.Cost := Quantity o;
     order'.CostAsset := currency.Quote pair;
     order'.Fee := TotalFee o |}.

(** The outer loop of [GetOrderHistory]: one listing per pair, asked for
    with an empty latest ID. *)
Fixpoint GetOrderHistory_loop (c : Coinbene) (pairs : list currency.Pair)
    (resp : list order'.Detail) : S (list order'.Detail * option error) :=
  match pairs with
  | [] => ret (resp, None)
  | p :: pairs' =>
      match FormatExchangeCurrency E c p asset.Spot with
      | (_, Some err) => ret ([], Some err)
      | (fpair, None) =>
          r <~ rest (ReqFetchClosedOrders (Pair_String E fpair) "")
                 (fun h => FetchClosedOrders A h (Pair_String E fpair) "") ;;
          match r with
          | (_, Some err) => ret ([], Some err)
          | (tempData, None) =>
              GetOrderHistory_loop c pairs'
                (resp
                 ++ map (fun o => InferCostsAndTimes A (closed_order c p o))
                      tempData)
          end
      end
  end.

(** [GetOrderHistory] retrieves account order information. *)
Definition GetOrderHistory (c : Coinbene)
    (getOrdersRequest : order'.GetOrdersRequest)
  : S (list order'.Detail * option error * order'.GetOrdersRequest) :=
  match GetOrdersRequest_Validate A getOrdersRequest with
  | Some err => ret ([], Some err, getOrdersRequest)
  | None =>
      r <~ all_pairs_if_none getOrdersRequest ;;
      match r with
      | (getOrdersRequest, Some err) => ret ([], Some err, getOrdersRequest)
      | (getOrdersRequest, None) =>
          r <~ GetOrderHistory_loop c (order'.Pairs getOrdersRequest) [] ;;
          ret (r, getOrdersRequest)
      end
  end.
End Wrapper.
End UserAccount.

(** ** The vocabulary of the statements on the account side *)

(** The listing requests of [GetActiveOrders] and [GetOrderHistory] for a
    pair: the pair goes out in the format of the spot asset. *)
Definition open_orders_request (E : Env) (c : Coinbene) (p : currency.Pair)
  : UserAccount.Event :=
  UserAccount.REST
    (UserAccount.ReqFetchOpenSpotOrders
       (Pair_String E (fst (FormatExchangeCurrency E c p asset.Spot)))).

Definition closed_orders_request (E : Env) (c : Coinbene) (p : currency.Pair)
  : UserAccount.Event :=
  UserAccount.REST
    (UserAccount.ReqFetchClosedOrders
       (Pair_String E (fst (FormatExchangeCurrency E c p asset.Spot))) "").

(** The request for the exchange's pairs that opens a listing whose request
    names no pair. *)
Definition all_pairs_request (req : order'.GetOrdersRequest)
  : list UserAccount.Event :=
  if decide (order'.Pairs req = [])
  then [UserAccount.REST UserAccount.ReqGetAllPairs] else [].

(** An order of a listing as the wrapper hands it on: it names the exchange
    and one of the pairs asked for, it is a Buy or a Sell, and what remains
    of it is its amount less what was executed. *)
Definition listed_order (c : Coinbene) (pairs : list currency.Pair)
    (d : order'.Detail) : Prop :=
  order'.Exchange d = Name c
  /\ order'.Pair d ∈ pairs
  /\ (order'.OrderSide d = order.Buy \/ order'.OrderSide d = order.Sell)
  /\ order'.RemainingAmount d
     = PrimFloat.sub (order'.Amount d) (order'.ExecutedAmount d).

(** The deposit address the wrapper makes of an address of the exchange. *)
Definition address_of (x : UserAccount.DepositAddress) : deposit.Address :=
  {| deposit.Address_ := UserAccount.Address x;
     deposit.Tag := UserAccount.AddressTag x |}.

(** ** An account for the examples *)
Module Ledger.

(** Letters in lower case, for a comparison that ignores the case of ASCII
    letters. *)
Definition lower (a : Ascii.ascii) : Ascii.ascii :=
  let n := Ascii.nat_of_ascii a in
  if ((65 <=? n) && (n <=? 90))%nat then Ascii.ascii_of_nat (n + 32) else a.

Fixpoint lower_string (s : string) : string :=
  match s with
  | EmptyString => EmptyString
  | String a s' => String (lower a) (lower_string s')
  end.

Definition equal_fold (s t : string) : bool :=
  bool_decide (lower_string s = lower_string t).

Definition balances : list UserAccount.UserBalanceData :=
  [ {| UserAccount.Asset := "BTC"; UserAccount.Available := 1.5%float;
       UserAccount.Reserved := 0.5%float |};
    {| UserAccount.Asset := "USDT"; UserAccount.Available := 1000%float;
       UserAccount.Reserved := 0%float |} ].

(** The addresses of a currency: one that names no chain, and two that
    do. *)
Definition addresses : list UserAccount.DepositAddress :=
  [ {| UserAccount.Chain := ""; UserAccount.Address := "1Boat";
       UserAccount.AddressTag := "" |};
    {| UserAccount.Chain := "ERC20"; UserAccount.Address := "0xC0FFEE";
       UserAccount.AddressTag := "" |};
    {| UserAccount.Chain := "TRC20"; UserAccount.Address := "TQn9";
       UserAccount.AddressTag := "memo-7" |} ].

Definition listed (type status : string) (amount filled : float64)
  : UserAccount.OrderInfo :=
  {| UserAccount.OrderType := type; UserAccount.OrderStatus := status;
     UserAccount.OrderTime := 1609459200000000000%Z;
     UserAccount.OrderPrice := 10000%float;
     UserAccount.AvgPrice := 10000%float;
     UserAccount.Amount := amount; UserAccount.FilledAmount := filled;
     UserAccount.Quantity := 10000%float;
     UserAccount.TotalFee := 0.5%float |}.

(** The holdings the account store was last handed for an exchange. *)
Fixpoint last_processed (h : list UserAccount.Event) (exch : string)
  : option account.Holdings :=
  match h with
  | [] => None
  | ev :: h' =>
      match last_processed h' exch with
      | Some info => Some info
      | None =>
          match ev with
          | UserAccount.Process info =>
              if decide (account.Exchange info = exch) then Some info
              else None
          | _ => None
          end
      end
  end.

Definition env : UserAccount.AccountEnv :=
  {| UserAccount.strings_EqualFold := equal_fold;
     UserAccount.NewCode := fun s => s;
     UserAccount.GetOrdersRequest_Validate := fun _ => None;
     UserAccount.StringToOrderStatus :=
       fun s =>
         if decide (s = "open") then ("OPEN", None)
         else ("UNKNOWN", Some "order: status not recognised");
     UserAccount.InferCostsAndTimes := fun d => d;
     UserAccount.account_Process := fun _ info => (info, None);
     UserAccount.account_GetHoldings :=
       fun h exch _ =>
         match last_processed h exch with
         | Some info => (info, None)
         | None =>
             (account.Holdings_zero, Some "account: no holdings for the exchange")
         end;
     UserAccount.GetAllPairs :=
       fun _ =>
         ([ {| PairData_Symbol := "BTC/USDT" |};
            {| PairData_Symbol := "ETH/USDT" |} ], None);
     UserAccount.GetAccountBalances := fun _ => (balances, None);
     UserAccount.ListDepositAddress := fun _ _ => (addresses, None);
     UserAccount.FetchOpenSpotOrders :=
       fun _ symbol =>
         if decide (symbol = "BTC/USDT")
         then ([listed "sell" "open" 2%float 0.5%float;
                listed "buy" "pending?" 1%float 0%float], None)
         else ([], None);
     UserAccount.FetchClosedOrders :=
       fun _ symbol _ =>
         if decide (symbol = "ETH/USDT")
         then ([listed "SELL" "filled" 1%float 1%float], None)
         else ([], None) |}.
End Ledger.

(** * Facts about the model *)

(** ** Sorting by a key *)
Section SortByKey.
Context {A : Type} (key : A -> Z).

Lemma insert_permutation (x : A) (l : list A) :
  sort.insert (key_less key) x l ≡ₚ x :: l.
Proof.
  induction l as [|y l IH]; simpl.
  - reflexivity.
  - destruct (key_less key y x).
    + rewrite IH. apply perm_swap.
    + reflexivity.
Qed.

Lemma Sort_permutation (l : list A) : sort.Sort (key_less key) l ≡ₚ l.
Proof.
  induction l as [|x l IH]; simpl.
  - reflexivity.
  - rewrite insert_permutation. now apply perm_skip.
Qed.

Lemma insert_ascending (x : A) (l : list A) :
  ascending key l -> ascending key (sort.insert (key_less key) x l).
Proof.
  unfold ascending.
  induction l as [|y l IH]; simpl; intros Hl.
  - repeat constructor.
  - apply StronglySorted_inv in Hl as [Hl Hy].
    unfold key_less at 1.
    destruct (Z.ltb_spec (key y) (key x)) as [Hlt|Hge].
    + constructor; [now apply IH|].
      rewrite Forall_forall in *. intros z Hz.
      rewrite insert_permutation in Hz.
      apply elem_of_cons in Hz as [->|Hz]; [lia|now apply Hy].
    + constructor; [now constructor|].
      constructor; [exact Hge|].
      rewrite Forall_forall in *. intros z Hz.
      specialize (Hy z Hz). lia.
Qed.

Lemma Sort_ascending (l : list A) :
  ascending key (sort.Sort (key_less key) l).
Proof.
  induction l as [|x l IH]; simpl.
  - constructor.
  - now apply insert_ascending.
Qed.

Lemma ascending_strict (l : list A) :
  ascending key l -> NoDup l -> distinct_keys key l ->
  StronglySorted (fun a b => (key a < key b)%Z) l.
Proof.
  unfold ascending, distinct_keys.
  induction l as [|x l IH]; simpl; intros Hl Hnd Hk.
  - constructor.
  - apply StronglySorted_inv in Hl as [Hl Hx].
    apply NoDup_cons in Hnd as [Hnin Hnd].
    constructor.
    + apply IH; [done..|].
      intros y z Hy Hz. apply Hk; now right.
    + rewrite Forall_forall in *. intros z Hz.
      specialize (Hx z Hz).
      assert (key z <> key x).
      { intros Heq. apply Hnin.
        rewrite <- (Hk z x); [done|now right|now left|done]. }
      lia.
Qed.

Lemma strict_distinct_keys (l : list A) :
  StronglySorted (fun a b => (key a < key b)%Z) l -> distinct_keys key l.
Proof.
  unfold distinct_keys.
  induction l as [|x l IH]; intros Hl y z Hy Hz Heq.
  - now apply elem_of_nil in Hy.
  - apply StronglySorted_inv in Hl as [Hl Hx].
    rewrite Forall_forall in Hx.
    apply elem_of_cons in Hy as [->|Hy]; apply elem_of_cons in Hz as [->|Hz].
    + reflexivity.
    + specialize (Hx z Hz). lia.
    + specialize (Hx y Hy). lia.
    + now apply IH.
Qed.

Lemma strict_NoDup (l : list A) :
  StronglySorted (fun a b => (key a < key b)%Z) l -> NoDup l.
Proof.
  induction l as [|x l IH]; intros Hl.
  - constructor.
  - apply StronglySorted_inv in Hl as [Hl Hx].
    apply NoDup_cons. split; [|now apply IH].
    intros Hin. rewrite Forall_forall in Hx.
    specialize (Hx x Hin). lia.
Qed.

End SortByKey.

(** ** The synchronizer: what a delivery leaves *)
Section SynchronizerFacts.
Import Synchronizer.

Lemma apply_seq (b : OrderBook) (u : PendingUpdate) :
  seq (apply b u) = sequence u.
Proof. unfold apply. now destruct (side u). Qed.

Lemma apply_verification (b : OrderBook) (u : PendingUpdate) :
  verification (apply b u) = verification b.
Proof. unfold apply. now destruct (side u). Qed.

Lemma Reach_mono (pool pool' : list PendingUpdate) b r :
  (forall u, u ∈ pool -> u ∈ pool') -> Reach pool b r -> Reach pool' b r.
Proof.
  intros Hsub H. induction H.
  - constructor.
  - eapply reach_reject; eauto.
  - eapply reach_apply; eauto.
Qed.

Lemma Reach_trans (pool : list PendingUpdate) b0 b r :
  Reach pool b0 (Some b) -> Reach pool b r -> Reach pool b0 r.
Proof.
  intros H. remember (Some b) as rb eqn:Hrb.
  induction H as [b1|b1 u Hu Hs Hv|b1 u r1 Hu Hs Hv H IH]; intros Hr.
  - now injection Hrb as ->.
  - discriminate.
  - eapply reach_apply; eauto.
Qed.

Lemma Reach_seq (pool : list PendingUpdate) b b' :
  Reach pool b (Some b') -> (seq b <= seq b')%Z.
Proof.
  intros H. remember (Some b') as rb eqn:Hrb.
  induction H as [b1|b1 u Hu Hs Hv|b1 u r1 Hu Hs Hv H IH].
  - injection Hrb as ->. lia.
  - discriminate.
  - specialize (IH Hrb). rewrite apply_seq in IH. lia.
Qed.

(** With one update per sequence number, what [Reach] settles on is
    determined by the pool. *)
Lemma Reach_functional (pool : list PendingUpdate) b r1 r2 :
  distinct_keys sequence pool ->
  Reach pool b r1 -> settled pool r1 ->
  Reach pool b r2 -> settled pool r2 ->
  r1 = r2.
Proof.
  intros Hk H1. revert r2.
  induction H1 as [b|b u Hu Hs Hv|b u r1 Hu Hs Hv H1 IH];
    intros r2 Hset1 H2 Hset2.
  - inversion H2 as [b1|b1 u Hu Hs Hv|b1 u r Hu Hs Hv H]; subst.
    + reflexivity.
    + now destruct (Hset1 u Hu).
    + now destruct (Hset1 u Hu).
  - inversion H2 as [b1|b1 u' Hu' Hs' Hv'|b1 u' r Hu' Hs' Hv' H]; subst.
    + now destruct (Hset2 u Hu).
    + reflexivity.
    + assert (u = u') as <- by (apply Hk; [done..|congruence]).
      congruence.
  - inversion H2 as [b1|b1 u' Hu' Hs' Hv'|b1 u' r Hu' Hs' Hv' H]; subst.
    + now destruct (Hset2 u Hu).
    + assert (u = u') as <- by (apply Hk; [done..|congruence]).
      congruence.
    + assert (u = u') as <- by (apply Hk; [done..|congruence]).
      now apply IH.
Qed.

Lemma meet_Resyncing (limit : nat) (l : list PendingUpdate) :
  fold_left (meet limit) l Resyncing = Resyncing.
Proof. induction l; simpl; auto. Qed.

(** Updates that are all ahead of the book are buffered, as long as the
    buffer has room for them. *)
Lemma meet_ahead (limit : nat) (b : OrderBook) (l acc : list PendingUpdate) :
  (forall v, v ∈ l -> (seq b + 1 < sequence v)%Z) ->
  (length acc + length l <= limit)%nat ->
  fold_left (meet limit) l (Synced b acc) = Synced b (acc ++ l).
Proof.
  revert acc. induction l as [|u l IH]; intros acc Hall Hlen; simpl.
  - now rewrite app_nil_r.
  - assert (seq b + 1 < sequence u)%Z as Hu by (apply Hall; now left).
    simpl in Hlen. unfold accept.
    rewrite bool_decide_eq_false_2 by lia.
    rewrite bool_decide_eq_false_2 by lia.
    rewrite bool_decide_eq_false_2 by lia.
    rewrite IH.
    + now rewrite <- app_assoc.
    + intros v Hv. apply Hall. now right.
    + rewrite length_app. simpl. lia.
Qed.

(** Meeting a strictly ascending list of fresh updates applies its head for
    as long as the head is the next one and buffers the rest. *)
Lemma meet_ascending (limit : nat) (l : list PendingUpdate) :
  forall b,
    StronglySorted (fun u v => (sequence u < sequence v)%Z) l ->
    (forall v, v ∈ l -> (seq b < sequence v)%Z) ->
    (length l <= limit)%nat ->
    match fold_left (meet limit) l (Synced b []) with
    | Resyncing => Reach l b None
    | Synced b' buf =>
        Reach l b (Some b') /\
        exists pre,
          l = pre ++ buf /\
          (forall v, v ∈ pre -> (sequence v <= seq b')%Z) /\
          (forall v, v ∈ buf -> (seq b' + 1 < sequence v)%Z)
    | _ => False
    end.
Proof.
  induction l as [|u l IH]; intros b Hsort Hfresh Hlen.
  - simpl. split; [constructor|]. exists []. split; [done|].
    split; intros v Hv; now apply elem_of_nil in Hv.
  - apply StronglySorted_inv in Hsort as [Hsort Hu].
    rewrite Forall_forall in Hu.
    assert (seq b < sequence u)%Z as Hbu by (apply Hfresh; now left).
    destruct (decide (sequence u = seq b + 1)%Z) as [Hnext|Hgap].
    + simpl. unfold accept.
      rewrite bool_decide_eq_false_2 by lia.
      rewrite bool_decide_eq_true_2 by done.
      destruct (violates (apply b u)) eqn:Hv.
      * rewrite meet_Resyncing.
        eapply reach_reject; [|exact Hnext|exact Hv]. now left.
      * specialize (IH (apply b u) Hsort).
        destruct (fold_left (meet limit) l (Synced (apply b u) [])) as
          [|buf0|b' buf|] eqn:Hfold.
        -- apply IH; [|simpl in Hlen; lia].
           intros v Hv'. rewrite apply_seq. now apply Hu.
        -- apply IH; [|simpl in Hlen; lia].
           intros v Hv'. rewrite apply_seq. now apply Hu.
        -- destruct IH as (Hr & pre & -> & Hpre & Hbuf).
           { intros v Hv'. rewrite apply_seq. now apply Hu. }
           { simpl in Hlen. lia. }
           split.
           ++ eapply reach_apply; [now left|exact Hnext|exact Hv|].
              eapply Reach_mono; [|exact Hr]. intros v Hv'. now right.
           ++ exists (u :: pre). split; [done|]. split; [|done].
              intros v Hv'. apply elem_of_cons in Hv' as [->|Hv'].
              ** apply Reach_seq in Hr. rewrite apply_seq in Hr. lia.
              ** now apply Hpre.
        -- eapply reach_apply; [now left|exact Hnext|exact Hv|].
           eapply Reach_mono; [|apply IH].
           ++ intros v Hv'. now right.
           ++ intros v Hv'. rewrite apply_seq. now apply Hu.
           ++ simpl in Hlen. lia.
    + rewrite meet_ahead.
      * split; [constructor|]. exists []. split; [done|]. split.
        -- intros v Hv. now apply elem_of_nil in Hv.
        -- intros v Hv. simpl in Hv.
           apply elem_of_cons in Hv as [->|Hv]; [lia|].
           specialize (Hu v Hv). lia.
      * intros v Hv. apply elem_of_cons in Hv as [->|Hv]; [lia|].
        specialize (Hu v Hv). lia.
      * simpl in *. lia.
Qed.

Lemma step_delivered_inv (limit : nat)
    (pool delivered coming : list PendingUpdate)
    (u : PendingUpdate) (b0 : OrderBook) (st : State) :
  distinct_keys sequence pool -> NoDup pool ->
  (length (waiting b0 pool) <= limit)%nat ->
  pool = delivered ++ u :: coming ->
  delivered_inv pool delivered b0 st ->
  delivered_inv pool (delivered ++ [u]) b0 (step limit st (Update u)).
Proof.
  intros Hk Hnd Hlen Hpool Hinv.
  assert (u ∈ pool) as Hu.
  { rewrite Hpool, elem_of_app. right. now left. }
  assert (u ∉ delivered) as Hfresh.
  { rewrite Hpool in Hnd. apply NoDup_app in Hnd as (_ & Hd & _).
    intros Hin. apply (Hd u Hin). now left. }
  assert (forall v, v ∈ delivered -> v ∈ pool) as Hsub.
  { intros v Hv. rewrite Hpool, elem_of_app. now left. }
  destruct st as [|buf0|b buf|]; simpl in Hinv; try done.
  destruct Hinv as (Hreach & Hndb & Hbuf & Hnext).
  pose proof (Reach_seq _ _ _ Hreach) as Hb0.
  assert (forall X,
             NoDup X ->
             (forall v, v ∈ X -> v ∈ pool /\ (seq b + 1 < sequence v)%Z) ->
             (length X <= limit)%nat) as Hfits.
  { intros X HX Hin. etransitivity; [|exact Hlen].
    apply submseteq_length, NoDup_submseteq; [done|].
    intros v Hv. apply list_elem_of_filter.
    destruct (Hin v Hv). split; [lia|done]. }
  simpl. destruct (decide (sequence u = seq b + 1)%Z) as [Hn|Hn].
  - rewrite bool_decide_eq_true_2 by done.
    destruct (violates (apply b u)) eqn:Hv.
    + simpl. eapply Reach_trans; [exact Hreach|].
      eapply reach_reject; eauto.
    + unfold replay.
      assert (sort.Sort by_sequence buf ≡ₚ buf) as Hperm
        by apply (Sort_permutation sequence).
      assert (Reach pool b0 (Some (apply b u))) as Hreach'.
      { eapply Reach_trans; [exact Hreach|].
        eapply reach_apply; eauto. constructor. }
      assert (forall v, v ∈ sort.Sort by_sequence buf -> v ∈ pool) as Hsub'.
      { intros v Hv'. rewrite Hperm in Hv'. apply Hsub.
        now apply Hbuf in Hv'. }
      pose proof (meet_ascending limit (sort.Sort by_sequence buf) (apply b u))
        as Hmeet.
      assert (StronglySorted (fun u v => (sequence u < sequence v)%Z)
                (sort.Sort by_sequence buf)) as Hstrict.
      { apply ascending_strict.
        - apply Sort_ascending.
        - now rewrite Hperm.
        - intros x y Hx Hy. apply Hk; now apply Hsub'. }
      assert (forall v,
                 v ∈ sort.Sort by_sequence buf ->
                 (seq (apply b u) < sequence v)%Z) as Hpast.
      { intros v Hv'. rewrite Hperm in Hv'. apply Hbuf in Hv'.
        rewrite apply_seq. lia. }
      assert (length (sort.Sort by_sequence buf) <= limit)%nat as Hroom.
      { rewrite Hperm. apply Hfits; [done|].
        intros v Hv'. apply Hbuf in Hv' as [? ?]. auto. }
      specialize (Hmeet Hstrict Hpast Hroom).
      destruct (fold_left (meet limit) (sort.Sort by_sequence buf)
                  (Synced (apply b u) [])) as [|buf0|b' buf'|] eqn:Hfold;
        simpl; try done.
      * destruct Hmeet as (Hr & pre & Hsplit & Hpre & Hahead).
        pose proof (Reach_seq _ _ _ Hr) as Hseq. rewrite apply_seq in Hseq.
        assert (forall v, v ∈ buf <-> v ∈ pre \/ v ∈ buf') as Hmem.
        { intros v. now rewrite <- Hperm, Hsplit, elem_of_app. }
        split; [|split; [|split]].
        -- eapply Reach_trans; [exact Hreach'|].
           eapply Reach_mono; [exact Hsub'|exact Hr].
        -- assert (NoDup (pre ++ buf')) as Hnd'
             by now rewrite <- Hsplit, Hperm.
           now apply NoDup_app in Hnd' as (_ & _ & Hnd').
        -- intros v. rewrite elem_of_app, list_elem_of_singleton. split.
           ++ intros Hv'. split; [|now apply Hahead].
              left. apply Hbuf, Hmem. now right.
           ++ intros [[Hv'| ->] Hlt]; [|lia].
              assert (v ∈ buf) as Hvb by (apply Hbuf; split; [done|lia]).
              apply Hmem in Hvb as [Hvp|Hvb]; [|done].
              specialize (Hpre v Hvp). lia.
        -- intros v. rewrite elem_of_app, list_elem_of_singleton.
           intros [Hv'| ->] Heq; [|lia].
           assert (v ∈ buf) as Hvb by (apply Hbuf; split; [done|lia]).
           apply Hmem in Hvb as [Hvp|Hvb].
           ++ specialize (Hpre v Hvp). lia.
           ++ specialize (Hahead v Hvb). lia.
      * eapply Reach_trans; [exact Hreach'|].
        eapply Reach_mono; [exact Hsub'|exact Hmeet].
  - rewrite bool_decide_eq_false_2 by done. unfold accept.
    destruct (decide (sequence u <= seq b)%Z) as [Hstale|Hahead].
    + rewrite bool_decide_eq_true_2 by done. simpl.
      split; [done|]. split; [done|]. split.
      * intros v. rewrite Hbuf, elem_of_app, list_elem_of_singleton.
        split; [intros [? ?]; auto|]. intros [[?| ->] ?]; [done|lia].
      * intros v. rewrite elem_of_app, list_elem_of_singleton.
        intros [?| ->]; [now apply Hnext|done].
    + assert (NoDup (buf ++ [u])) as Hndu.
      { apply NoDup_app. split; [done|]. split; [|apply NoDup_singleton].
        intros v Hv ->%list_elem_of_singleton. apply Hfresh. now apply Hbuf. }
      assert (length (buf ++ [u]) <= limit)%nat as Hroom.
      { apply Hfits; [done|]. intros v.
        rewrite elem_of_app, list_elem_of_singleton.
        intros [Hv%Hbuf| ->]; [|split; [done|lia]].
        destruct Hv. auto. }
      rewrite length_app in Hroom. simpl in Hroom.
      rewrite bool_decide_eq_false_2 by done.
      rewrite bool_decide_eq_false_2 by done.
      rewrite bool_decide_eq_false_2 by lia. simpl.
      split; [done|]. split; [done|]. split.
      * intros v. rewrite !elem_of_app, Hbuf, list_elem_of_singleton.
        split; [intros [[? ?]| ->]; [auto|split; [auto|lia]]|].
        intros [[?| ->] ?]; auto.
      * intros v. rewrite elem_of_app, list_elem_of_singleton.
        intros [?| ->]; [now apply Hnext|done].
Qed.

Lemma deliver_inv (limit : nat) (pool : list PendingUpdate) (b0 : OrderBook) :
  distinct_keys sequence pool -> NoDup pool ->
  (length (waiting b0 pool) <= limit)%nat ->
  forall coming delivered st,
    pool = delivered ++ coming ->
    delivered_inv pool delivered b0 st ->
    delivered_inv pool pool b0 (deliver limit st coming).
Proof.
  intros Hk Hnd Hlen coming.
  induction coming as [|u coming IH]; intros delivered st Hpool Hinv.
  - rewrite app_nil_r in Hpool. now subst.
  - unfold deliver, run. simpl. apply (IH (delivered ++ [u])).
    + now rewrite <- app_assoc.
    + eapply step_delivered_inv; eauto.
Qed.

(** A feed of pairwise distinct sequence numbers whose waiting updates fit
    the buffer leaves, whatever the order it comes in, the book its updates
    lead to when applied one after the other. *)
Lemma deliver_settles (limit : nat) (us : list PendingUpdate) (b0 : OrderBook) :
  distinct_keys sequence us -> NoDup us ->
  (length (waiting b0 us) <= limit)%nat ->
  Reach us b0 (GetBook (deliver limit (Synced b0 []) us)) /\
  settled us (GetBook (deliver limit (Synced b0 []) us)).
Proof.
  intros Hk Hnd Hlen.
  assert (delivered_inv us [] b0 (Synced b0 [])) as Hinit.
  { simpl. split; [constructor|]. split; [constructor|].
    split; intros v; rewrite ?elem_of_nil; tauto. }
  pose proof (deliver_inv limit us b0 Hk Hnd Hlen us [] (Synced b0 [])
                eq_refl Hinit) as Hinv.
  destruct (deliver limit (Synced b0 []) us) as [|buf0|b buf|];
    simpl in *; try done.
  destruct Hinv as (Hr & _ & _ & Hnext). now split.
Qed.

Lemma contiguous_settles (l : list PendingUpdate) :
  forall b,
    contiguous (seq b) l ->
    Reach l b (apply_all b l) /\ settled l (apply_all b l).
Proof.
  induction l as [|u l IH]; intros b Hc; simpl.
  - split; [constructor|]. intros v Hv. now apply elem_of_nil in Hv.
  - destruct Hc as [Hu Hc].
    destruct (violates (apply b u)) eqn:Hv.
    + split; [|done]. eapply reach_reject; [now left|done..].
    + destruct (IH (apply b u)) as [Hr Hset].
      { now rewrite apply_seq, Hu. }
      split.
      * eapply reach_apply; [now left|done..|].
        eapply Reach_mono; [|exact Hr]. intros v Hv'. now right.
      * destruct (apply_all (apply b u) l) as [b'|] eqn:Hall; [|done].
        simpl in *. intros v Hv'.
        apply elem_of_cons in Hv' as [->|Hv']; [|now apply Hset].
        apply Reach_seq in Hr. rewrite apply_seq in Hr. lia.
Qed.

(** C2 (confluence).  Take a synced book with nothing buffered and a feed
    of updates with pairwise distinct sequence numbers that stays within the
    buffer window: the updates that may have to wait, those past the book's
    next sequence number, are no more than the buffer limit.  In whatever
    order the updates are delivered, the synchronizer ends with the book it
    ends with when they are delivered in strictly ascending sequence order;
    and when the sequence numbers go on from the book's without a gap, that
    is the book got by applying the updates themselves one after the other
    in that order. *)
Theorem synchronizer_confluence (limit : nat) (book : OrderBook)
    (us in_order : list PendingUpdate) :
  us ≡ₚ in_order ->
  StronglySorted (fun u v => (sequence u < sequence v)%Z) in_order ->
  (length (waiting book us) <= limit)%nat ->
  GetBook (deliver limit (Synced book []) us)
  = GetBook (deliver limit (Synced book []) in_order)
  /\ (contiguous (seq book) in_order ->
      GetBook (deliver limit (Synced book []) us) = apply_all book in_order).
Proof.
  intros Hperm Hsort Hlen.
  pose proof (strict_distinct_keys sequence in_order Hsort) as Hk.
  pose proof (strict_NoDup sequence in_order Hsort) as Hnd.
  assert (forall v, v ∈ us <-> v ∈ in_order) as Hmem
    by (intros v; now rewrite Hperm).
  destruct (deliver_settles limit in_order book) as [Hr2 Hs2]; [done..| |].
  { unfold waiting in *. now rewrite <- Hperm. }
  destruct (deliver_settles limit us book) as [Hr1 Hs1].
  { intros x y Hx Hy. apply Hk; now apply Hmem. }
  { now rewrite Hperm. }
  { done. }
  assert (Reach in_order book (GetBook (deliver limit (Synced book []) us)))
    as Hr1' by (eapply Reach_mono; [|exact Hr1]; intros v; apply Hmem).
  assert (settled in_order (GetBook (deliver limit (Synced book []) us)))
    as Hs1'.
  { destruct (GetBook (deliver limit (Synced book []) us)); [|done].
    simpl in *. intros v Hv. apply Hs1. now apply Hmem. }
  split.
  - eapply Reach_functional; eauto.
  - intros Hc. destruct (contiguous_settles in_order book Hc) as [Hr3 Hs3].
    eapply Reach_functional; eauto.
Qed.

Lemma synchronizer_confluence_witness :
  [update103; update102] ≡ₚ [update102; update103]
  /\ StronglySorted (fun u v => (sequence u < sequence v)%Z)
       [update102; update103]
  /\ (length (waiting book101 [update103; update102]) <= 1)%nat
  /\ GetBook (deliver 1 (Synced book101 []) [update103; update102])
     = apply_all book101 [update102; update103].
Proof.
  assert ([update103; update102] ≡ₚ [update102; update103]) as Hperm
    by apply perm_swap.
  assert (StronglySorted (fun u v => (sequence u < sequence v)%Z)
            [update102; update103]) as Hsort.
  { repeat constructor. }
  assert (length (waiting book101 [update103; update102]) <= 1)%nat as Hlen
    by (vm_compute; lia).
  split; [exact Hperm|]. split; [exact Hsort|]. split; [exact Hlen|].
  apply (synchronizer_confluence 1 book101 _ _ Hperm Hsort Hlen).
  repeat split.
Defined.

End SynchronizerFacts.

(** ** The synchronizer against the scenarios of spec 8 *)

(** Idempotence: an update whose sequence number is not above the book's
    changes nothing. *)
Lemma stale_update_is_discarded (limit : nat) (b : Synchronizer.OrderBook)
    (buf : list Synchronizer.PendingUpdate) (u : Synchronizer.PendingUpdate) :
  (Synchronizer.sequence u <= Synchronizer.seq b)%Z ->
  Synchronizer.step limit (Synchronizer.Synced b buf) (Synchronizer.Update u)
  = Synchronizer.Synced b buf.
Proof.
  intros Hstale. simpl. unfold Synchronizer.accept.
  rewrite bool_decide_eq_false_2 by lia.
  now rewrite bool_decide_eq_true_2 by done.
Qed.

(** Updates ahead of the book are buffered while the buffer has room. *)
Lemma deliver_ahead (limit : nat) (b : Synchronizer.OrderBook)
    (l acc : list Synchronizer.PendingUpdate) :
  (forall v, v ∈ l -> (Synchronizer.seq b + 1 < Synchronizer.sequence v)%Z) ->
  (length acc + length l <= limit)%nat ->
  Synchronizer.deliver limit (Synchronizer.Synced b acc) l
  = Synchronizer.Synced b (acc ++ l).
Proof.
  revert acc. induction l as [|u l IH]; intros acc Hall Hlen.
  - now rewrite app_nil_r.
  - assert (Synchronizer.seq b + 1 < Synchronizer.sequence u)%Z as Hu
      by (apply Hall; now left).
    simpl in Hlen.
    unfold Synchronizer.deliver, Synchronizer.run. simpl.
    unfold Synchronizer.accept.
    rewrite !bool_decide_eq_false_2 by lia.
    fold (Synchronizer.run limit (Synchronizer.Synced b (acc ++ [u]))
            (map Synchronizer.Update l)).
    fold (Synchronizer.deliver limit (Synchronizer.Synced b (acc ++ [u])) l).
    rewrite IH.
    + now rewrite <- app_assoc.
    + intros v Hv. apply Hall. now right.
    + rewrite length_app. simpl. lia.
Qed.

(** With buffer limit N, N + 1 updates past a gap that stays open send the
    key to Resyncing, and [GetBook] reports "not yet synced". *)
Lemma overflow_resyncs (limit : nat) (b : Synchronizer.OrderBook)
    (l : list Synchronizer.PendingUpdate) (u : Synchronizer.PendingUpdate) :
  (forall v, v ∈ l ++ [u] ->
             (Synchronizer.seq b + 1 < Synchronizer.sequence v)%Z) ->
  length l = limit ->
  Synchronizer.deliver limit (Synchronizer.Synced b []) (l ++ [u])
  = Synchronizer.Resyncing.
Proof.
  intros Hall Hlen.
  assert (Synchronizer.seq b + 1 < Synchronizer.sequence u)%Z as Hu.
  { apply Hall. rewrite elem_of_app. right. now left. }
  unfold Synchronizer.deliver, Synchronizer.run.
  rewrite map_app, fold_left_app.
  fold (Synchronizer.run limit (Synchronizer.Synced b [])
          (map Synchronizer.Update l)).
  fold (Synchronizer.deliver limit (Synchronizer.Synced b []) l).
  rewrite deliver_ahead.
  - simpl. unfold Synchronizer.accept.
    rewrite !bool_decide_eq_false_2 by lia.
    now rewrite bool_decide_eq_true_2 by lia.
  - intros v Hv. apply Hall. rewrite elem_of_app. now left.
  - simpl. lia.
Qed.

(** Scenario A: snapshot sequence 100 with bid (10000, 1); update 101 sets
    bid (10000, 0): the bid side is empty. *)
Example scenario_A :
  Synchronizer.run 5 Synchronizer.Uninitialized
    [Synchronizer.Subscribe;
     Synchronizer.Snapshot Synchronizer.snapshot100;
     Synchronizer.Update
       (Synchronizer.upd 101 Synchronizer.Bid 10000%float 0%float)]
  = Synchronizer.Synced
      {| Synchronizer.bids := []; Synchronizer.asks := [];
         Synchronizer.seq := 101%Z; Synchronizer.lastUpdated := 0%Z;
         Synchronizer.verification := true |}
      [].
Proof. reflexivity. Qed.

(** Scenario B: update 103 arrives before 102; both apply in order and the
    sequence is 103. *)
Example scenario_B :
  Synchronizer.seq
    <$> Synchronizer.GetBook
          (Synchronizer.deliver 5
             (Synchronizer.Synced Synchronizer.book101 [])
             [Synchronizer.update103; Synchronizer.update102])
  = Some 103%Z.
Proof. reflexivity. Qed.

(** Scenario C: buffer limit 2; updates 105, 106, 107 arrive with the gap
    at 104 open: the third forces Resyncing, and [GetBook] reports "not yet
    synced" until a snapshot has come. *)
Example scenario_C :
  Synchronizer.deliver 2 (Synchronizer.Synced Synchronizer.book103 [])
    [Synchronizer.upd 105 Synchronizer.Ask 10006%float 1%float;
     Synchronizer.upd 106 Synchronizer.Ask 10007%float 1%float;
     Synchronizer.upd 107 Synchronizer.Ask 10008%float 1%float]
  = Synchronizer.Resyncing
  /\ Synchronizer.GetBook
       (Synchronizer.run 2 Synchronizer.Resyncing
          [Synchronizer.RequestSnapshot;
           Synchronizer.Update
             (Synchronizer.upd 108 Synchronizer.Ask 10008%float 1%float)])
     = None
  /\ Synchronizer.GetBook
       (Synchronizer.run 2 Synchronizer.Resyncing
          [Synchronizer.RequestSnapshot;
           Synchronizer.Snapshot Synchronizer.book103])
     = Some Synchronizer.book103.
Proof. repeat split. Qed.

(** Tie-break: of two buffered updates with one sequence number the one
    that arrived first applies; the other is stale by then. *)
Example tie_break :
  Synchronizer.GetBook
    (Synchronizer.deliver 5 (Synchronizer.Synced Synchronizer.book101 [])
       [Synchronizer.upd 103 Synchronizer.Bid 10001%float 3%float;
        Synchronizer.upd 103 Synchronizer.Bid 10002%float 4%float;
        Synchronizer.update102])
  = Synchronizer.GetBook
      (Synchronizer.deliver 5 (Synchronizer.Synced Synchronizer.book101 [])
         [Synchronizer.update102;
          Synchronizer.upd 103 Synchronizer.Bid 10001%float 3%float]).
Proof. reflexivity. Qed.

(** ** The wrapper *)

(** C4.  For an asset type the exchange does not support,
    [FetchTradablePairs], [UpdateTickers], [FetchOrderbook] and
    [UpdateOrderbook] each return the error
    "<name> does not support asset type <asset>" and leave the world as it
    was: no request is issued and no store is written. *)
Theorem unsupported_asset_is_refused (E : Env) (c : Coinbene)
    (p : currency.Pair) (a : asset.Item) (w : World) :
  SupportsAsset E c a = false ->
  let err := Name c +:+ " does not support asset type " +:+ a in
  FetchTradablePairs E c a w = (([], Some err), w)
  /\ UpdateTickers E c a w = (Some err, w)
  /\ FetchOrderbook E c p a w = ((None, Some err), w)
  /\ exists book, UpdateOrderbook E c p a w = ((Some book, Some err), w).
Proof.
  intros Hno. simpl.
  unfold FetchTradablePairs, UpdateTickers, FetchOrderbook, UpdateOrderbook.
  rewrite Hno. simpl. unfold errUnsupportedAsset.
  repeat split. eexists. reflexivity.
Qed.

Lemma unsupported_asset_is_refused_witness :
  SupportsAsset Example.up Example.coinbene "futures" = false
  /\ fst (UpdateTickers Example.up Example.coinbene "futures" Example.start)
     = Some "Coinbene does not support asset type futures"
  /\ calls (snd (FetchTradablePairs Example.up Example.coinbene "futures"
                   Example.start)) = [].
Proof.
  assert (SupportsAsset Example.up Example.coinbene "futures" = false) as Hno
    by (vm_compute; reflexivity).
  destruct (unsupported_asset_is_refused Example.up Example.coinbene
              Example.btc_usdt "futures" Example.start Hno)
    as (Hpairs & Htick & _ & _).
  split; [exact Hno|]. split.
  - rewrite Htick. reflexivity.
  - rewrite Hpairs. reflexivity.
Defined.

(** C3.  When the REST call of [UpdateOrderbook], [UpdateTickers] or
    [GetRecentTrades] fails with an error [e], the operation returns [e]
    itself, and the world it leaves differs from the one it found by that
    one request: the request is not repeated and no store is written. *)
Theorem rest_failure_is_returned (E : Env) (c : Coinbene) (w : World)
    (e : error) :
  (forall p a fpair,
      SupportsAsset E c a = true ->
      a = asset.Spot \/ a = asset.PerpetualSwap ->
      FormatExchangeCurrency E c p a = (fpair, None) ->
      orderbook_failure E a (calls w) (Pair_String E fpair) = Some e ->
      exists book,
        UpdateOrderbook E c p a w
        = ((book, Some e),
           requested w (orderbook_request a (Pair_String E fpair))))
  /\ (forall a allPairs,
         SupportsAsset E c a = true ->
         a = asset.Spot \/ a = asset.PerpetualSwap ->
         GetEnabledPairs E c a = (allPairs, None) ->
         tickers_failure E a (calls w) = Some e ->
         UpdateTickers E c a w = (Some e, requested w (tickers_request a)))
  /\ (forall p a fpair,
         FormatExchangeCurrency E c p a = (fpair, None) ->
         snd (GetTrades E (calls w) (Pair_String E fpair) 100) = Some e ->
         GetRecentTrades E c p a w
         = (([], Some e),
            requested w (ReqGetTrades (Pair_String E fpair) 100))).
Proof.
  split; [|split].
  - intros p a fpair Hsup Ha Hfmt Hfail.
    unfold UpdateOrderbook, orderbook_failure, orderbook_request in *.
    rewrite Hsup, Hfmt. simpl.
    destruct Ha as [-> | ->].
    + rewrite !decide_True in * by done. run_monad.
      destruct (GetOrderbook E (calls w) (Pair_String E fpair) 100)
        as [ob err]. simpl in Hfail. subst err. eexists. reflexivity.
    + rewrite !decide_False in * by done.
      rewrite !decide_True by done. run_monad.
      destruct (GetSwapOrderbook E (calls w) (Pair_String E fpair) 100)
        as [ob err]. simpl in Hfail. subst err. eexists. reflexivity.
  - intros a allPairs Hsup Ha Hpairs Hfail.
    unfold UpdateTickers, tickers_failure, tickers_request in *.
    rewrite Hsup, Hpairs. simpl.
    destruct Ha as [-> | ->].
    + rewrite !decide_True in * by done. run_monad.
      destruct (GetTickers E (calls w)) as [ts err].
      simpl in Hfail. now subst err.
    + rewrite !decide_False in * by done.
      rewrite !decide_True by done. run_monad.
      destruct (GetSwapTickers E (calls w)) as [ts err].
      simpl in Hfail. now subst err.
  - intros p a fpair Hfmt Hfail.
    unfold GetRecentTrades. rewrite Hfmt. run_monad.
    destruct (GetTrades E (calls w) (Pair_String E fpair) 100) as [ts err].
    simpl in Hfail. now subst err.
Qed.

Lemma rest_failure_is_returned_witness :
  UpdateTickers Example.down Example.coinbene asset.PerpetualSwap Example.start
  = (Some Example.unavailable, requested Example.start ReqGetSwapTickers)
  /\ GetRecentTrades Example.down Example.coinbene Example.btc_usdt asset.Spot
       Example.start
     = (([], Some Example.unavailable),
        requested Example.start (ReqGetTrades "BTC/USDT" 100))
  /\ exists book,
       UpdateOrderbook Example.down Example.coinbene Example.btc_usdt
         asset.Spot Example.start
       = ((book, Some Example.unavailable),
          requested Example.start (ReqGetOrderbook "BTC/USDT" 100)).
Proof.
  destruct (rest_failure_is_returned Example.down Example.coinbene
              Example.start Example.unavailable) as (Hbook & Htick & Htrades).
  split; [|split].
  - apply (Htick asset.PerpetualSwap [Example.btc_usdt]);
      [vm_compute; reflexivity|now right|reflexivity|reflexivity].
  - apply (Htrades Example.btc_usdt asset.Spot Example.btc_usdt);
      reflexivity.
  - apply (Hbook Example.btc_usdt asset.Spot Example.btc_usdt);
      [vm_compute; reflexivity|now left|reflexivity|reflexivity].
Defined.

(** What [UpdateOrderbook] leaves of the calls: at most one request, for a
    snapshot of depth 100. *)
Lemma UpdateOrderbook_calls (E : Env) (c : Coinbene) (p : currency.Pair)
    (a : asset.Item) (w : World) :
  exists rs,
    calls (snd (UpdateOrderbook E c p a w)) = calls w ++ rs
    /\ (rs = []
        \/ (exists sym, rs = [REST (ReqGetOrderbook sym 100)])
        \/ (exists sym, rs = [REST (ReqGetSwapOrderbook sym 100)])).
Proof.
  unfold UpdateOrderbook.
  destruct (SupportsAsset E c a); simpl;
    [|exists []; rewrite app_nil_r; auto].
  destruct (FormatExchangeCurrency E c p a) as [fpair [err|]]; simpl;
    [exists []; rewrite app_nil_r; auto|].
  unfold orderbook_Process, orderbook_Get.
  destruct (decide (a = asset.Spot)); [|destruct (decide (a = asset.PerpetualSwap))];
    run_monad.
  - exists [REST (ReqGetOrderbook (Pair_String E fpair) 100)].
    split; [|eauto].
    destruct (GetOrderbook E (calls w) (Pair_String E fpair) 100)
      as [ob [err|]]; simpl; [done|].
    destruct (if CanVerifyOrderbook c then _ else _); simpl; [done|].
    now destruct (_ !! _).
  - exists [REST (ReqGetSwapOrderbook (Pair_String E fpair) 100)].
    split; [|eauto].
    destruct (GetSwapOrderbook E (calls w) (Pair_String E fpair) 100)
      as [ob [err|]]; simpl; [done|].
    destruct (if CanVerifyOrderbook c then _ else _); simpl; [done|].
    now destruct (_ !! _).
  - exists []. rewrite app_nil_r. split; [|auto].
    destruct (if CanVerifyOrderbook c then _ else _); simpl; [done|].
    now destruct (_ !! _).
Qed.

Lemma UpdateOrderbook_depths (E : Env) (c : Coinbene) (p : currency.Pair)
    (a : asset.Item) (w : World) :
  Forall (fun depth => depth = 100%Z)
    (requested_depths (calls_made (UpdateOrderbook E c p a) w)).
Proof.
  unfold calls_made.
  destruct (UpdateOrderbook_calls E c p a w)
    as (rs & -> & [->|[[sym ->]|[sym ->]]]);
    rewrite drop_app_length; repeat constructor.
Qed.

(** The requests of [UpdateOrderbook] for a supported asset and a pair that
    formats: the one snapshot request of the asset's endpoint, whatever the
    exchange answers and whatever [Process] makes of the book. *)
Lemma UpdateOrderbook_requests (E : Env) (c : Coinbene) (p : currency.Pair)
    (a : asset.Item) (w : World) (fpair : currency.Pair) :
  SupportsAsset E c a = true ->
  FormatExchangeCurrency E c p a = (fpair, None) ->
  calls_made (UpdateOrderbook E c p a) w
  = if decide (a = asset.Spot)
    then [REST (ReqGetOrderbook (Pair_String E fpair) 100)]
    else if decide (a = asset.PerpetualSwap)
         then [REST (ReqGetSwapOrderbook (Pair_String E fpair) 100)]
         else [].
Proof.
  intros Hsup Hfmt. unfold calls_made, UpdateOrderbook.
  rewrite Hsup, Hfmt. simpl.
  unfold orderbook_Process, orderbook_Get.
  destruct (decide (a = asset.Spot));
    [|destruct (decide (a = asset.PerpetualSwap))]; run_monad.
  - destruct (GetOrderbook E (calls w) (Pair_String E fpair) 100)
      as [ob [err|]]; simpl; [now rewrite drop_app_length|].
    destruct (if CanVerifyOrderbook c then _ else _); simpl;
      [now rewrite drop_app_length|].
    destruct (_ !! _); simpl; now rewrite drop_app_length.
  - destruct (GetSwapOrderbook E (calls w) (Pair_String E fpair) 100)
      as [ob [err|]]; simpl; [now rewrite drop_app_length|].
    destruct (if CanVerifyOrderbook c then _ else _); simpl;
      [now rewrite drop_app_length|].
    destruct (_ !! _); simpl; now rewrite drop_app_length.
  - destruct (if CanVerifyOrderbook c then _ else _); simpl;
      [now rewrite drop_all|].
    destruct (_ !! _); simpl; now rewrite drop_all.
Qed.

(** C5, amended.  [UpdateOrderbook] takes no depth and reads none from the
    exchange object: every snapshot it asks for has depth 100, and for the
    spot and the swap asset it asks for exactly one once the asset is
    supported and the pair formatted.  That one request is all the call
    asks of the exchange, and it goes to the endpoint of the asset:
    [GetOrderbook] for the spot asset and [GetSwapOrderbook] for the swap
    asset, for the formatted pair at depth 100.  For an asset that is
    neither, for an unsupported asset and for a pair that does not format
    the call makes no request. *)
Theorem snapshot_depth_is_100 (E : Env) (c : Coinbene) (p : currency.Pair)
    (a : asset.Item) (w : World) :
  Forall (fun depth => depth = 100%Z)
    (requested_depths (calls_made (UpdateOrderbook E c p a) w))
  /\ (SupportsAsset E c a = true ->
      a = asset.Spot \/ a = asset.PerpetualSwap ->
      snd (FormatExchangeCurrency E c p a) = None ->
      requested_depths (calls_made (UpdateOrderbook E c p a) w) = [100%Z])
  /\ (forall fpair,
         SupportsAsset E c a = true ->
         FormatExchangeCurrency E c p a = (fpair, None) ->
         (a = asset.Spot ->
          calls_made (UpdateOrderbook E c p a) w
          = [REST (ReqGetOrderbook (Pair_String E fpair) 100)])
         /\ (a = asset.PerpetualSwap ->
             calls_made (UpdateOrderbook E c p a) w
             = [REST (ReqGetSwapOrderbook (Pair_String E fpair) 100)])
         /\ (a <> asset.Spot ->
             a <> asset.PerpetualSwap ->
             calls_made (UpdateOrderbook E c p a) w = []))
  /\ (SupportsAsset E c a = false
      \/ snd (FormatExchangeCurrency E c p a) <> None ->
      calls_made (UpdateOrderbook E c p a) w = []).
Proof.
  split; [apply UpdateOrderbook_depths|]. split; [|split].
  - intros Hsup Ha Hfmt.
    destruct (FormatExchangeCurrency E c p a) as [fpair err] eqn:Hpair.
    simpl in Hfmt. subst err.
    rewrite (UpdateOrderbook_requests E c p a w fpair Hsup Hpair).
    destruct Ha as [-> | ->]; reflexivity.
  - intros fpair Hsup Hfmt.
    rewrite (UpdateOrderbook_requests E c p a w fpair Hsup Hfmt).
    split; [|split].
    + intros ->. reflexivity.
    + intros ->. reflexivity.
    + intros Hspot Hswap. now rewrite !decide_False by done.
  - intros Hnone. unfold calls_made, UpdateOrderbook.
    destruct (SupportsAsset E c a); simpl; [|now rewrite drop_all].
    destruct Hnone as [Hsup|Hfmt]; [discriminate|].
    destruct (FormatExchangeCurrency E c p a) as [fpair [err|]]; simpl;
      [now rewrite drop_all|now destruct Hfmt].
Qed.

Lemma snapshot_depth_is_100_witness :
  calls_made
    (UpdateOrderbook Example.up Example.coinbene Example.btc_usdt asset.Spot)
    Example.start
  = [REST (ReqGetOrderbook "BTC/USDT" 100)]
  /\ calls_made
       (UpdateOrderbook Example.up Example.coinbene Example.btc_usdt
          asset.PerpetualSwap)
       Example.start
     = [REST (ReqGetSwapOrderbook "BTC/USDT" 100)]
  /\ requested_depths
       (calls_made
          (UpdateOrderbook Example.up Example.coinbene Example.btc_usdt
             asset.PerpetualSwap)
          Example.start)
     = [100%Z].
Proof.
  destruct (snapshot_depth_is_100 Example.up Example.coinbene
              Example.btc_usdt asset.Spot Example.start)
    as (_ & _ & Hspot & _).
  destruct (snapshot_depth_is_100 Example.up Example.coinbene
              Example.btc_usdt asset.PerpetualSwap Example.start)
    as (_ & Hdepth & Hswap & _).
  split; [|split].
  - apply (Hspot Example.btc_usdt); [vm_compute; reflexivity|reflexivity|].
    reflexivity.
  - apply (Hswap Example.btc_usdt); [vm_compute; reflexivity|reflexivity|].
    reflexivity.
  - apply Hdepth; [vm_compute; reflexivity|now right|reflexivity].
Defined.

(** C5 as stated fails: nothing makes [UpdateOrderbook] ask for a snapshot
    of depth 50. *)
Lemma depth_50_cannot_be_chosen : ~ depth_is_chosen 50.
Proof.
  intros (E & c & p & a & w & Hin).
  pose proof (UpdateOrderbook_depths E c p a w) as Hall.
  rewrite Forall_forall in Hall. now apply Hall in Hin.
Qed.

(** ** Verification and what gets published *)

Lemma Verify_uncrossed (bids asks : list orderbook.Item) :
  orderbook.Verify bids asks = None ->
  forall bid ask,
    orderbook.best_bid bids = Some bid ->
    orderbook.best_ask asks = Some ask ->
    PrimFloat.ltb bid ask = true.
Proof.
  unfold orderbook.Verify, orderbook.uncrossed.
  intros Hv bid ask Hb Ha. rewrite Hb, Ha in Hv.
  destruct (negb _); [discriminate|].
  now destruct (PrimFloat.ltb bid ask).
Qed.

(** Every way [UpdateOrderbook] ends: with an error and the stores as they
    were, or without one and the book it built published under its key,
    past verification when the exchange object asks for it. *)
Lemma UpdateOrderbook_outcome (E : Env) (c : Coinbene) (p : currency.Pair)
    (a : asset.Item) (w : World) :
  (exists b e,
      fst (UpdateOrderbook E c p a w) = (Some b, Some e)
      /\ books (snd (UpdateOrderbook E c p a w)) = books w
      /\ orderbook.VerifyOrderbook b = CanVerifyOrderbook c)
  \/ (exists b,
         fst (UpdateOrderbook E c p a w) = (Some b, None)
         /\ books (snd (UpdateOrderbook E c p a w))
            = <[(Name c, p, a) := b]> (books w)
         /\ orderbook.VerifyOrderbook b = CanVerifyOrderbook c
         /\ (CanVerifyOrderbook c = true ->
             orderbook.Verify (orderbook.Bids b) (orderbook.Asks b) = None)).
Proof.
  unfold UpdateOrderbook.
  destruct (SupportsAsset E c a); simpl; [|left; eauto].
  destruct (FormatExchangeCurrency E c p a) as [fpair [err|]]; simpl;
    [left; eauto|].
  unfold orderbook_Process, orderbook_Get.
  destruct (decide (a = asset.Spot));
    [|destruct (decide (a = asset.PerpetualSwap))]; run_monad;
    [destruct (GetOrderbook E (calls w) (Pair_String E fpair) 100)
       as [tempResp [err|]]
    |destruct (GetSwapOrderbook E (calls w) (Pair_String E fpair) 100)
       as [tempResp [err|]]
    |]; simpl; try (left; eauto; fail);
    (destruct (CanVerifyOrderbook c) eqn:Hverify; simpl;
     try match goal with
         | |- context [orderbook.Verify ?bids ?asks] =>
             destruct (orderbook.Verify bids asks) as [err|] eqn:Hv; simpl;
             [left; eauto; fail|]
         end;
     rewrite lookup_insert_eq; simpl; right; eexists;
     repeat split; eauto; discriminate).
Qed.

(** Replaying updates publishes the book it started from or one that passed
    verification. *)
Lemma meet_verified (limit : nat) (l : list Synchronizer.PendingUpdate) :
  forall b acc b' acc',
    fold_left (Synchronizer.meet limit) l (Synchronizer.Synced b acc)
    = Synchronizer.Synced b' acc' ->
    b' = b \/ Synchronizer.violates b' = false.
Proof.
  induction l as [|u l IH]; intros b acc b' acc' Hfold; simpl in Hfold.
  - injection Hfold as <- _. now left.
  - unfold Synchronizer.accept in Hfold.
    destruct (bool_decide _); [now apply IH in Hfold|].
    destruct (bool_decide _).
    + destruct (Synchronizer.violates (Synchronizer.apply b u)) eqn:Hv.
      * now rewrite meet_Resyncing in Hfold.
      * apply IH in Hfold as [->|Hfold]; auto.
    + destruct (bool_decide _).
      * now rewrite meet_Resyncing in Hfold.
      * now apply IH in Hfold.
Qed.

(** A step of the synchronizer publishes the book that was there or one
    that passed verification. *)
Lemma step_verified (limit : nat) (st : Synchronizer.State)
    (ev : Synchronizer.Event) (b : Synchronizer.OrderBook) :
  Synchronizer.GetBook (Synchronizer.step limit st ev) = Some b ->
  Synchronizer.GetBook st = Some b \/ Synchronizer.violates b = false.
Proof.
  destruct st as [|buf|b0 buf|], ev as [|s|u| | |]; simpl; auto;
    try discriminate.
  - destruct (Synchronizer.violates s) eqn:Hv; [discriminate|].
    unfold Synchronizer.replay.
    destruct (fold_left _ _ _) as [|buf0|b' buf'|] eqn:Hfold;
      try discriminate.
    intros [= ->]. apply meet_verified in Hfold as [->|?]; auto.
  - destruct (bool_decide _).
    + destruct (Synchronizer.violates (Synchronizer.apply b0 u)) eqn:Hv;
        [discriminate|].
      unfold Synchronizer.replay.
      destruct (fold_left _ _ _) as [|buf0|b' buf'|] eqn:Hfold;
        try discriminate.
      intros [= ->]. apply meet_verified in Hfold as [->|?]; auto.
    + unfold Synchronizer.accept.
      destruct (bool_decide _); [auto|].
      destruct (bool_decide _).
      * destruct (Synchronizer.violates (Synchronizer.apply b0 u)) eqn:Hv;
          [discriminate|].
        intros [= <-]. auto.
      * destruct (bool_decide _); [discriminate|auto].
Qed.

(** C1, amended.  With crossed-book verification enabled, what gets
    published has its best bid below its best ask.  In the wrapper: a book
    that [UpdateOrderbook] returns without an error is uncrossed, and so is
    every book the call leaves in the store that was not there before; the
    book is built with [VerifyOrderbook] set from [CanVerifyOrderbook] and
    reaches the store through [Process] alone.  A book returned beside an
    error is not published: the store is as the call found it.  In the
    synchronizer: the book a step publishes is the one that was published
    before it or an uncrossed one. *)
Theorem published_books_are_uncrossed (E : Env) (c : Coinbene)
    (p : currency.Pair) (a : asset.Item) (w : World) :
  CanVerifyOrderbook c = true ->
  (forall b,
      fst (UpdateOrderbook E c p a w) = (Some b, None) ->
      orderbook.VerifyOrderbook b = true /\ uncrossed_book b)
  /\ (forall k b,
         books (snd (UpdateOrderbook E c p a w)) !! k = Some b ->
         books w !! k = Some b
         \/ (orderbook.VerifyOrderbook b = true /\ uncrossed_book b))
  /\ (forall e,
         snd (fst (UpdateOrderbook E c p a w)) = Some e ->
         books (snd (UpdateOrderbook E c p a w)) = books w)
  /\ (forall limit st ev b,
         Synchronizer.GetBook (Synchronizer.step limit st ev) = Some b ->
         Synchronizer.verification b = true ->
         Synchronizer.GetBook st = Some b \/ Synchronizer.uncrossed b).
Proof.
  intros Hverify. split; [|split; [|split]].
  - intros b Hret.
    destruct (UpdateOrderbook_outcome E c p a w)
      as [(b' & e & Hfst & _)|(b' & Hfst & _ & Hflag & Hv)];
      rewrite Hfst in Hret; [discriminate|].
    injection Hret as ->. split; [congruence|].
    intros bid ask. apply Verify_uncrossed. auto.
  - intros k b Hk.
    destruct (UpdateOrderbook_outcome E c p a w)
      as [(b' & e & _ & Hbooks & _)|(b' & _ & Hbooks & Hflag & Hv)];
      rewrite Hbooks in Hk; [now left|].
    destruct (decide ((Name c, p, a) = k)) as [<-|Hne].
    + rewrite lookup_insert_eq in Hk. injection Hk as ->.
      right. split; [congruence|].
      intros bid ask. apply Verify_uncrossed. auto.
    + rewrite lookup_insert_ne in Hk by done. now left.
  - intros e Herr.
    destruct (UpdateOrderbook_outcome E c p a w)
      as [(b' & e' & _ & Hbooks & _)|(b' & Hfst & _)]; [exact Hbooks|].
    rewrite Hfst in Herr. discriminate Herr.
  - intros limit st ev b Hstep Hon.
    apply step_verified in Hstep as [?|Hv]; [now left|right].
    unfold Synchronizer.violates in Hv. rewrite Hon in Hv. simpl in Hv.
    apply bool_decide_eq_false in Hv.
    intros bid ask. apply Verify_uncrossed.
    destruct (orderbook.Verify _ _); [now destruct Hv|done].
Qed.

Lemma published_books_are_uncrossed_witness :
  CanVerifyOrderbook Example.coinbene = true
  /\ exists b,
       fst (UpdateOrderbook Example.up Example.coinbene Example.btc_usdt
              asset.Spot Example.start) = (Some b, None)
       /\ orderbook.best_bid (orderbook.Bids b) = Some 10000%float
       /\ orderbook.best_ask (orderbook.Asks b) = Some 10001%float
       /\ uncrossed_book b.
Proof.
  split; [reflexivity|].
  eexists. split; [vm_compute; reflexivity|].
  split; [reflexivity|]. split; [reflexivity|].
  apply (published_books_are_uncrossed Example.up Example.coinbene
           Example.btc_usdt asset.Spot Example.start eq_refl).
  vm_compute. reflexivity.
Defined.

(** The other end of [UpdateOrderbook]: a crossed book from the exchange is
    refused by [Process]; the call hands the refused book back beside the
    error and the store keeps what it held. *)
Example refused_book_is_not_published :
  exists b,
    UpdateOrderbook Example.sends_crossed Example.coinbene Example.btc_usdt
      asset.Spot Example.start
    = ((Some b, Some "orderbook verification: crossed book"),
       requested Example.start (ReqGetOrderbook "BTC/USDT" 100))
    /\ orderbook.best_bid (orderbook.Bids b) = Some 10001%float
    /\ orderbook.best_ask (orderbook.Asks b) = Some 10000%float.
Proof. eexists. split; [vm_compute; reflexivity|]. split; reflexivity. Qed.

(** C1 as stated fails: with verification enabled, the book the exchange
    sent crossed is returned by [UpdateOrderbook], beside the error of
    [Process], with its best bid 10001 above its best ask 10000. *)
Lemma returned_book_can_be_crossed : ~ returned_books_are_uncrossed.
Proof.
  intros Hall.
  assert (exists b,
             fst (fst (UpdateOrderbook Example.sends_crossed Example.coinbene
                         Example.btc_usdt asset.Spot Example.start)) = Some b
             /\ orderbook.VerifyOrderbook b = true
             /\ orderbook.best_bid (orderbook.Bids b) = Some 10001%float
             /\ orderbook.best_ask (orderbook.Asks b) = Some 10000%float)
    as (b & Hret & Hflag & Hbid & Hask).
  { eexists. split; [vm_compute; reflexivity|]. repeat split. }
  pose proof (Hall Example.sends_crossed Example.coinbene Example.btc_usdt
                asset.Spot Example.start b eq_refl Hret Hflag _ _ Hbid Hask)
    as Hlt.
  vm_compute in Hlt. discriminate Hlt.
Qed.

(** ** Set-up *)

(** C7.  The configuration surface is honoured.  [SetDefaults] installs the
    response-check timeout, the limit on outstanding responses and the order
    book buffer limit of package exchange.  Every websocket set-up [Setup]
    makes asks for the buffer to be sorted before it is applied, and for an
    enabled exchange whose defaults and URL are in order [Setup] makes one,
    followed by a connection set-up with the configured timeout and limit.
    Every book [UpdateOrderbook] returns or stores carries the exchange
    object's [CanVerifyOrderbook] as its verification flag. *)
Theorem configuration_is_honoured (E : Env) (c : Coinbene) :
  (WebsocketResponseCheckTimeout (SetDefaults E c)
   = DefaultWebsocketResponseCheckTimeout E
   /\ WebsocketResponseMaxLimit (SetDefaults E c)
      = DefaultWebsocketResponseMaxLimit E
   /\ WebsocketOrderbookBufferLimit (SetDefaults E c)
      = DefaultWebsocketOrderbookBufferLimit E)
  /\ (forall exch w,
         sorts_buffer (calls_made (Setup E c exch) w)
         /\ (forall c' url,
                config.Enabled exch = true ->
                SetupDefaults E c exch = (c', None) ->
                GetURL E c' exchange.WebsocketSpot = (url, None) ->
                exists s more,
                  calls_made (Setup E c exch) w = WebsocketSetup s :: more
                  /\ stream.SortBuffer s = true
                  /\ stream.ExchangeConfig s = exch
                  /\ (snd (Websocket_Setup E (Websocket c') s) = None ->
                      more
                      = [WebsocketSetupNewConnection
                           {| stream.ResponseCheckTimeout :=
                                config.WebsocketResponseCheckTimeout exch;
                              stream.ResponseMaxLimit :=
                                config.WebsocketResponseMaxLimit exch |}])))
  /\ (forall p a w,
         (forall b,
             fst (fst (UpdateOrderbook E c p a w)) = Some b ->
             orderbook.VerifyOrderbook b = CanVerifyOrderbook c)
         /\ (forall k b,
                books (snd (UpdateOrderbook E c p a w)) !! k = Some b ->
                books w !! k = Some b
                \/ orderbook.VerifyOrderbook b = CanVerifyOrderbook c)).
Proof.
  split; [repeat split|]. split.
  - intros exch w. unfold sorts_buffer, calls_made, Setup. split.
    + destruct (config.Enabled exch); simpl;
        [|rewrite drop_all; constructor].
      destruct (SetupDefaults E c exch) as [c' [err|]]; simpl;
        [rewrite drop_all; constructor|].
      destruct (GetURL E c' exchange.WebsocketSpot) as [url [err|]]; simpl;
        [rewrite drop_all; constructor|].
      run_monad.
      destruct (Websocket_Setup E (Websocket c') _) as [ws [err|]]; simpl.
      * rewrite drop_app_length. repeat constructor.
      * rewrite <- app_assoc, drop_app_length. repeat constructor.
    + intros c' url Hon Hdef Hurl. rewrite Hon, Hdef, Hurl. run_monad.
      destruct (Websocket_Setup E (Websocket c') _) as [ws [err|]] eqn:Hws;
        simpl.
      * rewrite drop_app_length. eexists _, _.
        split; [reflexivity|]. split; [reflexivity|]. split; [reflexivity|].
        intros Hok. rewrite Hws in Hok. discriminate.
      * rewrite <- app_assoc, drop_app_length. eexists _, _.
        split; [reflexivity|]. split; [reflexivity|]. split; [reflexivity|].
        intros _. reflexivity.
  - intros p a w. split.
    + intros b Hb.
      destruct (UpdateOrderbook_outcome E c p a w)
        as [(b' & e & Hfst & _ & Hflag)|(b' & Hfst & _ & Hflag & _)];
        rewrite Hfst in Hb; simpl in Hb; congruence.
    + intros k b Hk.
      destruct (UpdateOrderbook_outcome E c p a w)
        as [(b' & e & _ & Hbooks & _)|(b' & _ & Hbooks & Hflag & _)];
        rewrite Hbooks in Hk; [now left|].
      destruct (decide ((Name c, p, a) = k)) as [<-|Hne].
      * rewrite lookup_insert_eq in Hk. right. congruence.
      * rewrite lookup_insert_ne in Hk by done. now left.
Qed.

Lemma configuration_is_honoured_witness :
  WebsocketOrderbookBufferLimit (SetDefaults Example.up Example.blank) = 5%Z
  /\ exists s n,
       calls_made (Setup Example.up Example.coinbene Example.config1)
         Example.start
       = [WebsocketSetup s; WebsocketSetupNewConnection n]
       /\ stream.SortBuffer s = true
       /\ stream.ResponseCheckTimeout n = 30000000%Z.
Proof.
  destruct (configuration_is_honoured Example.up Example.blank)
    as ((_ & _ & Hlimit) & _).
  split; [exact Hlimit|].
  destruct (configuration_is_honoured Example.up Example.coinbene)
    as (_ & Hsetup & _).
  destruct (Hsetup Example.config1 Example.start) as [_ Hmakes].
  destruct (Hmakes Example.coinbene "wss://ws.coinbene.com/stream/ws"
              eq_refl eq_refl eq_refl)
    as (s & more & Hcalls & Hsort & _ & Hmore).
  exists s, {| stream.ResponseCheckTimeout := 30000000%Z;
               stream.ResponseMaxLimit := 7000000000%Z |}.
  rewrite Hcalls, Hmore by reflexivity. repeat split. exact Hsort.
Defined.

(** ** Orders and trades *)

(** C8.  [SubmitOrder] returns an error, the zero response and the world as
    it was (no order is placed) when the submission fails validation or its
    side is neither Buy nor Sell.  When the submission is valid, its pair
    formats and the exchange accepts the order, the response has
    [IsOrderPlaced] set and carries the order ID the exchange assigned, and
    one order was placed.  A response returned without an error is always
    of that kind. *)
Theorem submit_order_is_checked (E : Env) (c : Coinbene) (s : order.Submit)
    (w : World) :
  (Submit_Validate E s <> None
   \/ (order.SubmitSide s <> order.Buy /\ order.SubmitSide s <> order.Sell) ->
   exists e,
     SubmitOrder E c s w = ((order.SubmitResponse_zero, Some e), w))
  /\ (forall fpair tempResp,
         Submit_Validate E s = None ->
         order.SubmitSide s = order.Buy \/ order.SubmitSide s = order.Sell ->
         FormatExchangeCurrency E c (order.Pair s) asset.Spot
         = (fpair, None) ->
         PlaceSpotOrder E (calls w) (order.Price s) (order.Amount s)
           (Pair_String E fpair) (order.SubmitSide s) (order.SubmitType s)
           (order.ClientID s) 0
         = (tempResp, None) ->
         SubmitOrder E c s w
         = (({| order.IsOrderPlaced := true;
                order.FullyMatched := false;
                order.OrderID := OrderID tempResp |}, None),
            requested w
              (ReqPlaceSpotOrder (order.Price s) (order.Amount s)
                 (Pair_String E fpair) (order.SubmitSide s)
                 (order.SubmitType s) (order.ClientID s) 0)))
  /\ (forall resp,
         fst (SubmitOrder E c s w) = (resp, None) ->
         order.IsOrderPlaced resp = true
         /\ exists fpair tempResp,
              PlaceSpotOrder E (calls w) (order.Price s) (order.Amount s)
                (Pair_String E fpair) (order.SubmitSide s)
                (order.SubmitType s) (order.ClientID s) 0
              = (tempResp, None)
              /\ order.OrderID resp = OrderID tempResp).
Proof.
  unfold SubmitOrder. split; [|split].
  - intros [Hinvalid|[Hbuy Hsell]].
    + destruct (Submit_Validate E s) as [err|]; [|done]. eauto.
    + destruct (Submit_Validate E s) as [err|]; [eauto|].
      rewrite !bool_decide_eq_true_2 by done. simpl. eauto.
  - intros fpair tempResp Hvalid Hside Hfmt Hplace.
    rewrite Hvalid, Hfmt.
    replace (bool_decide (order.SubmitSide s <> order.Buy)
             && bool_decide (order.SubmitSide s <> order.Sell)) with false.
    + run_monad. now rewrite Hplace.
    + destruct Hside as [Hside|Hside]; rewrite Hside.
      * now rewrite bool_decide_eq_false_2 by (intros H; now apply H).
      * rewrite (bool_decide_eq_false_2 (order.Sell <> order.Sell))
          by (intros H; now apply H).
        now rewrite andb_false_r.
  - intros resp.
    destruct (Submit_Validate E s) as [err|]; [discriminate|].
    destruct (_ && _); [discriminate|].
    destruct (FormatExchangeCurrency E c (order.Pair s) asset.Spot)
      as [fpair [err|]]; [discriminate|].
    run_monad.
    destruct (PlaceSpotOrder _ _ _ _ _ _ _ _ _) as [tempResp [err|]] eqn:Hp;
      simpl; [discriminate|].
    intros [= <-]. split; [reflexivity|]. eauto.
Qed.

Lemma submit_order_is_checked_witness :
  SubmitOrder Example.up Example.coinbene Example.buy1 Example.start
  = (({| order.IsOrderPlaced := true;
         order.FullyMatched := false;
         order.OrderID := "1912131027355Bob" |}, None),
     requested Example.start
       (ReqPlaceSpotOrder 10000%float 1%float "BTC/USDT" "BUY" "LIMIT"
          "client-7" 0)).
Proof.
  destruct (submit_order_is_checked Example.up Example.coinbene Example.buy1
              Example.start) as (_ & Hplaced & _).
  apply (Hplaced Example.btc_usdt {| OrderID := "1912131027355Bob" |});
    [reflexivity|now left|reflexivity|reflexivity].
Defined.

(** C6.  The trades [GetRecentTrades] returns are in ascending order of
    their time stamps. *)
Theorem recent_trades_are_sorted (E : Env) (c : Coinbene) (p : currency.Pair)
    (a : asset.Item) (w : World) :
  ascending trade.Timestamp (fst (fst (GetRecentTrades E c p a w))).
Proof.
  unfold GetRecentTrades.
  destruct (FormatExchangeCurrency E c p a) as [fpair [err|]]; simpl;
    [constructor|].
  run_monad.
  destruct (GetTrades E (calls w) (Pair_String E fpair) 100)
    as [tradeData [err|]]; simpl; [constructor|].
  destruct (AddTradesToBuffer E c _) as [resp [err|]]; simpl; [constructor|].
  apply (Sort_ascending trade.Timestamp).
Qed.

(** Sorting loses no trade: without an error, the trades returned are the
    ones [AddTradesToBuffer] left in the slice. *)
Lemma recent_trades_are_kept (E : Env) (c : Coinbene) (p : currency.Pair)
    (a : asset.Item) (w : World) (trades : list trade.Data) :
  fst (GetRecentTrades E c p a w) = (trades, None) ->
  exists given kept,
    AddTradesToBuffer E c given = (kept, None) /\ trades ≡ₚ kept.
Proof.
  unfold GetRecentTrades.
  destruct (FormatExchangeCurrency E c p a) as [fpair [err|]]; simpl;
    [discriminate|].
  run_monad.
  destruct (GetTrades E (calls w) (Pair_String E fpair) 100)
    as [tradeData [err|]]; simpl; [discriminate|].
  destruct (AddTradesToBuffer E c _) as [resp [err|]] eqn:Hadd; simpl;
    [discriminate|].
  intros [= <-]. eexists _, _. split; [exact Hadd|].
  apply (Sort_permutation trade.Timestamp).
Qed.

Example recent_trades_in_order :
  map trade.Timestamp
    (fst (fst (GetRecentTrades Example.up Example.coinbene Example.btc_usdt
                 asset.Spot Example.start)))
  = [10%Z; 20%Z; 30%Z].
Proof. reflexivity. Qed.

(** ** Candles *)

(** The loop body fails on the malformed rows and on no others. *)
Lemma candle_of_row_error (E : Env) (row : list JSON) :
  snd (candle_of_row E row) = None <-> malformed E row = false.
Proof.
  unfold candle_of_row, malformed, float_field, is_string, fails_parsing.
  destruct (length row <? 6)%nat; [bad_row|].
  simpl.
  destruct (as_string (field row 0)) as [s0|]; [|bad_row].
  destruct (time_Parse_RFC3339 E s0) as [t [e|]]; [bad_row|].
  destruct (as_string (field row 1)) as [s1|]; [|bad_row].
  destruct (strconv_ParseFloat E s1) as [f1 [e|]]; [bad_row|].
  destruct (as_string (field row 2)) as [s2|]; [|bad_row].
  destruct (strconv_ParseFloat E s2) as [f2 [e|]]; [bad_row|].
  destruct (as_string (field row 3)) as [s3|]; [|bad_row].
  destruct (strconv_ParseFloat E s3) as [f3 [e|]]; [bad_row|].
  destruct (as_string (field row 4)) as [s4|]; [|bad_row].
  destruct (strconv_ParseFloat E s4) as [f4 [e|]]; [bad_row|].
  destruct (as_string (field row 5)) as [s5|]; [|bad_row].
  destruct (strconv_ParseFloat E s5) as [f5 [e|]]; [bad_row|].
  simpl. split; reflexivity.
Qed.

(** The loop stops with an error at the first malformed row; without one it
    appends a candle for every row. *)
Lemma candles_of_rows_spec (E : Env) (rows : list (list JSON)) :
  forall acc,
    if existsb (malformed E) rows
    then snd (candles_of_rows E rows acc) <> None
    else exists cs,
        candles_of_rows E rows acc = (acc ++ cs, None)
        /\ length cs = length rows.
Proof.
  induction rows as [|row rows IH]; intros acc; simpl.
  - exists []. now rewrite app_nil_r.
  - pose proof (candle_of_row_error E row) as Hrow.
    destruct (candle_of_row E row) as [tempCandle [err|]]; simpl in Hrow.
    + destruct (malformed E row); simpl; [done|].
      destruct Hrow as [_ Hrow]. now specialize (Hrow eq_refl).
    + destruct Hrow as [Hrow _]. rewrite Hrow by done. simpl.
      specialize (IH (acc ++ [tempCandle])).
      destruct (existsb (malformed E) rows); [done|].
      destruct IH as (cs & -> & Hlen).
      exists (tempCandle :: cs). rewrite <- app_assoc. simpl. auto.
Qed.

(** C9.  Once the request is valid, the pair formatted and the exchange has
    answered: if a row of the answer is malformed (fewer than 6 fields, one
    of the first six not a string, or one that fails time or float
    parsing), [GetHistoricCandles] returns the empty item and an error;
    otherwise it returns, without an error, one candle per row in ascending
    order of time. *)
Theorem historic_candles_are_checked (E : Env) (c : Coinbene)
    (pair : currency.Pair) (a : asset.Item) (start end_ : time.Time)
    (interval : kline.Interval) (w : World) (candles : CandleResponse) :
  ValidateKline E c pair a interval = None ->
  snd (FormatExchangeCurrency E c pair asset.PerpetualSwap) = None ->
  klines_answer E c pair a start end_ interval (calls w) = (candles, None) ->
  (existsb (malformed E) (Data candles) = true ->
   exists e,
     fst (GetHistoricCandles E c pair a start end_ interval w)
     = (kline.Item_zero, Some e))
  /\ (existsb (malformed E) (Data candles) = false ->
      exists item,
        fst (GetHistoricCandles E c pair a start end_ interval w)
        = (item, None)
        /\ ascending kline.Time (kline.Candles item)
        /\ length (kline.Candles item) = length (Data candles)).
Proof.
  intros Hvalid Hfmt Hanswer. unfold GetHistoricCandles, klines_answer in *.
  rewrite Hvalid.
  destruct (FormatExchangeCurrency E c pair asset.PerpetualSwap)
    as [formattedPair err]. simpl in Hfmt, Hanswer. subst err.
  pose proof (candles_of_rows_spec E (Data candles) []) as Hrows.
  destruct (decide (a = asset.PerpetualSwap)); run_monad;
    rewrite Hanswer; simpl;
    (split; intros Hbad; rewrite Hbad in Hrows;
     [destruct (candles_of_rows E (Data candles) []) as [cs [err|]];
      simpl in *; [eauto|done]
     |destruct Hrows as (cs & -> & Hlen); simpl;
      eexists; split; [reflexivity|]; simpl; split;
      [apply (Sort_ascending kline.Time)
      |rewrite <- Hlen;
       apply Permutation_length, (Sort_permutation kline.Time)]]).
Qed.

Lemma historic_candles_are_checked_witness :
  (exists e,
      fst (GetHistoricCandles Example.sends_bad_rows Example.coinbene
             Example.btc_usdt asset.Spot 0%Z 10%Z kline.OneHour Example.start)
      = (kline.Item_zero, Some e))
  /\ (exists item,
         fst (GetHistoricCandles Example.up Example.coinbene Example.btc_usdt
                asset.Spot 0%Z 10%Z kline.OneHour Example.start)
         = (item, None)
         /\ ascending kline.Time (kline.Candles item)
         /\ length (kline.Candles item) = 2%nat).
Proof.
  split.
  - apply (historic_candles_are_checked Example.sends_bad_rows
             Example.coinbene Example.btc_usdt asset.Spot 0%Z 10%Z
             kline.OneHour Example.start Example.klines_bad);
      reflexivity.
  - apply (historic_candles_are_checked Example.up Example.coinbene
             Example.btc_usdt asset.Spot 0%Z 10%Z kline.OneHour Example.start
             Example.klines1);
      reflexivity.
Defined.

(** ** Cancelling all orders *)

Lemma CancelAllOrders_loop_spec (E : Env) (orders : list OrderInfo) :
  forall (m : gmap string string) (w : World),
    calls (snd (CancelAllOrders_loop E orders m w))
    = calls w ++ cancel_calls orders
    /\ books (snd (CancelAllOrders_loop E orders m w)) = books w
    /\ tickers (snd (CancelAllOrders_loop E orders m w)) = tickers w
    /\ (forall id,
           id ∈ OrderInfo_OrderID <$> orders
           \/ (exists st, m !! id = Some st
                          /\ (st = "Success" \/ st = "Failed")) ->
           exists st,
             fst (CancelAllOrders_loop E orders m w) !! id = Some st
             /\ (st = "Success" \/ st = "Failed"))
    /\ (forall id,
           id ∉ OrderInfo_OrderID <$> orders ->
           fst (CancelAllOrders_loop E orders m w) !! id = m !! id)
    /\ (forall i o,
           orders !! i = Some o -> last_with_its_id orders i ->
           fst (CancelAllOrders_loop E orders m w) !! OrderInfo_OrderID o
           = Some (cancel_status
                     (CancelSpotOrder E
                        (calls w ++ cancel_calls (take i orders))
                        (OrderInfo_OrderID o)))).
Proof.
  induction orders as [|o orders IH]; intros m w.
  - simpl. rewrite app_nil_r. repeat split; try done.
    intros id [Hin|Hm]; [now apply elem_of_nil in Hin|done].
  - simpl. run_monad.
    set (r := CancelSpotOrder E (calls w) (OrderInfo_OrderID o)).
    set (w1 := {| calls := calls w
                           ++ [REST (ReqCancelSpotOrder (OrderInfo_OrderID o))];
                  books := books w; tickers := tickers w |}).
    set (m1 := <[OrderInfo_OrderID o :=
                   match snd r with
                   | Some _ => "Failed"
                   | None => "Success"
                   end]> m).
    destruct (IH m1 w1) as (Hcalls & Hbooks & Htickers & Hall & Hout & Hlast).
    split; [|split; [|split; [|split; [|split]]]].
    + rewrite Hcalls. simpl. now rewrite <- app_assoc.
    + now rewrite Hbooks.
    + now rewrite Htickers.
    + intros id Hid. apply Hall.
      destruct (decide (id = OrderInfo_OrderID o)) as [->|Hne].
      * right. unfold m1. rewrite lookup_insert_eq. eexists. split; [done|].
        destruct (snd r); auto.
      * destruct Hid as [Hin|Hm].
        -- left. apply elem_of_cons in Hin as [?|?]; done.
        -- right. unfold m1. now rewrite lookup_insert_ne.
    + intros id Hid. apply not_elem_of_cons in Hid as [Hne Hid].
      rewrite Hout by done. unfold m1. now rewrite lookup_insert_ne.
    + intros i o' Hi Hlasti. destruct i as [|i]; simpl in Hi.
      * injection Hi as <-. simpl. rewrite app_nil_r.
        rewrite Hout.
        -- unfold m1. now rewrite lookup_insert_eq.
        -- intros Hin. apply list_elem_of_fmap_1 in Hin as (o' & Hid & Hin).
           apply list_elem_of_lookup in Hin as [j Hj].
           apply (Hlasti (S j) o o'); [done|lia|done|done].
      * rewrite (Hlast i o'); [|done|].
        -- simpl. unfold cancel_calls. now rewrite <- app_assoc.
        -- intros j o1 o2 Ho1 Hij Ho2.
           apply (Hlasti (S j) o1 o2); [done|lia|done].
Qed.

(** C10, amended.  Once the cancellation is valid, the pair formatted and
    the open orders fetched, [CancelAllOrders] issues one cancel request per
    open order, in the order of the list, and returns a nil error whatever
    the requests answer.  Every open order's ID is in the returned [Status]
    map, mapped to "Success" or "Failed"; no other ID is.  The value is the
    outcome of the last cancel request issued for that ID: for an order
    that is the last one listed with its ID, "Success" if its cancel
    request succeeded and "Failed" otherwise. *)
Theorem cancel_all_reports_last_outcome (E : Env) (c : Coinbene)
    (oc : order.Cancel) (w : World) (fpair : currency.Pair)
    (orders : list OrderInfo) :
  Cancel_Validate E oc = None ->
  FormatExchangeCurrency E c (order.CancelPair oc) (order.CancelAssetType oc)
  = (fpair, None) ->
  FetchOpenSpotOrders E (calls w) (Pair_String E fpair) = (orders, None) ->
  let fetched :=
    calls w ++ [REST (ReqFetchOpenSpotOrders (Pair_String E fpair))] in
  let status := order.Status (fst (fst (CancelAllOrders E c oc w))) in
  snd (fst (CancelAllOrders E c oc w)) = None
  /\ calls (snd (CancelAllOrders E c oc w)) = fetched ++ cancel_calls orders
  /\ (forall o,
         o ∈ orders ->
         status !! OrderInfo_OrderID o = Some "Success"
         \/ status !! OrderInfo_OrderID o = Some "Failed")
  /\ (forall id,
         id ∉ OrderInfo_OrderID <$> orders -> status !! id = None)
  /\ (forall i o,
         orders !! i = Some o -> last_with_its_id orders i ->
         status !! OrderInfo_OrderID o
         = Some (cancel_status
                   (CancelSpotOrder E (fetched ++ cancel_calls (take i orders))
                      (OrderInfo_OrderID o)))).
Proof.
  intros Hvalid Hfmt Hfetch. unfold CancelAllOrders.
  rewrite Hvalid, Hfmt. run_monad. rewrite Hfetch. simpl.
  set (w1 := {| calls := calls w
                         ++ [REST (ReqFetchOpenSpotOrders
                                     (Pair_String E fpair))];
                books := books w; tickers := tickers w |}).
  destruct (CancelAllOrders_loop_spec E orders ∅ w1)
    as (Hcalls & _ & _ & Hall & Hout & Hlast).
  destruct (CancelAllOrders_loop E orders ∅ w1) as [tempMap w2] eqn:Hloop.
  simpl in *. split; [done|]. split; [done|]. split; [|split].
  - intros o Ho.
    destruct (Hall (OrderInfo_OrderID o)) as (st & -> & [->| ->]); auto.
    left. now apply list_elem_of_fmap_2.
  - intros id Hid. now rewrite Hout.
  - exact Hlast.
Qed.

Lemma cancel_all_reports_last_outcome_witness :
  snd (fst (CancelAllOrders Example.up Example.coinbene Example.cancel1
              Example.start)) = None
  /\ order.Status
       (fst (fst (CancelAllOrders Example.up Example.coinbene Example.cancel1
                    Example.start)))
     !! "B"
     = Some "Success"
  /\ order.Status
       (fst (fst (CancelAllOrders Example.up Example.coinbene Example.cancel1
                    Example.start)))
     !! "A"
     = Some "Failed".
Proof.
  destruct (cancel_all_reports_last_outcome Example.up Example.coinbene
              Example.cancel1 Example.start Example.btc_usdt
              Example.open_orders eq_refl eq_refl eq_refl)
    as (Hnil & _ & _ & _ & Hlast).
  assert (last_with_its_id Example.open_orders 1) as HB.
  { intros [|[|[|j]]] o o' Ho Hj Ho'; try lia;
      injection Ho as <-; [injection Ho' as <-; discriminate|discriminate]. }
  assert (last_with_its_id Example.open_orders 2) as HA.
  { intros [|[|[|j]]] o o' Ho Hj Ho'; try lia; discriminate. }
  split; [exact Hnil|]. split.
  - exact (Hlast 1%nat {| OrderInfo_OrderID := "B" |} eq_refl HB).
  - exact (Hlast 2%nat {| OrderInfo_OrderID := "A" |} eq_refl HA).
Defined.

(** C10 as stated fails where the exchange lists an order twice: the first
    request for "A" cancels it, the second one fails, and "A" is reported
    as "Failed". *)
Lemma cancelled_order_is_reported_failed :
  ~ reports_each_outcome Example.up
      (calls Example.start ++ [REST (ReqFetchOpenSpotOrders "BTC/USDT")])
      Example.open_orders
      (order.Status
         (fst (fst (CancelAllOrders Example.up Example.coinbene
                      Example.cancel1 Example.start)))).
Proof.
  intros Hclaim.
  specialize (Hclaim 0%nat {| OrderInfo_OrderID := "A" |} eq_refl).
  vm_compute in Hclaim. discriminate.
Qed.

(** * Facts about the rest of the wrapper *)

(** ** Tickers *)

(** [ProcessTicker] refuses the price and leaves the world alone, or stores
    it under its key. *)
Lemma ticker_ProcessTicker_cases (E : Env) (pr : ticker.Price) (w : World) :
  (exists e, ticker_ProcessTicker E pr w = (Some e, w))
  \/ ticker_ProcessTicker E pr w
     = (None,
        {| calls := calls w; books := books w;
           tickers :=
             <[(ticker.ExchangeName pr, ticker.Pair pr, ticker.AssetType pr)
               := pr]> (tickers w) |}).
Proof.
  unfold ticker_ProcessTicker.
  destruct (Price_Validate E pr) as [e|]; [left|right]; eauto.
Qed.

(** The loops of [UpdateTickers] run through a list in two parts as through
    the first part and then, unless that failed, through the second. *)
Lemma UpdateTickers_spot_app (E : Env) (c : Coinbene) (a : asset.Item)
    (allPairs : list currency.Pair) (l1 l2 : list TickerData) :
  forall w,
    UpdateTickers_spot E c a allPairs (l1 ++ l2) w
    = match UpdateTickers_spot E c a allPairs l1 w with
      | (Some e, w1) => (Some e, w1)
      | (None, w1) => UpdateTickers_spot E c a allPairs l2 w1
      end.
Proof.
  induction l1 as [|t l1 IH]; intros w; simpl; [reflexivity|].
  destruct (NewPairFromString E (Symbol t)) as [newP [err|]]; [reflexivity|].
  destruct (negb _); [apply IH|].
  unfold bind.
  destruct (ticker_ProcessTicker E _ w) as [[err|] w1]; [reflexivity|].
  apply IH.
Qed.

Lemma UpdateTickers_swap_app (E : Env) (c : Coinbene) (a : asset.Item)
    (ticks : gmap string SwapTicker) (l1 l2 : list currency.Pair) :
  forall w,
    UpdateTickers_swap E c a ticks (l1 ++ l2) w
    = match UpdateTickers_swap E c a ticks l1 w with
      | (Some e, w1) => (Some e, w1)
      | (None, w1) => UpdateTickers_swap E c a ticks l2 w1
      end.
Proof.
  induction l1 as [|p l1 IH]; intros w; simpl; [reflexivity|].
  destruct (FormatExchangeCurrency E c p a) as [fpair [err|]]; [reflexivity|].
  destruct (ticks !! _) as [tick|]; [|apply IH].
  unfold bind.
  destruct (ticker_ProcessTicker E _ w) as [[err|] w1]; [reflexivity|].
  apply IH.
Qed.

(** What the spot loop leaves: the calls and the books as they were, every
    ticker under a key of another exchange or asset as it was, and no new
    ticker but those of the answer whose pair is enabled. *)
Lemma UpdateTickers_spot_inv (E : Env) (c : Coinbene) (a : asset.Item)
    (allPairs : list currency.Pair) (ts : list TickerData) :
  forall w,
    let w' := snd (UpdateTickers_spot E c a allPairs ts w) in
    calls w' = calls w
    /\ books w' = books w
    /\ (forall exch p a',
           exch <> Name c \/ a' <> a ->
           tickers w' !! (exch, p, a') = tickers w !! (exch, p, a'))
    /\ (forall k pr,
           tickers w' !! k = Some pr ->
           tickers w !! k = Some pr
           \/ exists t, t ∈ ts /\ spot_ticker_of E c a allPairs t k pr).
Proof.
  induction ts as [|t ts IH]; intros w; simpl; [auto|].
  destruct (NewPairFromString E (Symbol t)) as [newP [err|]] eqn:Hparse;
    simpl; [auto|].
  destruct (Pairs_Contains E allPairs newP true) eqn:Hin; simpl.
  - unfold bind.
    match goal with
    | |- context [ticker_ProcessTicker E ?pr w] =>
        destruct (ticker_ProcessTicker_cases E pr w) as [[e ->]| ->]
    end; simpl; [auto|].
    match goal with
    | |- context [UpdateTickers_spot E c a allPairs ts ?w1] =>
        destruct (IH w1) as (Hcalls & Hbooks & Hframe & Hnew)
    end.
    simpl in *. split; [done|]. split; [done|]. split.
    + intros exch p a' Hother. rewrite Hframe by done.
      apply lookup_insert_ne. intros [= <- <- <-]. now destruct Hother.
    + intros k pr Hk. apply Hnew in Hk as [Hk|(t' & Ht' & Hof)].
      * destruct (decide ((Name c, newP, a) = k)) as [<-|Hne].
        -- rewrite lookup_insert_eq in Hk. injection Hk as <-.
           right. exists t. split; [left|].
           unfold spot_ticker_of. simpl. repeat split; done.
        -- rewrite lookup_insert_ne in Hk by done. now left.
      * right. exists t'. split; [now right|done].
  - destruct (IH w) as (Hcalls & Hbooks & Hframe & Hnew).
    split; [done|]. split; [done|]. split; [done|].
    intros k pr Hk. apply Hnew in Hk as [Hk|(t' & Ht' & Hof)]; [now left|].
    right. exists t'. split; [now right|done].
Qed.

(** The swap loop that ends without an error has stored, for every pair of
    its list that the answer has a ticker for, that ticker under the pair's
    key; the other keys of the exchange and asset hold what they held. *)
Lemma UpdateTickers_swap_inv (E : Env) (c : Coinbene) (a : asset.Item)
    (ticks : gmap string SwapTicker) (allPairs : list currency.Pair) :
  forall w,
    let w' := snd (UpdateTickers_swap E c a ticks allPairs w) in
    calls w' = calls w
    /\ books w' = books w
    /\ (forall exch p a',
           exch <> Name c \/ a' <> a ->
           tickers w' !! (exch, p, a') = tickers w !! (exch, p, a'))
    /\ (forall p, p ∉ allPairs ->
                  tickers w' !! (Name c, p, a) = tickers w !! (Name c, p, a))
    /\ (fst (UpdateTickers_swap E c a ticks allPairs w) = None ->
        forall p,
          p ∈ allPairs ->
          exists fpair,
            FormatExchangeCurrency E c p a = (fpair, None)
            /\ match ticks !! Pair_String E fpair with
               | Some tick =>
                   exists pr,
                     tickers w' !! (Name c, p, a) = Some pr
                     /\ swap_ticker_of c a p tick pr
               | None =>
                   tickers w' !! (Name c, p, a) = tickers w !! (Name c, p, a)
               end).
Proof.
  induction allPairs as [|p0 allPairs IH]; intros w; simpl.
  - repeat split; try done. intros _ p Hp. now apply elem_of_nil in Hp.
  - destruct (FormatExchangeCurrency E c p0 a) as [fpair0 [err|]] eqn:Hfmt;
      simpl; [repeat split; done|].
    destruct (ticks !! Pair_String E fpair0) as [tick0|] eqn:Htick.
    + unfold bind.
      match goal with
      | |- context [ticker_ProcessTicker E ?pr w] =>
          destruct (ticker_ProcessTicker_cases E pr w) as [[e ->]| ->]
      end; simpl; [repeat split; done|].
      match goal with
      | |- context [UpdateTickers_swap E c a ticks allPairs ?w1] =>
          destruct (IH w1) as (Hcalls & Hbooks & Hframe & Hout & Hin)
      end.
      simpl in *. split; [done|]. split; [done|]. split; [|split].
      * intros exch p a' Hother. rewrite Hframe by done.
        apply lookup_insert_ne. intros [= <- <- <-]. now destruct Hother.
      * intros p Hp. apply not_elem_of_cons in Hp as [Hne Hp].
        rewrite Hout by done. apply lookup_insert_ne. congruence.
      * intros Hok p Hp.
        destruct (decide (p ∈ allPairs)) as [Hrest|Hrest].
        -- destruct (Hin Hok p Hrest) as (fpair & Hf & Hcase).
           exists fpair. split; [done|].
           destruct (ticks !! Pair_String E fpair) as [tick|] eqn:Ht;
             [done|].
           rewrite Hcase. apply lookup_insert_ne. intros [= ->].
           rewrite Hfmt in Hf. injection Hf as <-. congruence.
        -- apply elem_of_cons in Hp as [->|Hp]; [|done].
           exists fpair0. split; [done|]. rewrite Htick.
           eexists. split.
           ++ rewrite Hout by done. apply lookup_insert_eq.
           ++ unfold swap_ticker_of. simpl. repeat split.
    + destruct (IH w) as (Hcalls & Hbooks & Hframe & Hout & Hin).
      split; [done|]. split; [done|]. split; [done|]. split.
      * intros p Hp. apply not_elem_of_cons in Hp as [Hne Hp]. now apply Hout.
      * intros Hok p Hp.
        destruct (decide (p ∈ allPairs)) as [Hrest|Hrest];
          [now apply Hin|].
        apply elem_of_cons in Hp as [->|Hp]; [|done].
        exists fpair0. split; [done|]. rewrite Htick. now apply Hout.
Qed.

(** The spot loop deletes no ticker, and when it ends without an error every
    ticker of the answer whose pair is enabled has left one under the
    pair's key. *)
Lemma UpdateTickers_spot_stored (E : Env) (c : Coinbene) (a : asset.Item)
    (allPairs : list currency.Pair) (ts : list TickerData) :
  forall w,
    let w' := snd (UpdateTickers_spot E c a allPairs ts w) in
    (forall k pr0,
        tickers w !! k = Some pr0 ->
        exists pr,
          tickers w' !! k = Some pr
          /\ (pr = pr0
              \/ exists t, t ∈ ts /\ spot_ticker_of E c a allPairs t k pr))
    /\ (fst (UpdateTickers_spot E c a allPairs ts w) = None ->
        forall t newP,
          t ∈ ts ->
          NewPairFromString E (Symbol t) = (newP, None) ->
          Pairs_Contains E allPairs newP true = true ->
          exists pr t',
            tickers w' !! (Name c, newP, a) = Some pr
            /\ t' ∈ ts
            /\ spot_ticker_of E c a allPairs t' (Name c, newP, a) pr).
Proof.
  induction ts as [|t0 ts IH]; intros w; simpl.
  - split; [eauto|]. intros _ t newP Ht. now apply elem_of_nil in Ht.
  - destruct (NewPairFromString E (Symbol t0)) as [newP0 [err|]] eqn:Hparse;
      simpl; [split; [eauto|done]|].
    destruct (Pairs_Contains E allPairs newP0 true) eqn:Hin; simpl.
    + unfold bind.
      match goal with
      | |- context [ticker_ProcessTicker E ?pr w] =>
          set (pr0 := pr);
          destruct (ticker_ProcessTicker_cases E pr0 w) as [[e ->]| ->]
      end; simpl; [split; [eauto|done]|].
      match goal with
      | |- context [UpdateTickers_spot E c a allPairs ts ?w1] =>
          destruct (IH w1) as (Hkept & Hgot)
      end.
      simpl in *.
      assert (spot_ticker_of E c a allPairs t0 (Name c, newP0, a) pr0)
        as Hof0 by (unfold spot_ticker_of; simpl; repeat split; done).
      split.
      * intros k pr1 Hk.
        destruct (decide ((Name c, newP0, a) = k)) as [<-|Hne].
        -- destruct (Hkept (Name c, newP0, a) pr0) as (pr & Hpr & Hcase);
             [apply lookup_insert_eq|].
           exists pr. split; [done|]. right.
           destruct Hcase as [->|(t & Ht & Hof)].
           ++ exists t0. split; [left|done].
           ++ exists t. split; [now right|done].
        -- destruct (Hkept k pr1) as (pr & Hpr & Hcase);
             [now rewrite lookup_insert_ne|].
           exists pr. split; [done|].
           destruct Hcase as [->|(t & Ht & Hof)]; [now left|].
           right. exists t. split; [now right|done].
      * intros Hok t newP Ht Hp Hc.
        apply elem_of_cons in Ht as [->|Ht].
        -- rewrite Hparse in Hp. injection Hp as <-.
           destruct (Hkept (Name c, newP0, a) pr0) as (pr & Hpr & Hcase);
             [apply lookup_insert_eq|].
           destruct Hcase as [->|(t & Ht & Hof)].
           ++ exists pr0, t0. split; [done|]. split; [left|done].
           ++ exists pr, t. split; [done|]. split; [now right|done].
        -- destruct (Hgot Hok t newP Ht Hp Hc) as (pr & t' & Hpr & Ht' & Hof).
           exists pr, t'. split; [done|]. split; [now right|done].
    + destruct (IH w) as (Hkept & Hgot). split.
      * intros k pr1 Hk.
        destruct (Hkept k pr1 Hk) as (pr & Hpr & Hcase).
        exists pr. split; [done|].
        destruct Hcase as [->|(t & Ht & Hof)]; [now left|].
        right. exists t. split; [now right|done].
      * intros Hok t newP Ht Hp Hc.
        apply elem_of_cons in Ht as [->|Ht]; [congruence|].
        destruct (Hgot Hok t newP Ht Hp Hc) as (pr & t' & Hpr & Ht' & Hof).
        exists pr, t'. split; [done|]. split; [now right|done].
Qed.

(** X1.  [UpdateTickers] is not all or nothing.  When a spot ticker of the
    exchange's answer has a symbol that does not parse, the call returns the
    parser's error and leaves the world the loop reached on the tickers
    before that one: what they stored stays stored, and no ticker after the
    failing one is looked at. *)
Theorem spot_tickers_stop_at_first_failure (E : Env) (c : Coinbene)
    (w : World) (allPairs : list currency.Pair) (pre post : list TickerData)
    (t : TickerData) (e : error) :
  SupportsAsset E c asset.Spot = true ->
  GetEnabledPairs E c asset.Spot = (allPairs, None) ->
  GetTickers E (calls w) = (pre ++ t :: post, None) ->
  fst (UpdateTickers_spot E c asset.Spot allPairs pre
         (requested w ReqGetTickers)) = None ->
  snd (NewPairFromString E (Symbol t)) = Some e ->
  UpdateTickers E c asset.Spot w
  = (Some e,
     snd (UpdateTickers_spot E c asset.Spot allPairs pre
            (requested w ReqGetTickers))).
Proof.
  intros Hsup Hpairs Hanswer Hpre Hbad. unfold UpdateTickers.
  rewrite Hsup, Hpairs. simpl. rewrite ?decide_True by done.
  run_monad. rewrite Hanswer. simpl.
  rewrite UpdateTickers_spot_app. unfold requested in Hpre.
  destruct (UpdateTickers_spot E c asset.Spot allPairs pre _)
    as [[err|] w1]; [discriminate|].
  simpl. destruct (NewPairFromString E (Symbol t)) as [newP err].
  simpl in Hbad. now subst err.
Qed.

Lemma spot_tickers_stop_at_first_failure_witness :
  let w' :=
    snd (UpdateTickers Market.garbled Example.coinbene asset.Spot
           Example.start) in
  fst (UpdateTickers Market.garbled Example.coinbene asset.Spot Example.start)
  = Some "currency: no delimiter in the pair string"
  /\ ticker.Last <$> tickers w' !! ("Coinbene", Example.btc_usdt, asset.Spot)
     = Some 10000%float
  /\ tickers w' !! ("Coinbene", Market.eth_usdt, asset.Spot) = None.
Proof.
  rewrite (spot_tickers_stop_at_first_failure Market.garbled Example.coinbene
             Example.start [Example.btc_usdt; Market.eth_usdt]
             [Market.quote "BTC/USDT" 10000%float;
              Market.quote "LTC/USDT" 50%float]
             [Market.quote "ETH/USDT" 300%float]
             (Market.quote "ETHUSDT" 300%float)
             "currency: no delimiter in the pair string");
    [|vm_compute; reflexivity|reflexivity|reflexivity|reflexivity
     |reflexivity].
  split; [reflexivity|]. split; vm_compute; reflexivity.
Defined.

(** X2.  [UpdateTickers] keeps to its own corner of the world: it never
    writes an order book, it makes at most one request (for the tickers of
    the asset), and it leaves every ticker of another exchange or another
    asset type as it was, whether it returns an error or not. *)
Theorem tickers_update_frame (E : Env) (c : Coinbene) (a : asset.Item)
    (w : World) :
  let w' := snd (UpdateTickers E c a w) in
  books w' = books w
  /\ (calls w' = calls w \/ calls w' = calls w ++ [REST (tickers_request a)])
  /\ (forall exch p a',
         exch <> Name c \/ a' <> a ->
         tickers w' !! (exch, p, a') = tickers w !! (exch, p, a')).
Proof.
  unfold UpdateTickers, tickers_request.
  destruct (SupportsAsset E c a); simpl; [|auto].
  destruct (GetEnabledPairs E c a) as [allPairs [err|]]; simpl; [auto|].
  destruct (decide (a = asset.Spot)) as [Hspot|Hspot];
    [|destruct (decide (a = asset.PerpetualSwap)) as [Hswap|Hswap]];
    run_monad; [| |auto].
  - destruct (GetTickers E (calls w)) as [ts [err|]]; simpl; [auto|].
    match goal with
    | |- context [UpdateTickers_spot E c a allPairs ts ?w1] =>
        destruct (UpdateTickers_spot_inv E c a allPairs ts w1)
          as (Hcalls & Hbooks & Hframe & _)
    end.
    simpl in *. auto.
  - destruct (GetSwapTickers E (calls w)) as [ticks [err|]]; simpl; [auto|].
    match goal with
    | |- context [UpdateTickers_swap E c a ticks allPairs ?w1] =>
        destruct (UpdateTickers_swap_inv E c a ticks allPairs w1)
          as (Hcalls & Hbooks & Hframe & _)
    end.
    simpl in *. auto.
Qed.

(** X3.  When [UpdateTickers] succeeds for the swap asset, every enabled
    pair is accounted for: if the exchange's answer has a ticker under the
    pair's formatted name, that ticker (its prices, volume and time stamp)
    is in the cache under the pair's own key; if it has none, the pair is
    passed over and its key holds what it held. *)
Theorem swap_tickers_are_stored (E : Env) (c : Coinbene) (w : World)
    (allPairs : list currency.Pair) (ticks : gmap string SwapTicker) :
  SupportsAsset E c asset.PerpetualSwap = true ->
  GetEnabledPairs E c asset.PerpetualSwap = (allPairs, None) ->
  GetSwapTickers E (calls w) = (ticks, None) ->
  fst (UpdateTickers E c asset.PerpetualSwap w) = None ->
  let w' := snd (UpdateTickers E c asset.PerpetualSwap w) in
  forall p,
    p ∈ allPairs ->
    exists fpair,
      FormatExchangeCurrency E c p asset.PerpetualSwap = (fpair, None)
      /\ match ticks !! Pair_String E fpair with
         | Some tick =>
             exists pr,
               tickers w' !! (Name c, p, asset.PerpetualSwap) = Some pr
               /\ swap_ticker_of c asset.PerpetualSwap p tick pr
         | None =>
             tickers w' !! (Name c, p, asset.PerpetualSwap)
             = tickers w !! (Name c, p, asset.PerpetualSwap)
         end.
Proof.
  intros Hsup Hpairs Hanswer. unfold UpdateTickers.
  rewrite Hsup, Hpairs. simpl.
  rewrite ?decide_False by done. rewrite ?decide_True by done.
  run_monad. rewrite Hanswer. simpl.
  match goal with
  | |- context [UpdateTickers_swap E c _ ticks allPairs ?w1] =>
      destruct (UpdateTickers_swap_inv E c asset.PerpetualSwap ticks
                  allPairs w1) as (_ & _ & _ & _ & Hin)
  end.
  intros Hok p Hp. exact (Hin Hok p Hp).
Qed.

Lemma swap_tickers_are_stored_witness :
  let w' :=
    snd (UpdateTickers Market.clean Example.coinbene asset.PerpetualSwap
           Example.start) in
  (exists pr,
      tickers w' !! ("Coinbene", Example.btc_usdt, asset.PerpetualSwap)
      = Some pr
      /\ ticker.Last pr = 10002%float)
  /\ tickers w' !! ("Coinbene", Market.eth_usdt, asset.PerpetualSwap) = None.
Proof.
  pose proof (swap_tickers_are_stored Market.clean Example.coinbene
                Example.start [Example.btc_usdt; Market.eth_usdt]
                Market.swap_tickers) as Hstored.
  simpl in Hstored.
  assert (SupportsAsset Market.clean Example.coinbene asset.PerpetualSwap
          = true) as Hsup by (vm_compute; reflexivity).
  assert (fst (UpdateTickers Market.clean Example.coinbene
                 asset.PerpetualSwap Example.start) = None) as Hok
    by (vm_compute; reflexivity).
  specialize (Hstored Hsup eq_refl eq_refl Hok).
  split.
  - destruct (Hstored Example.btc_usdt) as (fpair & Hfmt & Hcase);
      [left|].
    injection Hfmt as <-.
    replace (Market.swap_tickers
             !! Pair_String Market.clean
                  (Market.format_pair Example.btc_usdt asset.PerpetualSwap))
      with (Some (Market.swap_quote 10002%float)) in Hcase
      by (vm_compute; reflexivity).
    destruct Hcase as (pr & Hpr & Hof). exists pr. split; [exact Hpr|].
    apply Hof.
  - destruct (Hstored Market.eth_usdt) as (fpair & Hfmt & Hcase);
      [right; left|].
    injection Hfmt as <-.
    replace (Market.swap_tickers
             !! Pair_String Market.clean
                  (Market.format_pair Market.eth_usdt asset.PerpetualSwap))
      with (@None SwapTicker) in Hcase by (vm_compute; reflexivity).
    rewrite Hcase. reflexivity.
Defined.

(** X4.  The spot tickers [UpdateTickers] writes are the exchange's, and for
    enabled pairs only.  Whatever the call returns, a ticker the cache holds
    afterwards was there before or carries the pair and the prices of a
    ticker of the answer whose pair is enabled, under that pair's key; and
    when the call succeeds, every ticker of the answer whose pair is enabled
    has left one under the pair's key. *)
Theorem spot_tickers_are_of_enabled_pairs (E : Env) (c : Coinbene)
    (w : World) :
  let w' := snd (UpdateTickers E c asset.Spot w) in
  let allPairs := fst (GetEnabledPairs E c asset.Spot) in
  let answer := fst (GetTickers E (calls w)) in
  (forall k pr,
      tickers w' !! k = Some pr ->
      tickers w !! k = Some pr
      \/ exists t,
           t ∈ answer /\ spot_ticker_of E c asset.Spot allPairs t k pr)
  /\ (fst (UpdateTickers E c asset.Spot w) = None ->
      forall t newP,
        t ∈ answer ->
        NewPairFromString E (Symbol t) = (newP, None) ->
        Pairs_Contains E allPairs newP true = true ->
        exists pr t',
          tickers w' !! (Name c, newP, asset.Spot) = Some pr
          /\ t' ∈ answer
          /\ spot_ticker_of E c asset.Spot allPairs t'
               (Name c, newP, asset.Spot) pr).
Proof.
  unfold UpdateTickers.
  destruct (SupportsAsset E c asset.Spot); simpl; [|split; [auto|done]].
  destruct (GetEnabledPairs E c asset.Spot) as [allPairs [err|]]; simpl;
    [split; [auto|done]|].
  rewrite ?decide_True by done. run_monad.
  destruct (GetTickers E (calls w)) as [ts [err|]]; simpl;
    [split; [auto|done]|].
  match goal with
  | |- context [UpdateTickers_spot E c _ allPairs ts ?w1] =>
      destruct (UpdateTickers_spot_inv E c asset.Spot allPairs ts w1)
        as (_ & _ & _ & Hnew);
      destruct (UpdateTickers_spot_stored E c asset.Spot allPairs ts w1)
        as (_ & Hgot)
  end.
  simpl in *. split; [exact Hnew|exact Hgot].
Qed.

Example spot_tickers_of_the_market :
  let w' :=
    snd (UpdateTickers Market.clean Example.coinbene asset.Spot
           Example.start) in
  fst (UpdateTickers Market.clean Example.coinbene asset.Spot Example.start)
  = None
  /\ ticker.Last <$> tickers w' !! ("Coinbene", Market.eth_usdt, asset.Spot)
     = Some 300%float
  /\ tickers w' !! ("Coinbene", Market.ltc_usdt, asset.Spot) = None.
Proof. vm_compute. repeat split. Qed.

(** X5.  [FetchTicker] and [UpdateTicker].  For an asset the exchange does
    not support, [FetchTicker] returns the error of the other operations
    and makes no request.  For a supported one it answers from the cache
    without a request when the cache has the pair's ticker, and is
    [UpdateTicker] otherwise.  [UpdateTicker] refreshes the tickers of the
    whole asset (the world it leaves is the one [UpdateTickers] leaves) and
    fails with [UpdateTickers]'s error; the ticker it returns is then in
    the cache: [FetchTicker] returns the same ticker without a request. *)
Theorem fetch_ticker_reads_the_cache (E : Env) (c : Coinbene)
    (p : currency.Pair) (a : asset.Item) (w : World) :
  (SupportsAsset E c a = false ->
   FetchTicker E c p a w = ((None, Some (errUnsupportedAsset c a)), w))
  /\ (forall t,
         SupportsAsset E c a = true ->
         tickers w !! (Name c, p, a) = Some t ->
         FetchTicker E c p a w = ((Some t, None), w))
  /\ (SupportsAsset E c a = true ->
      tickers w !! (Name c, p, a) = None ->
      FetchTicker E c p a w = UpdateTicker E c p a w)
  /\ snd (UpdateTicker E c p a w) = snd (UpdateTickers E c a w)
  /\ (forall e,
         fst (UpdateTickers E c a w) = Some e ->
         fst (UpdateTicker E c p a w) = (None, Some e))
  /\ (forall t,
         fst (UpdateTicker E c p a w) = (t, None) ->
         exists t', t = Some t'
         /\ FetchTicker E c p a (snd (UpdateTicker E c p a w))
            = ((Some t', None), snd (UpdateTicker E c p a w))).
Proof.
  unfold FetchTicker, UpdateTicker, ticker_GetTicker.
  split; [|split; [|split; [|split; [|split]]]].
  - intros ->. reflexivity.
  - intros t -> Ht. simpl. unfold bind. now rewrite Ht.
  - intros -> Ht. simpl. unfold bind at 1. now rewrite Ht.
  - unfold bind. destruct (UpdateTickers E c a w) as [[e|] w1]; simpl;
      [reflexivity|].
    now destruct (tickers w1 !! (Name c, p, a)).
  - intros e. unfold bind.
    destruct (UpdateTickers E c a w) as [[e'|] w1]; simpl; [|done].
    now intros [= ->].
  - intros t. unfold bind.
    destruct (UpdateTickers E c a w) as [[e'|] w1] eqn:Hupd; simpl;
      [done|].
    destruct (tickers w1 !! (Name c, p, a)) as [t'|] eqn:Ht; simpl; [|done].
    intros [= <-]. exists t'. split; [done|].
    assert (SupportsAsset E c a = true) as ->.
    { unfold UpdateTickers in Hupd.
      destruct (SupportsAsset E c a); [done|discriminate]. }
    simpl. unfold bind. now rewrite Ht.
Qed.

Example ticker_of_the_market :
  let r :=
    UpdateTicker Market.clean Example.coinbene Market.eth_usdt asset.Spot
      Example.start in
  ticker.Last <$> fst (fst r) = Some 300%float
  /\ snd (fst r) = None
  /\ calls (snd r) = [REST ReqGetTickers]
  /\ fst (FetchTicker Market.clean Example.coinbene Market.eth_usdt asset.Spot
            (snd r)) = fst r
  /\ calls (snd (FetchTicker Market.clean Example.coinbene Market.eth_usdt
                   asset.Spot (snd r))) = [REST ReqGetTickers].
Proof. vm_compute. repeat split. Qed.

(** ** Order books *)

(** X6.  [FetchOrderbook] for a supported asset answers from the store
    without a request when the store has the pair's book, and is
    [UpdateOrderbook] otherwise; and the book [UpdateOrderbook] returns
    without an error is in the store: [FetchOrderbook] returns the same
    book from the world the update left, without a request. *)
Theorem fetch_orderbook_reads_the_store (E : Env) (c : Coinbene)
    (p : currency.Pair) (a : asset.Item) (w : World) :
  (forall b,
      SupportsAsset E c a = true ->
      books w !! (Name c, p, a) = Some b ->
      FetchOrderbook E c p a w = ((Some b, None), w))
  /\ (SupportsAsset E c a = true ->
      books w !! (Name c, p, a) = None ->
      FetchOrderbook E c p a w = UpdateOrderbook E c p a w)
  /\ (forall b,
         fst (UpdateOrderbook E c p a w) = (b, None) ->
         exists b', b = Some b'
         /\ FetchOrderbook E c p a (snd (UpdateOrderbook E c p a w))
            = ((Some b', None), snd (UpdateOrderbook E c p a w))).
Proof.
  split; [|split].
  - intros b Hsup Hb. unfold FetchOrderbook, orderbook_Get.
    rewrite Hsup. simpl. unfold bind. now rewrite Hb.
  - intros Hsup Hb. unfold FetchOrderbook, orderbook_Get.
    rewrite Hsup. simpl. unfold bind. now rewrite Hb.
  - intros b Hret.
    assert (SupportsAsset E c a = true) as Hsup.
    { unfold UpdateOrderbook in Hret.
      destruct (SupportsAsset E c a); [done|discriminate]. }
    destruct (UpdateOrderbook_outcome E c p a w)
      as [(b' & e & Hfst & _)|(b' & Hfst & Hbooks & _)];
      rewrite Hfst in Hret; [discriminate|].
    injection Hret as <-. exists b'. split; [done|].
    unfold FetchOrderbook, orderbook_Get. rewrite Hsup. simpl. unfold bind.
    rewrite Hbooks, lookup_insert_eq. reflexivity.
Qed.

Example orderbook_of_the_example :
  let r :=
    UpdateOrderbook Example.up Example.coinbene Example.btc_usdt asset.Spot
      Example.start in
  snd (fst r) = None
  /\ fst (FetchOrderbook Example.up Example.coinbene Example.btc_usdt
            asset.Spot (snd r)) = fst r
  /\ calls (snd (FetchOrderbook Example.up Example.coinbene Example.btc_usdt
                   asset.Spot (snd r)))
     = [REST (ReqGetOrderbook "BTC/USDT" 100)].
Proof. vm_compute. repeat split. Qed.

(** X7.  The book [UpdateOrderbook] returns without an error, for the spot
    or the swap asset, is the exchange's answer level by level: the bids
    and the asks carry the prices and amounts of the answer in the order of
    the answer (nothing is sorted, merged or dropped), the order counts of
    the answer for the swap asset and 0 for the spot asset.  The book names
    the exchange, the asset and the pair as the caller gave it, not as it
    was formatted for the request. *)
Theorem orderbook_levels_follow_the_answer (E : Env) (c : Coinbene)
    (p : currency.Pair) (a : asset.Item) (w : World) (b : orderbook.Base) :
  a = asset.Spot \/ a = asset.PerpetualSwap ->
  fst (UpdateOrderbook E c p a w) = (Some b, None) ->
  exists fpair tempResp,
    FormatExchangeCurrency E c p a = (fpair, None)
    /\ orderbook_answer E a (calls w) (Pair_String E fpair) = (tempResp, None)
    /\ orderbook.Exchange b = Name c
    /\ orderbook.Pair b = p
    /\ orderbook.Asset b = a
    /\ map orderbook.Price (orderbook.Bids b) = map Price (Bids tempResp)
    /\ map orderbook.Amount (orderbook.Bids b) = map Amount (Bids tempResp)
    /\ map orderbook.Price (orderbook.Asks b) = map Price (Asks tempResp)
    /\ map orderbook.Amount (orderbook.Asks b) = map Amount (Asks tempResp)
    /\ map orderbook.OrderCount (orderbook.Bids b)
       = map (fun x => if decide (a = asset.PerpetualSwap)
                       then Count x else 0%Z)
           (Bids tempResp)
    /\ map orderbook.OrderCount (orderbook.Asks b)
       = map (fun x => if decide (a = asset.PerpetualSwap)
                       then Count x else 0%Z)
           (Asks tempResp).
Proof.
  intros Ha. unfold UpdateOrderbook, orderbook_answer.
  destruct (SupportsAsset E c a); simpl; [|discriminate].
  destruct (FormatExchangeCurrency E c p a) as [fpair [err|]]; simpl;
    [discriminate|].
  unfold orderbook_Process, orderbook_Get.
  destruct Ha as [-> | ->]; run_monad;
    [destruct (GetOrderbook E (calls w) (Pair_String E fpair) 100)
       as [tempResp [err|]] eqn:Hanswer
    |destruct (GetSwapOrderbook E (calls w) (Pair_String E fpair) 100)
       as [tempResp [err|]] eqn:Hanswer];
    simpl; try discriminate;
    (destruct (if CanVerifyOrderbook c then _ else _); simpl;
     [discriminate|]);
    rewrite lookup_insert_eq; simpl; intros [= <-];
    exists fpair, tempResp; simpl; rewrite !map_map; repeat split;
    exact Hanswer.
Qed.

Lemma orderbook_levels_follow_the_answer_witness :
  exists b,
    fst (UpdateOrderbook Example.up Example.coinbene Example.btc_usdt
           asset.Spot Example.start) = (Some b, None)
    /\ map orderbook.Price (orderbook.Asks b) = [10001%float]
    /\ map orderbook.OrderCount (orderbook.Asks b) = [0%Z].
Proof.
  eexists. split; [vm_compute; reflexivity|].
  match goal with
  | |- map orderbook.Price (orderbook.Asks ?b) = _ /\ _ =>
      destruct (orderbook_levels_follow_the_answer Example.up
                  Example.coinbene Example.btc_usdt asset.Spot Example.start
                  b (or_introl eq_refl))
        as (fpair & tempResp & Hfmt & Hanswer & _ & _ & _ & _ & _
            & Hprice & _ & _ & Hcount);
      [vm_compute; reflexivity|]
  end.
  injection Hfmt as <-. injection Hanswer as <-.
  split; [exact Hprice|exact Hcount].
Defined.

(** ** Trades *)

(** X8.  Where the trade buffer takes the trades and leaves the slice as it
    is, [GetRecentTrades] makes one request, for 100 trades, and returns the
    trades of the exchange's answer, each one once: every trade returned
    carries the time, price and volume of a trade of the answer, and every
    trade of the answer is returned.  A trade's side is Sell when the
    exchange's direction is the string "sell" and Buy for every other
    direction; its pair is the pair as formatted for the request. *)
Theorem recent_trades_follow_the_answer (E : Env) (c : Coinbene)
    (p : currency.Pair) (a : asset.Item) (w : World) (fpair : currency.Pair)
    (tradeData : list TradeItem) :
  FormatExchangeCurrency E c p a = (fpair, None) ->
  GetTrades E (calls w) (Pair_String E fpair) 100 = (tradeData, None) ->
  (forall ts, AddTradesToBuffer E c ts = (ts, None)) ->
  exists trades,
    GetRecentTrades E c p a w
    = ((trades, None), requested w (ReqGetTrades (Pair_String E fpair) 100))
    /\ length trades = length tradeData
    /\ (forall tr,
           tr ∈ trades ->
           trade.Exchange tr = Name c
           /\ trade.CurrencyPair tr = fpair
           /\ trade.AssetType tr = a
           /\ exists t,
                t ∈ tradeData
                /\ trade.Timestamp tr = TradeTime t
                /\ trade.Price tr = TradePrice t
                /\ trade.Amount tr = TradeVolume t
                /\ trade.Side tr
                   = (if decide (Direction t = "sell")
                      then order.Sell else order.Buy))
    /\ (forall t,
           t ∈ tradeData ->
           exists tr,
             tr ∈ trades
             /\ trade.Timestamp tr = TradeTime t
             /\ trade.Price tr = TradePrice t
             /\ trade.Amount tr = TradeVolume t).
Proof.
  intros Hfmt Htrades Hbuffer. unfold GetRecentTrades.
  rewrite Hfmt. run_monad. rewrite Htrades. simpl. rewrite Hbuffer.
  eexists. split; [reflexivity|].
  match goal with
  | |- context [sort.Sort trade.ByDate ?resp] =>
      assert (sort.Sort trade.ByDate resp ≡ₚ resp) as Hperm
        by apply (Sort_permutation trade.Timestamp)
  end.
  split; [|split].
  - rewrite Hperm. apply length_map.
  - intros tr Htr. rewrite Hperm in Htr.
    apply list_elem_of_fmap in Htr as (t & -> & Ht). simpl.
    repeat split. exists t. repeat split. exact Ht.
  - intros t Ht. eexists. split.
    + rewrite Hperm. apply list_elem_of_fmap. exists t. split; [reflexivity|].
      exact Ht.
    + repeat split.
Qed.

Lemma recent_trades_follow_the_answer_witness :
  exists trades,
    fst (GetRecentTrades Example.up Example.coinbene Example.btc_usdt
           asset.Spot Example.start) = (trades, None)
    /\ length trades = 3%nat
    /\ map trade.Side trades = [order.Sell; order.Buy; order.Buy].
Proof.
  destruct (recent_trades_follow_the_answer Example.up Example.coinbene
              Example.btc_usdt asset.Spot Example.start Example.btc_usdt
              Example.trades1 eq_refl eq_refl (fun ts => eq_refl))
    as (trades & Hret & Hlen & _).
  exists trades. rewrite Hret. split; [reflexivity|]. split; [exact Hlen|].
  injection Hret as <-. reflexivity.
Defined.

(** ** Candles *)

(** X9.  The period names of [FormatExchangeKlineInterval] tell the
    intervals apart: two different intervals never get the same name,
    unless it is the empty string the function gives to the intervals it
    has no name for. *)
Theorem kline_periods_are_distinct (i j : kline.Interval) :
  i <> j ->
  FormatExchangeKlineInterval i <> "" ->
  FormatExchangeKlineInterval i <> FormatExchangeKlineInterval j.
Proof.
  intros Hij Hnamed Hsame. apply Hij. clear Hij.
  destruct i, j; vm_compute in Hsame, Hnamed;
    first [reflexivity|discriminate Hsame|now destruct Hnamed].
Qed.

Lemma kline_periods_are_distinct_witness :
  FormatExchangeKlineInterval kline.OneHour
  <> FormatExchangeKlineInterval kline.TwoHour.
Proof.
  apply (kline_periods_are_distinct kline.OneHour kline.TwoHour);
    [discriminate|vm_compute; discriminate].
Defined.

(** X10.  The intervals [SetDefaults] enables and the intervals
    [FormatExchangeKlineInterval] has a name for are not the same set.
    Three days is enabled and has no name, so a candle request for it goes
    out with an empty period; it is the only enabled interval without one.
    One month has the name "M" and is not enabled. *)
Theorem enabled_intervals_and_periods (E : Env) (c : Coinbene) :
  let enabled :=
    exchange.KlineEnabledIntervals
      (exchange.Enabled (Features (SetDefaults E c))) in
  (forall i,
      i ∈ enabled ->
      (FormatExchangeKlineInterval i = "" <-> i = kline.ThreeDay))
  /\ kline.ThreeDay ∈ enabled
  /\ (forall pair a start end_,
         klines_request E (SetDefaults E c) pair a start end_ kline.ThreeDay
         = if decide (a = asset.PerpetualSwap)
           then ReqGetSwapKlines
                  (Pair_String E
                     (fst (FormatExchangeCurrency E (SetDefaults E c) pair
                             asset.PerpetualSwap)))
                  start end_ ""
           else ReqGetKlines
                  (Pair_String E
                     (fst (FormatExchangeCurrency E (SetDefaults E c) pair
                             asset.PerpetualSwap)))
                  start end_ "")
  /\ (kline.OneMonth ∉ enabled)
  /\ FormatExchangeKlineInterval kline.OneMonth = "M".
Proof.
  simpl. split; [|split; [|split; [|split]]].
  - intros i Hi.
    destruct i; split; intros H; try reflexivity;
      try (vm_compute in H; discriminate H).
    exfalso.
    repeat (apply elem_of_cons in Hi as [Hi|Hi]; [discriminate|]).
    now apply elem_of_nil in Hi.
  - do 11 right. left.
  - reflexivity.
  - intros Hin.
    repeat (apply elem_of_cons in Hin as [Hin|Hin]; [discriminate|]).
    now apply elem_of_nil in Hin.
  - reflexivity.
Qed.

(** X11.  A candle row may have more than six fields: the fields after the
    sixth are not read, and the row gives the candle, or the error, of its
    first six fields. *)
Theorem candle_rows_ignore_extra_fields (E : Env) (row extra : list JSON) :
  (6 <= length row)%nat ->
  candle_of_row E (row ++ extra) = candle_of_row E row.
Proof.
  intros Hlen. unfold candle_of_row, float_field, field.
  rewrite length_app.
  replace (length row + length extra <? 6)%nat with false
    by (symmetry; apply Nat.ltb_ge; lia).
  replace (length row <? 6)%nat with false
    by (symmetry; apply Nat.ltb_ge; lia).
  rewrite !lookup_app_l by lia. reflexivity.
Qed.

Lemma candle_rows_ignore_extra_fields_witness :
  candle_of_row Example.up
    (Example.row "2021-01-01T00:00:00Z" ++ [JNumber 7%float; JNull])
  = ({| kline.Time := 1609459200000000000%Z; kline.Open := 1.5%float;
        kline.High := 2%float; kline.Low := 1.5%float;
        kline.Close := 2%float; kline.Volume := 2%float |}, None).
Proof.
  rewrite (candle_rows_ignore_extra_fields Example.up
             (Example.row "2021-01-01T00:00:00Z") [JNumber 7%float; JNull])
    by (simpl; lia).
  reflexivity.
Defined.

(** X12.  [GetHistoricCandles] writes no store and makes at most one
    request, the candle request of its arguments: the pair in the format of
    the swap asset whatever the asset asked for, the swap endpoint for the
    swap asset and the spot endpoint for every other.  The item it returns
    without an error came from that one request and names the exchange, the
    asset, the interval and the pair as the caller gave it.
    [GetHistoricCandlesExtended] is the same call: it makes the same single
    request however long the span between start and end. *)
Theorem historic_candles_make_one_request (E : Env) (c : Coinbene)
    (pair : currency.Pair) (a : asset.Item) (start end_ : time.Time)
    (interval : kline.Interval) (w : World) :
  let r := GetHistoricCandles E c pair a start end_ interval w in
  let request := REST (klines_request E c pair a start end_ interval) in
  books (snd r) = books w
  /\ tickers (snd r) = tickers w
  /\ (calls (snd r) = calls w \/ calls (snd r) = calls w ++ [request])
  /\ (forall item,
         fst r = (item, None) ->
         calls (snd r) = calls w ++ [request]
         /\ kline.Exchange item = Name c
         /\ kline.Pair item = pair
         /\ kline.Asset item = a
         /\ kline.Interval_ item = interval)
  /\ GetHistoricCandlesExtended E c pair a start end_ interval w = r.
Proof.
  unfold GetHistoricCandlesExtended, GetHistoricCandles, klines_request.
  destruct (ValidateKline E c pair a interval) as [err|]; simpl;
    [repeat split; auto; discriminate|].
  destruct (FormatExchangeCurrency E c pair asset.PerpetualSwap)
    as [formattedPair [err|]]; simpl; [repeat split; auto; discriminate|].
  destruct (decide (a = asset.PerpetualSwap)); run_monad;
    [destruct (GetSwapKlines E (calls w) _ start end_ _)
       as [candles [err|]]
    |destruct (GetKlines E (calls w) _ start end_ _)
       as [candles [err|]]];
    simpl; try (repeat split; auto; discriminate);
    (destruct (candles_of_rows E (Data candles) []) as [cs [err|]]; simpl;
     [repeat split; auto; discriminate|]);
    (split; [done|]; split; [done|]; split; [auto|]; split; [|done]);
    intros item [= <-]; repeat split.
Qed.

(** A spot request for three-day candles: the pair goes out with the dash
    of the swap format, to the spot endpoint, with an empty period. *)
Example spot_candles_go_out_in_swap_format :
  calls (snd (GetHistoricCandles Market.clean Example.coinbene
                Example.btc_usdt asset.Spot 0%Z 10%Z kline.ThreeDay
                Example.start))
  = [REST (ReqGetKlines "BTC-USDT" 0%Z 10%Z "")].
Proof. reflexivity. Qed.

(** ** Tradable pairs *)

(** What [FetchTradablePairs] leaves of the world: the stores as they were
    and, for a supported asset, the asset's request added to the calls. *)
Lemma FetchTradablePairs_calls (E : Env) (c : Coinbene) (a : asset.Item)
    (w : World) :
  let r := FetchTradablePairs E c a w in
  books (snd r) = books w
  /\ tickers (snd r) = tickers w
  /\ calls (snd r)
     = calls w
       ++ (if SupportsAsset E c a
           then map REST (option_list (pairs_request a)) else [])
  /\ (snd (fst r) = None -> SupportsAsset E c a = true).
Proof.
  unfold FetchTradablePairs, pairs_request.
  destruct (SupportsAsset E c a); simpl;
    [|rewrite app_nil_r; repeat split; discriminate].
  destruct (decide (a = asset.Spot));
    [|destruct (decide (a = asset.PerpetualSwap))]; run_monad.
  - destruct (GetAllPairs E (calls w)) as [pairs [err|]]; simpl;
      repeat split.
  - destruct (GetSwapInstruments E (calls w)) as [instruments [err|]]; simpl;
      [repeat split|].
    destruct (GetPairFormat E c asset.PerpetualSwap false) as [pFmt [err|]];
      simpl; repeat split.
  - rewrite app_nil_r. repeat split.
Qed.

(** X13.  [FetchTradablePairs] for a supported asset.  The spot asset gives
    the symbols of the exchange's pairs, in the exchange's order; the swap
    asset gives one name per instrument; an asset that is neither gives no
    name and no error, and costs no request.  The request goes out before
    the pair format is looked up, so a call that fails on the format has
    made its request all the same. *)
Theorem tradable_pairs_follow_the_listing (E : Env) (c : Coinbene)
    (a : asset.Item) (w : World) :
  SupportsAsset E c a = true ->
  let r := FetchTradablePairs E c a w in
  calls (snd r) = calls w ++ map REST (option_list (pairs_request a))
  /\ (a = asset.Spot ->
      forall pairs,
        GetAllPairs E (calls w) = (pairs, None) ->
        fst r = (map PairData_Symbol pairs, None))
  /\ (a = asset.PerpetualSwap ->
      forall instruments,
        GetSwapInstruments E (calls w) = (instruments, None) ->
        (forall e,
            snd (GetPairFormat E c asset.PerpetualSwap false) = Some e ->
            fst r = ([], Some e))
        /\ (forall names,
               fst r = (names, None) ->
               length names = length instruments))
  /\ (a <> asset.Spot -> a <> asset.PerpetualSwap -> r = (([], None), w)).
Proof.
  intros Hsup. simpl. split; [|split; [|split]].
  - pose proof (FetchTradablePairs_calls E c a w) as (_ & _ & Hcalls & _).
    now rewrite Hsup in Hcalls.
  - intros -> pairs Hpairs. unfold FetchTradablePairs.
    rewrite Hsup. simpl. run_monad. now rewrite Hpairs.
  - intros -> instruments Hinstr. unfold FetchTradablePairs.
    rewrite Hsup. simpl. run_monad. rewrite Hinstr. simpl.
    destruct (GetPairFormat E c asset.PerpetualSwap false) as [pFmt [err|]];
      simpl; split.
    + now intros e [= ->].
    + discriminate.
    + discriminate.
    + intros names [= <-]. apply length_map.
  - intros Hspot Hswap. unfold FetchTradablePairs. rewrite Hsup. simpl.
    rewrite !decide_False by done. reflexivity.
Qed.

Lemma tradable_pairs_follow_the_listing_witness :
  fst (FetchTradablePairs Market.clean Example.coinbene asset.Spot
         Example.start)
  = (["BTC/USDT"; "ETH/USDT"; "LTC/USDT"], None)
  /\ calls (snd (FetchTradablePairs Market.clean Example.coinbene asset.Spot
                   Example.start))
     = [REST ReqGetAllPairs].
Proof.
  assert (SupportsAsset Market.clean Example.coinbene asset.Spot = true)
    as Hsup by (vm_compute; reflexivity).
  destruct (tradable_pairs_follow_the_listing Market.clean Example.coinbene
              asset.Spot Example.start Hsup) as (Hcalls & Hspot & _).
  split.
  - exact (Hspot eq_refl _ eq_refl).
  - exact Hcalls.
Defined.

(** The calls of the loop of [UpdateTradablePairs]: the requests of the
    asset types it got through, in their order. *)
Lemma UpdateTradablePairs_loop_calls (E : Env) (B : BaseEnv)
    (forceUpdate : bool) (assets : list asset.Item) :
  forall c w,
    let r := UpdateTradablePairs_loop E B c forceUpdate assets w in
    books (snd r) = books w
    /\ tickers (snd r) = tickers w
    /\ exists n,
         calls (snd r)
         = calls w ++ map REST (omap pairs_request (take n assets))
         /\ (snd (fst r) = None -> n = length assets).
Proof.
  induction assets as [|a assets IH]; intros c w; simpl.
  - split; [done|]. split; [done|]. exists 0%nat.
    now rewrite app_nil_r.
  - unfold bind.
    pose proof (FetchTradablePairs_calls E c a w)
      as (Hbooks & Htickers & Hcalls & Hsup).
    destruct (FetchTradablePairs E c a w) as [[names [err|]] w1];
      simpl in *.
    + split; [done|]. split; [done|].
      destruct (SupportsAsset E c a).
      * exists 1%nat. simpl. rewrite ?take_0. split; [|discriminate].
        rewrite Hcalls. now destruct (pairs_request a).
      * exists 0%nat. split; [|discriminate]. now rewrite Hcalls.
    + rewrite Hsup in Hcalls by done.
      assert (calls w1
              = calls w ++ map REST (omap pairs_request (take 1 (a :: assets))))
        as Hone.
      { rewrite Hcalls. simpl. rewrite ?take_0.
        now destruct (pairs_request a). }
      destruct (NewPairsFromStrings B names) as [p [err|]]; simpl.
      { split; [done|]. split; [done|]. exists 1%nat.
        split; [done|discriminate]. }
      destruct (UpdatePairs B c p a false forceUpdate) as [c1 [err|]]; simpl.
      { split; [done|]. split; [done|]. exists 1%nat.
        split; [done|discriminate]. }
      destruct (IH c1 w1) as (Hbooks1 & Htickers1 & n & Hcalls1 & Hall).
      split; [congruence|]. split; [congruence|].
      exists (S n). split.
      * rewrite Hcalls1, Hcalls. simpl.
        destruct (pairs_request a); simpl; now rewrite <- app_assoc.
      * intros Hok. now rewrite (Hall Hok).
Qed.

(** X14.  [UpdateTradablePairs] goes through the asset types of the
    exchange in their order and asks the exchange for the pairs of each: it
    writes no store, and its requests are those of the first asset types,
    up to the one it failed on.  When it succeeds they are the requests of
    all the asset types, one each for the spot and the swap asset.  [Run]
    does nothing when pair updates are not enabled; otherwise it is that
    update, without the forced flag, and its error is dropped. *)
Theorem tradable_pairs_are_fetched_in_turn (E : Env) (B : BaseEnv)
    (c : Coinbene) (forceUpdate : bool) (w : World) :
  let assets := GetAssetTypes B c false in
  let r := UpdateTradablePairs E B c forceUpdate w in
  books (snd r) = books w
  /\ tickers (snd r) = tickers w
  /\ (exists n,
         calls (snd r)
         = calls w ++ map REST (omap pairs_request (take n assets)))
  /\ (snd (fst r) = None ->
      calls (snd r) = calls w ++ map REST (omap pairs_request assets))
  /\ (exchange.AutoPairUpdates (GetEnabledFeatures B c) = false ->
      Run E B c w = (c, w))
  /\ (exchange.AutoPairUpdates (GetEnabledFeatures B c) = true ->
      Run E B c w
      = (fst (fst (UpdateTradablePairs E B c false w)),
         snd (UpdateTradablePairs E B c false w))).
Proof.
  simpl. unfold UpdateTradablePairs, Run.
  destruct (UpdateTradablePairs_loop_calls E B forceUpdate
              (GetAssetTypes B c false) c w)
    as (Hbooks & Htickers & n & Hcalls & Hall).
  split; [done|]. split; [done|]. split; [eauto|]. split; [|split].
  - intros Hok. rewrite Hcalls, (Hall Hok). now rewrite firstn_all.
  - intros ->. reflexivity.
  - intros ->. simpl. unfold bind, UpdateTradablePairs.
    now destruct (UpdateTradablePairs_loop E B c false _ w) as [[c1 err] w1].
Qed.

Example tradable_pairs_of_the_market :
  snd (fst (UpdateTradablePairs Market.clean Market.base Example.coinbene
              true Example.start)) = None
  /\ calls (snd (UpdateTradablePairs Market.clean Market.base
                   Example.coinbene true Example.start))
     = [REST ReqGetAllPairs; REST ReqGetSwapInstruments].
Proof. vm_compute. split; reflexivity. Qed.

(** ** Order books, orders and set-up: what is left alone *)

(** X15.  [UpdateOrderbook] writes one book at most: it leaves the tickers
    and every book under another key than its own (exchange, pair, asset) as
    they were, and it leaves all books as they were when it returns an
    error. *)
Theorem orderbook_update_frame (E : Env) (c : Coinbene) (p : currency.Pair)
    (a : asset.Item) (w : World) :
  let r := UpdateOrderbook E c p a w in
  tickers (snd r) = tickers w
  /\ (forall k, k <> (Name c, p, a) -> books (snd r) !! k = books w !! k)
  /\ (snd (fst r) <> None -> books (snd r) = books w).
Proof.
  simpl. split; [|split].
  - unfold UpdateOrderbook.
    destruct (SupportsAsset E c a); simpl; [|done].
    destruct (FormatExchangeCurrency E c p a) as [fpair [err|]]; simpl;
      [done|].
    unfold orderbook_Process, orderbook_Get.
    destruct (decide (a = asset.Spot));
      [|destruct (decide (a = asset.PerpetualSwap))]; run_monad;
      [destruct (GetOrderbook E (calls w) (Pair_String E fpair) 100)
         as [tempResp [err|]]
      |destruct (GetSwapOrderbook E (calls w) (Pair_String E fpair) 100)
         as [tempResp [err|]]
      |]; simpl; try done;
      (destruct (if CanVerifyOrderbook c then _ else _); simpl; [done|];
       now destruct (_ !! _)).
  - intros k Hk.
    destruct (UpdateOrderbook_outcome E c p a w)
      as [(b & e & _ & -> & _)|(b & _ & -> & _)]; [done|].
    now apply lookup_insert_ne.
  - intros Herr.
    destruct (UpdateOrderbook_outcome E c p a w)
      as [(b & e & _ & -> & _)|(b & Hfst & _)]; [done|].
    rewrite Hfst in Herr. now destruct Herr.
Qed.

(** X16.  [SubmitOrder] sets [IsOrderPlaced] exactly when it returns no
    error, and beside an error it returns the empty response.  It writes
    no store and makes at most one request: the order with the
    submission's price, amount, side, type and client ID, for the pair in
    the format of the spot asset whatever the asset type of the
    submission. *)
Theorem order_is_placed_iff_no_error (E : Env) (c : Coinbene)
    (s : order.Submit) (w : World) :
  let r := SubmitOrder E c s w in
  let symbol :=
    Pair_String E (fst (FormatExchangeCurrency E c (order.Pair s) asset.Spot))
  in
  (order.IsOrderPlaced (fst (fst r)) = true <-> snd (fst r) = None)
  /\ (snd (fst r) <> None -> fst (fst r) = order.SubmitResponse_zero)
  /\ books (snd r) = books w
  /\ tickers (snd r) = tickers w
  /\ (calls (snd r) = calls w
      \/ calls (snd r)
         = calls w
           ++ [REST (ReqPlaceSpotOrder (order.Price s) (order.Amount s)
                       symbol (order.SubmitSide s) (order.SubmitType s)
                       (order.ClientID s) 0)]).
Proof.
  simpl. unfold SubmitOrder.
  destruct (Submit_Validate E s) as [err|]; simpl;
    [repeat split; auto; discriminate|].
  destruct (_ && _); simpl; [repeat split; auto; discriminate|].
  destruct (FormatExchangeCurrency E c (order.Pair s) asset.Spot)
    as [fpair [err|]]; simpl; [repeat split; auto; discriminate|].
  run_monad.
  destruct (PlaceSpotOrder _ _ _ _ _ _ _ _ _) as [tempResp [err|]]; simpl;
    repeat split; auto; try discriminate.
  now intros H.
Qed.

(** X17.  [Setup] writes no store and stops at the first step that fails.
    A disabled configuration turns the exchange off and does nothing else.
    A failure of the defaults is returned before anything is set up.  And
    a connection is set up only after the websocket was: when a connection
    set-up is among the calls, the calls are the websocket set-up and that
    connection set-up, the websocket set-up had succeeded, and the error
    returned is the connection set-up's. *)
Theorem setup_stops_at_the_first_failure (E : Env) (c : Coinbene)
    (exch : config.Exchange) (w : World) :
  let r := Setup E c exch w in
  books (snd r) = books w
  /\ tickers (snd r) = tickers w
  /\ (config.Enabled exch = false ->
      r = ((SetEnabled c false, None), w)
      /\ Enabled (fst (fst r)) = false
      /\ Websocket (fst (fst r)) = Websocket c)
  /\ (forall e,
         config.Enabled exch = true ->
         snd (SetupDefaults E c exch) = Some e ->
         r = ((fst (SetupDefaults E c exch), Some e), w))
  /\ (forall n,
         WebsocketSetupNewConnection n ∈ calls_made (Setup E c exch) w ->
         exists s ws,
           calls_made (Setup E c exch) w
           = [WebsocketSetup s; WebsocketSetupNewConnection n]
           /\ Websocket_Setup E (Websocket (fst (SetupDefaults E c exch))) s
              = (ws, None)
           /\ snd (fst r) = snd (Websocket_SetupNewConnection E ws n)
           /\ Websocket (fst (fst r))
              = fst (Websocket_SetupNewConnection E ws n)).
Proof.
  simpl. unfold calls_made, Setup.
  destruct (config.Enabled exch); simpl.
  2:{ split; [done|]. split; [done|]. split; [done|]. split; [done|].
      intros n Hn. rewrite drop_all in Hn. now apply elem_of_nil in Hn. }
  destruct (SetupDefaults E c exch) as [c' [err|]]; simpl.
  { split; [done|]. split; [done|]. split; [done|].
    split; [now intros e _ [= ->]|].
    intros n Hn. rewrite drop_all in Hn. now apply elem_of_nil in Hn. }
  destruct (GetURL E c' exchange.WebsocketSpot) as [url [err|]]; simpl.
  { split; [done|]. split; [done|]. split; [done|]. split; [done|].
    intros n Hn. rewrite drop_all in Hn. now apply elem_of_nil in Hn. }
  run_monad.
  destruct (Websocket_Setup E (Websocket c') _) as [ws [err|]] eqn:Hws;
    simpl.
  - split; [done|]. split; [done|]. split; [done|]. split; [done|].
    intros n Hn. rewrite drop_app_length in Hn.
    apply elem_of_cons in Hn as [Hn|Hn]; [discriminate|].
    now apply elem_of_nil in Hn.
  - split; [done|]. split; [done|]. split; [done|]. split; [done|].
    intros n Hn. rewrite <- app_assoc, drop_app_length in Hn.
    rewrite <- app_assoc, drop_app_length.
    apply elem_of_cons in Hn as [Hn|Hn]; [discriminate|].
    apply elem_of_cons in Hn as [Hn|Hn]; [|now apply elem_of_nil in Hn].
    injection Hn as ->. eexists _, ws. split; [reflexivity|].
    split; [exact Hws|]. split; reflexivity.
Qed.

Example disabled_exchange_is_not_set_up :
  Setup Example.up Example.coinbene
    {| config.Name := "Coinbene"; config.Enabled := false;
       config.HTTPTimeout := 15000000000%Z;
       config.WebsocketResponseCheckTimeout := 30000000%Z;
       config.WebsocketResponseMaxLimit := 7000000000%Z |}
    Example.start
  = ((SetEnabled Example.coinbene false, None), Example.start).
Proof. reflexivity. Qed.

(** A submission whose side is neither Buy nor Sell places nothing. *)
Example unknown_side_places_nothing :
  let r :=
    SubmitOrder Example.up Example.coinbene
      {| order.Pair := Example.btc_usdt; order.AssetType := asset.Spot;
         order.SubmitSide := "LONG"; order.SubmitType := "LIMIT";
         order.Price := 10000%float; order.Amount := 1%float;
         order.ClientID := "client-8" |}
      Example.start in
  order.IsOrderPlaced (fst (fst r)) = false
  /\ snd (fst r) = Some "LONG orderside is not supported by this exchange"
  /\ calls (snd r) = [].
Proof. vm_compute. repeat split. Qed.

(** ** The account side *)

Ltac run_account :=
  unfold UserAccount.bind, UserAccount.ret, UserAccount.rest,
    UserAccount.perform, UserAccount.read; simpl.

(** The loop of [GetDepositAddress] finds the first address of the chain. *)
Lemma GetDepositAddress_loop_spec (A : UserAccount.AccountEnv)
    (d : list UserAccount.DepositAddress) (chain : string) :
  match UserAccount.GetDepositAddress_loop A d chain with
  | Some x =>
      exists i,
        d !! i = Some x
        /\ UserAccount.strings_EqualFold A (UserAccount.Chain x) chain = true
        /\ forall j y,
             (j < i)%nat -> d !! j = Some y ->
             UserAccount.strings_EqualFold A (UserAccount.Chain y) chain
             = false
  | None =>
      forall y,
        y ∈ d ->
        UserAccount.strings_EqualFold A (UserAccount.Chain y) chain = false
  end.
Proof.
  induction d as [|x d IH]; simpl.
  - intros y Hy. now apply elem_of_nil in Hy.
  - destruct (UserAccount.strings_EqualFold A (UserAccount.Chain x) chain)
      eqn:Hx.
    + exists 0%nat. repeat split; [done|]. intros j y Hj. lia.
    + destruct (UserAccount.GetDepositAddress_loop A d chain) as [x'|].
      * destruct IH as (i & Hi & Hfold & Hfirst). exists (S i).
        split; [done|]. split; [done|].
        intros [|j] y Hj Hy; simpl in Hy.
        -- now injection Hy as <-.
        -- apply (Hfirst j); [lia|done].
      * intros y Hy. apply elem_of_cons in Hy as [->|Hy]; auto.
Qed.

(** X18.  [GetDepositAddress] makes one request, for the addresses of the
    currency, and returns an address or an error, never both and never
    neither.  The address it returns is one of the exchange's: the first of
    the list when no chain is asked for, and otherwise the first whose chain
    is the chain asked for, letter case apart.  It fails with the
    exchange's error; with "no address(es) returned, ..." when the list is
    empty; and with "no chain <chain> found" when a chain is asked for
    that no address of the list has. *)
Theorem deposit_address_is_the_first_of_its_chain
    (A : UserAccount.AccountEnv) (c : Coinbene) (curr : currency'.Code)
    (accountID chain : string) (h : list UserAccount.Event) :
  let r := UserAccount.GetDepositAddress A c curr accountID chain h in
  let d := fst (UserAccount.ListDepositAddress A h curr) in
  let failure := snd (UserAccount.ListDepositAddress A h curr) in
  let same_chain x :=
    UserAccount.strings_EqualFold A (UserAccount.Chain x) chain in
  snd r = h ++ [UserAccount.REST (UserAccount.ReqListDepositAddress curr)]
  /\ (fst (fst r) = None <-> snd (fst r) <> None)
  /\ (forall addr,
         fst (fst r) = Some addr ->
         exists i x,
           d !! i = Some x
           /\ addr = address_of x
           /\ (chain = "" -> i = 0%nat)
           /\ (chain <> "" ->
               same_chain x = true
               /\ forall j y,
                    (j < i)%nat -> d !! j = Some y -> same_chain y = false))
  /\ (forall e, failure = Some e -> fst r = (None, Some e))
  /\ (failure = None ->
      d = [] ->
      fst r
      = (None,
         Some "no address(es) returned, please create one via the Coinbene website"))
  /\ (failure = None ->
      d <> [] ->
      chain <> "" ->
      (forall y, y ∈ d -> same_chain y = false) ->
      fst r = (None, Some ("no chain " +:+ chain +:+ " found"))).
Proof.
  unfold UserAccount.GetDepositAddress. run_account.
  destruct (UserAccount.ListDepositAddress A h curr) as [d [e|]]; simpl.
  { split; [done|]. split; [split; [discriminate|done]|].
    split; [discriminate|]. split; [now intros e' [= ->]|].
    split; discriminate. }
  destruct d as [|d0 d]; simpl.
  { split; [done|]. split; [split; [discriminate|done]|].
    split; [discriminate|]. split; [discriminate|].
    split; [done|]. now intros _ Hd. }
  destruct (decide (chain = "")) as [->|Hchain].
  { simpl. split; [done|]. split; [split; [discriminate|now intros H]|].
    split.
    - intros addr [= <-]. exists 0%nat, d0. repeat split; try done.
    - split; [discriminate|]. split; [discriminate|]. now intros _ _ H. }
  rewrite bool_decide_eq_true_2 by done.
  pose proof (GetDepositAddress_loop_spec A (d0 :: d) chain) as Hloop.
  simpl in Hloop.
  destruct (UserAccount.strings_EqualFold A (UserAccount.Chain d0) chain)
    eqn:Hd0; simpl.
  { split; [done|]. split; [split; [discriminate|now intros H]|].
    split.
    - intros addr [= <-]. destruct Hloop as (i & Hi & Hfold & Hfirst).
      exists i, d0. repeat split; try done.
    - split; [discriminate|]. split; [discriminate|].
      intros _ _ _ Hnone. specialize (Hnone d0). rewrite Hd0 in Hnone.
      discriminate Hnone. left. }
  destruct (UserAccount.GetDepositAddress_loop A d chain) as [x|] eqn:Hfound;
    simpl.
  - split; [done|]. split; [split; [discriminate|now intros H]|].
    split.
    + intros addr [= <-]. destruct Hloop as (i & Hi & Hfold & Hfirst).
      exists i, x. repeat split; try done.
    + split; [discriminate|]. split; [discriminate|].
      intros _ _ _ Hnone. destruct Hloop as (i & Hi & Hfold & _).
      apply list_elem_of_lookup_2 in Hi. rewrite (Hnone x Hi) in Hfold.
      discriminate.
  - split; [done|]. split; [split; [discriminate|done]|].
    split; [discriminate|]. split; [discriminate|].
    split; [discriminate|]. reflexivity.
Qed.

Example deposit_addresses_of_the_ledger :
  fst (UserAccount.GetDepositAddress Ledger.env Example.coinbene "USDT" ""
         "trc20" [])
  = (Some {| deposit.Address_ := "TQn9"; deposit.Tag := "memo-7" |}, None)
  /\ fst (UserAccount.GetDepositAddress Ledger.env Example.coinbene "USDT" ""
            "" [])
     = (Some {| deposit.Address_ := "1Boat"; deposit.Tag := "" |}, None)
  /\ fst (UserAccount.GetDepositAddress Ledger.env Example.coinbene "USDT" ""
            "OMNI" [])
     = (None, Some "no chain OMNI found").
Proof. vm_compute. repeat split. Qed.

(** X19.  [GetAvailableTransferChains] makes one request, for the addresses
    of the currency, and returns the chains the exchange's addresses name,
    in the order of the addresses: a chain is returned exactly when it is
    not the empty string and some address has it.  An address that names
    no chain adds nothing. *)
Theorem transfer_chains_are_the_named_ones (A : UserAccount.AccountEnv)
    (c : Coinbene) (curr : currency'.Code) (h : list UserAccount.Event) :
  let r := UserAccount.GetAvailableTransferChains A c curr h in
  let d := fst (UserAccount.ListDepositAddress A h curr) in
  snd r = h ++ [UserAccount.REST (UserAccount.ReqListDepositAddress curr)]
  /\ (forall e,
         snd (UserAccount.ListDepositAddress A h curr) = Some e ->
         fst r = ([], Some e))
  /\ (forall chains,
         fst r = (chains, None) ->
         chains `sublist_of` map UserAccount.Chain d
         /\ forall ch,
              ch ∈ chains
              <-> ch <> "" /\ exists x, x ∈ d /\ UserAccount.Chain x = ch).
Proof.
  unfold UserAccount.GetAvailableTransferChains. run_account.
  destruct (UserAccount.ListDepositAddress A h curr) as [d [e|]]; simpl.
  { split; [done|]. split; [now intros e' [= ->]|]. discriminate. }
  split; [done|]. split; [discriminate|].
  intros chains [= <-]. split.
  - apply fmap_sublist, sublist_filter.
  - intros ch. rewrite list_elem_of_fmap. split.
    + intros (x & -> & Hx). apply list_elem_of_filter in Hx as [Hne Hx].
      split; [done|]. eauto.
    + intros (Hne & x & Hx & <-). exists x. split; [done|].
      now apply list_elem_of_filter.
Qed.

(** X20.  The chains of [GetAvailableTransferChains] are chains
    [GetDepositAddress] finds an address for.  Where a string equals itself
    letter case apart, and the exchange lists the same addresses to both
    calls, every chain the first call returns makes the second one return
    an address of that chain, and no error. *)
Theorem every_listed_chain_has_an_address (A : UserAccount.AccountEnv)
    (c : Coinbene) (curr : currency'.Code) (accountID ch : string)
    (h h' : list UserAccount.Event) :
  (forall s, UserAccount.strings_EqualFold A s s = true) ->
  UserAccount.ListDepositAddress A h' curr
  = UserAccount.ListDepositAddress A h curr ->
  ch ∈ fst (fst (UserAccount.GetAvailableTransferChains A c curr h)) ->
  exists x,
    x ∈ fst (UserAccount.ListDepositAddress A h curr)
    /\ UserAccount.strings_EqualFold A (UserAccount.Chain x) ch = true
    /\ fst (UserAccount.GetDepositAddress A c curr accountID ch h')
       = (Some (address_of x), None).
Proof.
  intros Hrefl Hsame.
  unfold UserAccount.GetAvailableTransferChains, UserAccount.GetDepositAddress.
  run_account. rewrite Hsame.
  destruct (UserAccount.ListDepositAddress A h curr) as [d [e|]]; simpl.
  { intros Hch. now apply elem_of_nil in Hch. }
  intros Hch. apply list_elem_of_fmap in Hch as (x0 & -> & Hx0).
  apply list_elem_of_filter in Hx0 as [Hne Hx0].
  destruct d as [|d0 d]; [now apply elem_of_nil in Hx0|].
  rewrite bool_decide_eq_true_2 by done.
  pose proof (GetDepositAddress_loop_spec A (d0 :: d) (UserAccount.Chain x0))
    as Hloop.
  destruct (UserAccount.GetDepositAddress_loop A (d0 :: d)
              (UserAccount.Chain x0)) as [x|].
  - destruct Hloop as (i & Hi & Hfold & _). exists x.
    split; [now apply list_elem_of_lookup_2 in Hi|]. split; [done|].
    reflexivity.
  - specialize (Hloop x0 Hx0). rewrite Hrefl in Hloop. discriminate.
Qed.

Lemma every_listed_chain_has_an_address_witness :
  fst (UserAccount.GetAvailableTransferChains Ledger.env Example.coinbene
         "USDT" [])
  = (["ERC20"; "TRC20"], None)
  /\ exists x,
       UserAccount.Chain x = "ERC20"
       /\ fst (UserAccount.GetDepositAddress Ledger.env Example.coinbene
                 "USDT" "" "ERC20"
                 [UserAccount.REST (UserAccount.ReqListDepositAddress "USDT")])
          = (Some (address_of x), None).
Proof.
  split; [reflexivity|].
  assert (forall s, UserAccount.strings_EqualFold Ledger.env s s = true)
    as Hrefl.
  { intros s. apply bool_decide_eq_true_2. reflexivity. }
  destruct (every_listed_chain_has_an_address Ledger.env Example.coinbene
              "USDT" "" "ERC20" []
              [UserAccount.REST (UserAccount.ReqListDepositAddress "USDT")]
              Hrefl eq_refl) as (x & Hx & Hfold & Hret).
  { change ("ERC20" ∈ ["ERC20"; "TRC20"]). left. }
  exists x. split; [|exact Hret].
  repeat (apply elem_of_cons in Hx as [->|Hx];
          [first [reflexivity|vm_compute in Hfold; discriminate Hfold]|]).
  now apply elem_of_nil in Hx.
Defined.

(** X21.  [UpdateAccountInfo] asks the exchange for the balances and hands
    the account store one set of holdings: it names the exchange and has
    one sub-account with one balance per balance of the answer, in the
    answer's order, whose hold is the reserved amount and whose total is
    reserved plus available.  It returns what the store left of the
    holdings, or the empty holdings with the store's error; when the
    exchange fails it returns the empty holdings and the exchange's error,
    and the store is handed nothing.  The asset type is not read.
    [FetchAccountInfo] returns the holdings the store has, without an event,
    and is [UpdateAccountInfo] when the store has none. *)
Theorem account_balances_are_totalled (A : UserAccount.AccountEnv)
    (c : Coinbene) (a : asset.Item) (h : list UserAccount.Event) :
  let r := UserAccount.UpdateAccountInfo A c a h in
  let asked := h ++ [UserAccount.REST UserAccount.ReqGetAccountBalances] in
  (forall e,
      snd (UserAccount.GetAccountBalances A h) = Some e ->
      r = ((account.Holdings_zero, Some e), asked))
  /\ (forall balance,
         UserAccount.GetAccountBalances A h = (balance, None) ->
         exists info acc,
           snd r = asked ++ [UserAccount.Process info]
           /\ account.Exchange info = Name c
           /\ account.Accounts info = [acc]
           /\ length (account.Currencies acc) = length balance
           /\ (forall i b,
                  balance !! i = Some b ->
                  exists bal,
                    account.Currencies acc !! i = Some bal
                    /\ account.CurrencyName bal
                       = UserAccount.NewCode A (UserAccount.Asset b)
                    /\ account.Hold bal = UserAccount.Reserved b
                    /\ account.TotalValue bal
                       = PrimFloat.add (UserAccount.Reserved b)
                           (UserAccount.Available b))
           /\ fst r
              = match UserAccount.account_Process A asked info with
                | (_, Some e) => (account.Holdings_zero, Some e)
                | (info', None) => (info', None)
                end)
  /\ (forall a', UserAccount.UpdateAccountInfo A c a' h = r)
  /\ (forall acc,
         UserAccount.account_GetHoldings A h (Name c) a = (acc, None) ->
         UserAccount.FetchAccountInfo A c a h = ((acc, None), h))
  /\ (snd (UserAccount.account_GetHoldings A h (Name c) a) <> None ->
      UserAccount.FetchAccountInfo A c a h = r).
Proof.
  unfold UserAccount.FetchAccountInfo, UserAccount.UpdateAccountInfo.
  run_account. split; [|split; [|split; [|split]]].
  - intros e He.
    destruct (UserAccount.GetAccountBalances A h) as [balance err].
    simpl in He. now subst err.
  - intros balance ->. simpl. eexists _, _.
    split.
    { now destruct (UserAccount.account_Process A _ _) as [info' [e|]]. }
    split; [reflexivity|]. split; [reflexivity|]. simpl.
    split; [apply length_map|]. split.
    + intros i b Hb. eexists. split.
      * rewrite list_lookup_fmap, Hb. reflexivity.
      * repeat split.
    + now destruct (UserAccount.account_Process A _ _) as [info' [e|]].
  - reflexivity.
  - intros acc ->. reflexivity.
  - intros Hmiss.
    destruct (UserAccount.account_GetHoldings A h (Name c) a) as [acc [e|]];
      [reflexivity|now destruct Hmiss].
Qed.

Example balances_of_the_ledger :
  let r := UserAccount.FetchAccountInfo Ledger.env Example.coinbene asset.Spot
             [] in
  map (fun s => map account.TotalValue (account.Currencies s))
    (account.Accounts (fst (fst r)))
  = [[2%float; 1000%float]]
  /\ UserAccount.FetchAccountInfo Ledger.env Example.coinbene asset.Spot
       (snd r)
     = (fst r, snd r).
Proof. vm_compute. split; reflexivity. Qed.

(** ** Order listings *)

(** The pairs the first loop of the listings appends are the exchange's
    symbols, parsed one by one. *)
Lemma append_pairs_spec (E : Env) (allPairs : list PairData) :
  forall pairs pairs',
    UserAccount.append_pairs E allPairs pairs = (pairs', None) ->
    exists new,
      pairs' = pairs ++ new
      /\ Forall2
           (fun x p => NewPairFromString E (PairData_Symbol x) = (p, None))
           allPairs new.
Proof.
  induction allPairs as [|x allPairs IH]; intros pairs pairs'; simpl.
  - intros [= <-]. exists []. rewrite app_nil_r. split; [done|constructor].
  - destruct (NewPairFromString E (PairData_Symbol x)) as [p [err|]] eqn:Hp;
      [discriminate|].
    intros Happ. apply IH in Happ as (new & -> & Hnew).
    exists (p :: new). rewrite <- app_assoc. split; [done|].
    now constructor.
Qed.

(** How the listings begin: the exchange is asked for its pairs exactly when
    the request names none, and a request that names pairs is left as it
    is. *)
Lemma all_pairs_if_none_spec (E : Env) (A : UserAccount.AccountEnv)
    (req : order'.GetOrdersRequest) (h : list UserAccount.Event) :
  let r := UserAccount.all_pairs_if_none E A req h in
  snd r = h ++ all_pairs_request req
  /\ (order'.Pairs req <> [] -> fst r = (req, None))
  /\ (snd (fst r) = None ->
      order'.Pairs req = [] ->
      Forall2 (fun x p => NewPairFromString E (PairData_Symbol x) = (p, None))
        (fst (UserAccount.GetAllPairs A h)) (order'.Pairs (fst (fst r)))).
Proof.
  unfold UserAccount.all_pairs_if_none, all_pairs_request.
  destruct req as [pairs]. simpl. destruct pairs as [|p pairs]; simpl.
  - run_account.
    destruct (UserAccount.GetAllPairs A h) as [allPairs [err|]]; simpl;
      [repeat split; done|].
    destruct (UserAccount.append_pairs E allPairs []) as [pairs' err]
      eqn:Happ; simpl.
    split; [done|]. split; [done|]. intros -> _.
    apply append_pairs_spec in Happ as (new & -> & Hnew). exact Hnew.
  - unfold UserAccount.ret. simpl. rewrite app_nil_r. repeat split; done.
Qed.

Lemma listed_order_mono (c : Coinbene) (p : currency.Pair)
    (pairs : list currency.Pair) (d : order'.Detail) :
  listed_order c pairs d -> listed_order c (p :: pairs) d.
Proof.
  intros (Hexch & Hpair & Hside & Hrest). repeat split; try done.
  now right.
Qed.

Lemma side_of_cases (A : UserAccount.AccountEnv) (o : UserAccount.OrderInfo) :
  UserAccount.side_of A o = order.Buy \/ UserAccount.side_of A o = order.Sell.
Proof. unfold UserAccount.side_of. destruct (_ A _ _); auto. Qed.

(** The outer loop of [GetActiveOrders]: its requests are those of the pairs
    it got through, all of them when it ends without an error; with an
    error it returns no order. *)
Lemma GetActiveOrders_loop_spec (E : Env) (A : UserAccount.AccountEnv)
    (c : Coinbene) (pairs : list currency.Pair) :
  forall resp h,
    let r := UserAccount.GetActiveOrders_loop E A c pairs resp h in
    (exists n, snd r = h ++ map (open_orders_request E c) (take n pairs))
    /\ match snd (fst r) with
       | Some _ => fst (fst r) = []
       | None =>
           snd r = h ++ map (open_orders_request E c) pairs
           /\ exists new,
                fst (fst r) = resp ++ new
                /\ Forall (listed_order c pairs) new
       end.
Proof.
  induction pairs as [|p pairs IH]; intros resp h; simpl.
  - split; [exists 0%nat; now rewrite app_nil_r|].
    rewrite app_nil_r. split; [done|]. exists []. now rewrite app_nil_r.
  - pose proof (eq_refl (open_orders_request E c p)) as Hreq.
    unfold open_orders_request at 2 in Hreq.
    destruct (FormatExchangeCurrency E c p asset.Spot) as [fpair [err|]]
      eqn:Hfmt; try rewrite Hfmt in Hreq; simpl in Hreq; simpl;
      [split; [exists 0%nat; now rewrite app_nil_r|done]|].
    run_account.
    destruct (UserAccount.FetchOpenSpotOrders A h (Pair_String E fpair))
      as [tempData [err|]]; simpl;
      [split; [exists 1%nat; simpl; rewrite ?take_0; simpl; now rewrite Hreq
              |done]|].
    match goal with
    | |- context [UserAccount.GetActiveOrders_loop E A c pairs ?resp1 ?h1] =>
        destruct (IH resp1 h1) as ((n & Hprefix) & Hend)
    end.
    split.
    + exists (S n). rewrite Hprefix. simpl. rewrite Hreq.
      now rewrite <- app_assoc.
    + destruct (snd (fst (UserAccount.GetActiveOrders_loop E A c pairs _ _)))
        as [err|]; [done|].
      destruct Hend as (Hcalls & new & Hresp & Hnew). split.
      * rewrite Hcalls. simpl. rewrite Hreq. now rewrite <- app_assoc.
      * exists (map (UserAccount.active_order A c p) tempData ++ new).
        split; [now rewrite Hresp, <- app_assoc|].
        apply Forall_app. split.
        -- apply Forall_fmap, Forall_true. intros o.
           unfold listed_order. simpl. repeat split; [left|].
           apply side_of_cases.
        -- eapply Forall_impl; [exact Hnew|]. intros d.
           apply listed_order_mono.
Qed.

(** X22.  [GetActiveOrders].  A request that fails validation costs no
    request to the exchange.  A request that names no pair is given the
    pairs of the exchange, parsed from their symbols, and keeps them; one
    that names pairs is left as it is.  The open orders are then asked for
    pair by pair, in the order of the pairs, each pair in the format of the
    spot asset, and nothing else is asked.  Every order returned names the
    exchange and one of those pairs, is a Buy or a Sell, and has for
    remaining amount its amount less the executed amount.  A call that
    fails returns no order, also when earlier pairs had been listed. *)
Theorem active_orders_are_listed_pair_by_pair (E : Env)
    (A : UserAccount.AccountEnv) (c : Coinbene)
    (req : order'.GetOrdersRequest) (h : list UserAccount.Event) :
  let r := UserAccount.GetActiveOrders E A c req h in
  let details := fst (fst (fst r)) in
  let err := snd (fst (fst r)) in
  let req' := snd (fst r) in
  (UserAccount.GetOrdersRequest_Validate A req <> None ->
   snd r = h /\ req' = req /\ err <> None)
  /\ (err <> None -> details = [])
  /\ (order'.Pairs req <> [] -> req' = req)
  /\ (err = None ->
      order'.Pairs req = [] ->
      Forall2 (fun x p => NewPairFromString E (PairData_Symbol x) = (p, None))
        (fst (UserAccount.GetAllPairs A h)) (order'.Pairs req'))
  /\ (err = None ->
      snd r
      = h ++ all_pairs_request req
          ++ map (open_orders_request E c) (order'.Pairs req'))
  /\ (forall d, d ∈ details -> listed_order c (order'.Pairs req') d).
Proof.
  unfold UserAccount.GetActiveOrders.
  destruct (UserAccount.GetOrdersRequest_Validate A req) as [e|]; simpl.
  { split; [done|]. split; [done|]. split; [done|]. split; [done|].
    split; [done|]. intros d Hd. now apply elem_of_nil in Hd. }
  unfold UserAccount.bind, UserAccount.ret.
  pose proof (all_pairs_if_none_spec E A req h) as (Hasked & Hkept & Hgiven).
  destruct (UserAccount.all_pairs_if_none E A req h) as [[req1 [e|]] h1];
    simpl in *.
  { split; [done|]. split; [done|].
    split; [intros Hp; now specialize (Hkept Hp)|].
    split; [done|]. split; [done|].
    intros d Hd. now apply elem_of_nil in Hd. }
  pose proof (GetActiveOrders_loop_spec E A c (order'.Pairs req1) [] h1)
    as (_ & Hend).
  destruct (UserAccount.GetActiveOrders_loop E A c (order'.Pairs req1) [] h1)
    as [[details err] h2]; simpl in *.
  split; [done|]. split; [|split; [|split; [|split]]].
  - destruct err; [done|]. now intros H.
  - intros Hp. specialize (Hkept Hp). congruence.
  - intros _. now apply Hgiven.
  - intros ->. destruct Hend as (-> & _). now rewrite Hasked, <- app_assoc.
  - intros d Hd. destruct err as [e|].
    + subst details. now apply elem_of_nil in Hd.
    + destruct Hend as (_ & new & -> & Hnew).
      rewrite Forall_forall in Hnew. now apply Hnew.
Qed.

Example active_orders_of_the_ledger :
  let r :=
    UserAccount.GetActiveOrders Market.clean Ledger.env Example.coinbene
      {| order'.Pairs := [] |} [] in
  snd (fst (fst r)) = None
  /\ order'.Pairs (snd (fst r)) = [Example.btc_usdt; Market.eth_usdt]
  /\ snd r
     = [UserAccount.REST UserAccount.ReqGetAllPairs;
        UserAccount.REST (UserAccount.ReqFetchOpenSpotOrders "BTC/USDT");
        UserAccount.REST (UserAccount.ReqFetchOpenSpotOrders "ETH/USDT")]
  /\ map (fun d => (order'.OrderSide d, order'.OrderStatus d,
                    order'.RemainingAmount d))
       (fst (fst (fst r)))
     = [("SELL", "OPEN", 1.5%float); ("BUY", "UNKNOWN", 1%float)].
Proof. vm_compute. repeat split. Qed.

(** A closed order of a listing before [InferCostsAndTimes]: a listed order
    whose cost is counted in the quote currency of its pair. *)
Lemma closed_order_listed (A : UserAccount.AccountEnv) (c : Coinbene)
    (p : currency.Pair) (pairs : list currency.Pair)
    (o : UserAccount.OrderInfo) :
  p ∈ pairs ->
  listed_order c pairs (UserAccount.closed_order A c p o)
  /\ order'.CostAsset (UserAccount.closed_order A c p o)
     = currency.Quote (order'.Pair (UserAccount.closed_order A c p o)).
Proof.
  intros Hp. unfold listed_order. simpl. repeat split; [done|].
  apply side_of_cases.
Qed.

(** The outer loop of [GetOrderHistory], as the one of [GetActiveOrders]. *)
Lemma GetOrderHistory_loop_spec (E : Env) (A : UserAccount.AccountEnv)
    (c : Coinbene) (pairs : list currency.Pair) :
  forall resp h,
    let r := UserAccount.GetOrderHistory_loop E A c pairs resp h in
    (exists n, snd r = h ++ map (closed_orders_request E c) (take n pairs))
    /\ match snd (fst r) with
       | Some _ => fst (fst r) = []
       | None =>
           snd r = h ++ map (closed_orders_request E c) pairs
           /\ exists new,
                fst (fst r) = resp ++ new
                /\ Forall
                     (fun d =>
                        exists d0,
                          d = UserAccount.InferCostsAndTimes A d0
                          /\ listed_order c pairs d0
                          /\ order'.CostAsset d0
                             = currency.Quote (order'.Pair d0))
                     new
       end.
Proof.
  induction pairs as [|p pairs IH]; intros resp h; simpl.
  - split; [exists 0%nat; now rewrite app_nil_r|].
    rewrite app_nil_r. split; [done|]. exists []. now rewrite app_nil_r.
  - pose proof (eq_refl (closed_orders_request E c p)) as Hreq.
    unfold closed_orders_request at 2 in Hreq.
    destruct (FormatExchangeCurrency E c p asset.Spot) as [fpair [err|]]
      eqn:Hfmt; try rewrite Hfmt in Hreq; simpl in Hreq; simpl;
      [split; [exists 0%nat; now rewrite app_nil_r|done]|].
    run_account.
    destruct (UserAccount.FetchClosedOrders A h (Pair_String E fpair) "")
      as [tempData [err|]]; simpl;
      [split; [exists 1%nat; simpl; rewrite ?take_0; simpl; now rewrite Hreq
              |done]|].
    match goal with
    | |- context [UserAccount.GetOrderHistory_loop E A c pairs ?resp1 ?h1] =>
        destruct (IH resp1 h1) as ((n & Hprefix) & Hend)
    end.
    split.
    + exists (S n). rewrite Hprefix. simpl. rewrite Hreq.
      now rewrite <- app_assoc.
    + destruct (snd (fst (UserAccount.GetOrderHistory_loop E A c pairs _ _)))
        as [err|]; [done|].
      destruct Hend as (Hcalls & new & Hresp & Hnew). split.
      * rewrite Hcalls. simpl. rewrite Hreq. now rewrite <- app_assoc.
      * eexists (map _ tempData ++ new).
        split; [now rewrite Hresp, <- app_assoc|].
        apply Forall_app. split.
        -- apply Forall_fmap, Forall_true. intros o. simpl.
           exists (UserAccount.closed_order A c p o). split; [done|].
           apply closed_order_listed. left.
        -- eapply Forall_impl; [exact Hnew|].
           intros d (d0 & -> & Hlisted & Hcost). exists d0.
           split; [done|]. split; [|done]. now apply listed_order_mono.
Qed.

(** X23.  [GetOrderHistory] runs as [GetActiveOrders] does, on the closed
    orders: validation first, the exchange's pairs for a request that names
    none, then one listing per pair, asked for with an empty latest ID, and
    nothing else.  Every order returned is what [InferCostsAndTimes] made
    of an order that names the exchange and one of those pairs, is a Buy
    or a Sell, has for remaining amount its amount less the executed
    amount, and counts its cost in the quote currency of its pair.  A call
    that fails returns no order. *)
Theorem order_history_is_listed_pair_by_pair (E : Env)
    (A : UserAccount.AccountEnv) (c : Coinbene)
    (req : order'.GetOrdersRequest) (h : list UserAccount.Event) :
  let r := UserAccount.GetOrderHistory E A c req h in
  let details := fst (fst (fst r)) in
  let err := snd (fst (fst r)) in
  let req' := snd (fst r) in
  (UserAccount.GetOrdersRequest_Validate A req <> None ->
   snd r = h /\ req' = req /\ err <> None)
  /\ (err <> None -> details = [])
  /\ (order'.Pairs req <> [] -> req' = req)
  /\ (err = None ->
      order'.Pairs req = [] ->
      Forall2 (fun x p => NewPairFromString E (PairData_Symbol x) = (p, None))
        (fst (UserAccount.GetAllPairs A h)) (order'.Pairs req'))
  /\ (err = None ->
      snd r
      = h ++ all_pairs_request req
          ++ map (closed_orders_request E c) (order'.Pairs req'))
  /\ (forall d,
         d ∈ details ->
         exists d0,
           d = UserAccount.InferCostsAndTimes A d0
           /\ listed_order c (order'.Pairs req') d0
           /\ order'.CostAsset d0 = currency.Quote (order'.Pair d0)).
Proof.
  unfold UserAccount.GetOrderHistory.
  destruct (UserAccount.GetOrdersRequest_Validate A req) as [e|]; simpl.
  { split; [done|]. split; [done|]. split; [done|]. split; [done|].
    split; [done|]. intros d Hd. now apply elem_of_nil in Hd. }
  unfold UserAccount.bind, UserAccount.ret.
  pose proof (all_pairs_if_none_spec E A req h) as (Hasked & Hkept & Hgiven).
  destruct (UserAccount.all_pairs_if_none E A req h) as [[req1 [e|]] h1];
    simpl in *.
  { split; [done|]. split; [done|].
    split; [intros Hp; now specialize (Hkept Hp)|].
    split; [done|]. split; [done|].
    intros d Hd. now apply elem_of_nil in Hd. }
  pose proof (GetOrderHistory_loop_spec E A c (order'.Pairs req1) [] h1)
    as (_ & Hend).
  destruct (UserAccount.GetOrderHistory_loop E A c (order'.Pairs req1) [] h1)
    as [[details err] h2]; simpl in *.
  split; [done|]. split; [|split; [|split; [|split]]].
  - destruct err; [done|]. now intros H.
  - intros Hp. specialize (Hkept Hp). congruence.
  - intros _. now apply Hgiven.
  - intros ->. destruct Hend as (-> & _). now rewrite Hasked, <- app_assoc.
  - intros d Hd. destruct err as [e|].
    + subst details. now apply elem_of_nil in Hd.
    + destruct Hend as (_ & new & -> & Hnew).
      rewrite Forall_forall in Hnew. now apply Hnew.
Qed.

Example order_history_of_the_ledger :
  let r :=
    UserAccount.GetOrderHistory Market.clean Ledger.env Example.coinbene
      {| order'.Pairs := [Market.eth_usdt] |} [] in
  snd (fst (fst r)) = None
  /\ snd r
     = [UserAccount.REST (UserAccount.ReqFetchClosedOrders "ETH/USDT" "")]
  /\ map (fun d => (order'.OrderSide d, order'.CostAsset d))
       (fst (fst (fst r)))
     = [("SELL", "USDT")].
Proof. vm_compute. repeat split. Qed.
